(** * Web-to-Epub-Scraper: parser and EPUB generator

    A shallow embedding of [Parser] (chapter discovery, chapter content
    extraction), [EpubGenerator] (container assembly) and the parts of
    [WebToEpubApp] and [Utils] they rely on.

    JavaScript strings are modelled as [string] (a character is one code
    unit, restricted to one byte); the DOM is a tree of text, comment and
    element nodes; the zip archive is a finite map from entry names to entry
    contents; what the browser supplies (URL parsing, the network, the clock,
    random identifiers) is a parameter of the development. *)

From Stdlib Require Import Ascii String List ZArith Lia Bool.
From Stdlib Require Import Permutation Sorted DecimalString DecimalNat.
From stdpp Require Import base gmap strings list.

(** ** JavaScript string primitives *)

Module Js.

(** The double quote character (code unit 34). *)
Definition dquote : ascii := "034"%char.

Definition str (c : ascii) : string := String c EmptyString.

Fixpoint concat (l : list string) : string :=
  match l with
  | [] => EmptyString
  | s :: r => s +:+ concat r
  end.

(** [Array.prototype.join]. *)
Fixpoint join (sep : string) (l : list string) : string :=
  match l with
  | [] => EmptyString
  | [s] => s
  | s :: r => s +:+ sep +:+ join sep r
  end.

(** [s.replace(/c/g, r)] for a one-character pattern [c]. *)
Fixpoint replaceAll (c : ascii) (r : string) (s : string) : string :=
  match s with
  | EmptyString => EmptyString
  | String d t =>
      if Ascii.eqb d c then r +:+ replaceAll c r t
      else String d (replaceAll c r t)
  end.

(** [s.startsWith(p)]; on success the rest of [s] after [p]. *)
Fixpoint stripPrefix (p s : string) : option string :=
  match p, s with
  | EmptyString, _ => Some s
  | String a p', String b s' =>
      if Ascii.eqb a b then stripPrefix p' s' else None
  | String _ _, EmptyString => None
  end.

Definition startsWith (p s : string) : bool :=
  match stripPrefix p s with Some _ => true | None => false end.

(** [s.includes(p)]. *)
Fixpoint includes (p s : string) : bool :=
  startsWith p s ||
  match s with
  | EmptyString => false
  | String _ t => includes p t
  end.

(** White space of [\s] and of [String.prototype.trim] among one-byte code
    units: TAB, LF, VT, FF, CR, SPACE and NO-BREAK SPACE. *)
Definition isSpace (c : ascii) : bool :=
  let n := nat_of_ascii c in
  ((9 <=? n) && (n <=? 13)) || (n =? 32) || (n =? 160).

Definition isDigit (c : ascii) : bool :=
  let n := nat_of_ascii c in (48 <=? n) && (n <=? 57).

Fixpoint trimStart (s : string) : string :=
  match s with
  | EmptyString => EmptyString
  | String c t => if isSpace c then trimStart t else s
  end.

(** [trimEnd] drops a character when it is a space and all that follows
    it has been dropped. *)
Fixpoint trimEnd (s : string) : string :=
  match s with
  | EmptyString => EmptyString
  | String c t =>
      match trimEnd t with
      | EmptyString => if isSpace c then EmptyString else str c
      | t' => String c t'
      end
  end.

Definition trim (s : string) : string := trimEnd (trimStart s).

(** [s.replace(/\s+/g, ' ')]: every maximal run of white space becomes one
    space. *)
Fixpoint collapseFrom (inRun : bool) (s : string) : string :=
  match s with
  | EmptyString => EmptyString
  | String c t =>
      if isSpace c then
        if inRun then collapseFrom true t
        else String " "%char (collapseFrom true t)
      else String c (collapseFrom false t)
  end.

Definition collapseSpaces (s : string) : string := collapseFrom false s.


Definition toLowerChar (c : ascii) : ascii :=
  let n := nat_of_ascii c in
  if ((65 <=? n) && (n <=? 90))
     || ((192 <=? n) && (n <=? 222) && negb (n =? 215))
  then ascii_of_nat (n + 32) else c.

(** [s.toLowerCase()]. *)
Fixpoint toLowerCase (s : string) : string :=
  match s with
  | EmptyString => EmptyString
  | String c t => String (toLowerChar c) (toLowerCase t)
  end.

(** [s.replace(p, r)] for a string pattern [p]: the first occurrence only. *)
Fixpoint replaceFirst (p r s : string) : string :=
  match stripPrefix p s with
  | Some rest => r +:+ rest
  | None =>
      match s with
      | EmptyString => EmptyString
      | String c t => String c (replaceFirst p r t)
      end
  end.

(** Some suffix of [s] (the whole of [s] included) satisfies [f]: an
    unanchored regular expression is tried at every position. *)
Fixpoint anySuffix (f : string -> bool) (s : string) : bool :=
  f s ||
  match s with
  | EmptyString => false
  | String _ t => anySuffix f t
  end.

(** Prefix test that ignores case (the [i] flag); the pattern is given in
    lower case. *)
Fixpoint stripPrefixCI (p s : string) : option string :=
  match p, s with
  | EmptyString, _ => Some s
  | String a p', String b s' =>
      if Ascii.eqb a (toLowerChar b) then stripPrefixCI p' s' else None
  | String _ _, EmptyString => None
  end.

Definition startsWithDigit (s : string) : bool :=
  match s with
  | String c _ => isDigit c
  | EmptyString => false
  end.

(** [s.match(/\d+/)]: the first maximal run of decimal digits. *)
Fixpoint takeDigits (s : string) : string :=
  match s with
  | String c t => if isDigit c then String c (takeDigits t) else EmptyString
  | EmptyString => EmptyString
  end.

Fixpoint matchDigits (s : string) : option string :=
  match s with
  | EmptyString => None
  | String c t => if isDigit c then Some (takeDigits s) else matchDigits t
  end.

(** The integer a run of decimal digits stands for; [parseInt] returns the
    JavaScript number nearest to it, which is the integer itself up to
    2^53 (see [toDouble]). *)
Fixpoint parseDigits (acc : Z) (s : string) : Z :=
  match s with
  | EmptyString => acc
  | String c t => parseDigits (10 * acc + (Z.of_nat (nat_of_ascii c) - 48)) t
  end.

Definition parseInt (digits : string) : Z := parseDigits 0 digits.

(** The JavaScript number nearest to a natural number [n], which is the
    number [parseInt] returns for the digits of [n]: [n] itself when it has
    at most 53 bits, else the nearest number with 53 significant bits, the
    even one of two that are equally near.  From [2^1024 - 2^970] on a
    number rounds to [Infinity], for which [2^1024] stands. *)
Definition toDouble (n : Z) : Z :=
  let bits := (Z.log2 n + 1)%Z in
  if (bits <=? 53)%Z then n
  else
    let shift := (bits - 53)%Z in
    let q := Z.shiftr n shift in
    let r := (n - Z.shiftl q shift)%Z in
    let half := Z.shiftl 1 (shift - 1) in
    let q := if (half <? r)%Z || ((r =? half)%Z && Z.odd q)
             then (q + 1)%Z else q in
    Z.min (Z.shiftl q shift) (2 ^ 1024).

(** Decimal rendering of a number in a template literal. *)
Definition show (n : nat) : string :=
  NilEmpty.string_of_uint (Nat.to_uint n).

(** A string between double quotes. *)
Definition quoted (s : string) : string := str dquote +:+ s +:+ str dquote.

(** The remainder after the last line feed of the leading white space of
    [s], if that white space has a line feed. *)
Fixpoint afterLastLf (s : string) : option string :=
  match s with
  | EmptyString => None
  | String c t =>
      if isSpace c then
        match afterLastLf t with
        | Some r => Some r
        | None => if Ascii.eqb c "010"%char then Some t else None
        end
      else None
  end.

(** [s.replace(/\n\s*\n/g, '\n')]. *)
Fixpoint squeezeFuel (fuel : nat) (s : string) : string :=
  match fuel with
  | O => s
  | S f =>
      match s with
      | EmptyString => EmptyString
      | String c t =>
          if Ascii.eqb c "010"%char then
            match afterLastLf t with
            | Some r => String "010"%char (squeezeFuel f r)
            | None => String c (squeezeFuel f t)
            end
          else String c (squeezeFuel f t)
      end
  end.

Definition squeezeBlankLines (s : string) : string :=
  squeezeFuel (String.length s) s.

(** [s.replace(re, ...)] with the [g] flag, for a regular expression given
    by [m]: at a position where the expression matches, [m] yields the
    replacement and the rest of the string after the match. *)
Fixpoint replaceFuel (fuel : nat) (m : string -> option (string * string))
  (s : string) : string :=
  match fuel with
  | O => s
  | S f =>
      match m s with
      | Some (out, rest) => out +:+ replaceFuel f m rest
      | None =>
          match s with
          | EmptyString => EmptyString
          | String c t => String c (replaceFuel f m t)
          end
      end
  end.

Definition replaceRegex (m : string -> option (string * string))
  (s : string) : string :=
  replaceFuel (String.length s) m s.

(** The text before the first [c] and the text after it. *)
Fixpoint splitAt (c : ascii) (s : string) : option (string * string) :=
  match s with
  | EmptyString => None
  | String d t =>
      if Ascii.eqb d c then Some (EmptyString, t)
      else
        match splitAt c t with
        | Some (x, rest) => Some (String d x, rest)
        | None => None
        end
  end.

Definition isEmpty (s : string) : bool :=
  match s with EmptyString => true | _ => false end.

Fixpoint repeat (c : ascii) (n : nat) : string :=
  match n with
  | O => EmptyString
  | S k => String c (repeat c k)
  end.

(** [s.replace(/[...]/g, r)] for a class of characters [p] and a replacement
    of one character. *)
Fixpoint replaceClass (p : ascii -> bool) (r : ascii) (s : string) : string :=
  match s with
  | EmptyString => EmptyString
  | String c t => String (if p c then r else c) (replaceClass p r t)
  end.

(** [s.replace(/c+/g, r)] for a class of characters [p]: every maximal run
    of characters of the class becomes one [r]. *)
Fixpoint squeezeFrom (p : ascii -> bool) (r : ascii) (inRun : bool)
  (s : string) : string :=
  match s with
  | EmptyString => EmptyString
  | String c t =>
      if p c then
        if inRun then squeezeFrom p r true t
        else String r (squeezeFrom p r true t)
      else String c (squeezeFrom p r false t)
  end.

Definition squeezeRuns (p : ascii -> bool) (r : ascii) (s : string)
  : string :=
  squeezeFrom p r false s.

(** [s.replace(/^c+/, '')] and [s.replace(/c+$/, '')] for a class of
    characters [p]. *)
Fixpoint dropStart (p : ascii -> bool) (s : string) : string :=
  match s with
  | EmptyString => EmptyString
  | String c t => if p c then dropStart p t else s
  end.

Fixpoint dropEnd (p : ascii -> bool) (s : string) : string :=
  match s with
  | EmptyString => EmptyString
  | String c t =>
      match dropEnd p t with
      | EmptyString => if p c then EmptyString else str c
      | t' => String c t'
      end
  end.

(** [s.endsWith(p)]. *)
Fixpoint endsWith (p s : string) : bool :=
  String.eqb p s ||
  match s with
  | EmptyString => false
  | String _ t => endsWith p t
  end.

Definition hexDigits : list ascii :=
  [ "0"; "1"; "2"; "3"; "4"; "5"; "6"; "7"; "8"; "9";
    "a"; "b"; "c"; "d"; "e"; "f" ]%char.

(** [v.toString(16)] for a number [v] from 0 to 15. *)
Definition hexDigit (v : Z) : ascii := nth (Z.to_nat v) hexDigits "0"%char.

End Js.

(** ** The DOM *)

Module Dom.

(** A node of a parsed document.  Element tags are the lower-case local
    names an HTML document gives them. *)
#[local] Unset Elimination Schemes.
Inductive node : Type :=
| Text (data : string)
| Comment (data : string)
| Element (tag : string) (attrs : list (string * string))
    (children : list node).
#[local] Set Elimination Schemes.

Definition isElement (n : node) : bool :=
  match n with Element _ _ _ => true | _ => false end.

Definition tagName (n : node) : string :=
  match n with Element t _ _ => t | _ => EmptyString end.

Definition childNodes (n : node) : list node :=
  match n with Element _ _ ch => ch | _ => [] end.

Fixpoint lookupAttr (name : string) (attrs : list (string * string))
  : option string :=
  match attrs with
  | [] => None
  | (k, v) :: r => if String.eqb k name then Some v else lookupAttr name r
  end.

(** [element.getAttribute(name)]. *)
Definition getAttribute (name : string) (n : node) : option string :=
  match n with
  | Element _ a _ => lookupAttr name a
  | _ => None
  end.

(** [element.className] and [element.id]: the attribute, or the empty
    string. *)
Definition className (n : node) : string :=
  match getAttribute "class" n with Some v => v | None => EmptyString end.

Definition id (n : node) : string :=
  match getAttribute "id" n with Some v => v | None => EmptyString end.

(** [node.textContent] of a text node or an element: the data of the text
    nodes below it, in document order. *)
Fixpoint textContent (n : node) : string :=
  match n with
  | Text d => d
  | Comment _ => EmptyString
  | Element _ _ ch => Js.concat (map textContent ch)
  end.

(** *** Serialization ([innerHTML] getter) *)

Definition voidTags : list string :=
  ["area"; "base"; "br"; "col"; "embed"; "hr"; "img"; "input"; "link";
   "meta"; "source"; "track"; "wbr";
   "basefont"; "bgsound"; "frame"; "keygen"; "param"].

Definition rawTextTags : list string :=
  ["style"; "script"; "xmp"; "iframe"; "noembed"; "noframes"; "plaintext"].

Definition inList (s : string) (l : list string) : bool :=
  existsb (String.eqb s) l.

Definition nbsp : ascii := "160"%char.

Fixpoint escapeText (s : string) : string :=
  match s with
  | EmptyString => EmptyString
  | String c t =>
      (if Ascii.eqb c "&"%char then "&amp;"
       else if Ascii.eqb c nbsp then "&nbsp;"
       else if Ascii.eqb c "<"%char then "&lt;"
       else if Ascii.eqb c ">"%char then "&gt;"
       else Js.str c) +:+ escapeText t
  end.

Fixpoint escapeAttr (s : string) : string :=
  match s with
  | EmptyString => EmptyString
  | String c t =>
      (if Ascii.eqb c "&"%char then "&amp;"
       else if Ascii.eqb c nbsp then "&nbsp;"
       else if Ascii.eqb c Js.dquote then "&quot;"
       else Js.str c) +:+ escapeAttr t
  end.

Fixpoint serializeAttrs (attrs : list (string * string)) : string :=
  match attrs with
  | [] => EmptyString
  | (k, v) :: r =>
      " " +:+ k +:+ "=" +:+ Js.str Js.dquote +:+ escapeAttr v
        +:+ Js.str Js.dquote +:+ serializeAttrs r
  end.

(** The HTML fragment serialization of one node; [raw] tells whether the
    parent is an element whose text is written without escaping. *)
Fixpoint serialize (raw : bool) (n : node) : string :=
  match n with
  | Text d => if raw then d else escapeText d
  | Comment d => "<!--" +:+ d +:+ "-->"
  | Element t a ch =>
      "<" +:+ t +:+ serializeAttrs a +:+ ">" +:+
      (if inList t voidTags then EmptyString
       else
         Js.concat (map (serialize (inList t rawTextTags)) ch)
           +:+ "</" +:+ t +:+ ">")
  end.

Definition serializeAll (raw : bool) (l : list node) : string :=
  Js.concat (map (serialize raw) l).

(** [element.innerHTML]. *)
Definition innerHTML (n : node) : string :=
  match n with
  | Element t _ ch => serializeAll (inList t rawTextTags) ch
  | _ => EmptyString
  end.

(** *** Selectors

    The selector strings of the source are written as syntax trees: a
    selector list (comma) of complex selectors (descendant combinator) of
    compound selectors of simple selectors. *)

Inductive simple : Type :=
| ByTag (t : string)
| ByClass (c : string)
| ById (i : string)
| HasAttr (a : string)
| AttrIs (a v : string)
| AttrContains (a v : string).

Definition compound : Type := list simple.
Definition complex : Type := list compound.
Definition selector : Type := list complex.

(** The white-space separated tokens of a [class] attribute. *)
Definition isAsciiSpace (c : ascii) : bool :=
  let n := nat_of_ascii c in
  (n =? 9) || (n =? 10) || (n =? 12) || (n =? 13) || (n =? 32).

Fixpoint tokensFrom (cur : string) (s : string) : list string :=
  match s with
  | EmptyString => if Js.isEmpty cur then [] else [cur]
  | String c t =>
      if isAsciiSpace c then
        if Js.isEmpty cur then tokensFrom EmptyString t
        else cur :: tokensFrom EmptyString t
      else tokensFrom (cur +:+ Js.str c) t
  end.

Definition classList (attrs : list (string * string)) : list string :=
  match lookupAttr "class" attrs with
  | Some v => tokensFrom EmptyString v
  | None => []
  end.

Definition matchesSimple (tag : string) (attrs : list (string * string))
  (s : simple) : bool :=
  match s with
  | ByTag t => String.eqb tag t
  | ByClass c => inList c (classList attrs)
  | ById i =>
      match lookupAttr "id" attrs with
      | Some v => String.eqb v i
      | None => false
      end
  | HasAttr a =>
      match lookupAttr a attrs with Some _ => true | None => false end
  | AttrIs a v =>
      match lookupAttr a attrs with
      | Some w => String.eqb w v
      | None => false
      end
  | AttrContains a v =>
      match lookupAttr a attrs with
      | Some w => negb (Js.isEmpty v) && Js.includes v w
      | None => false
      end
  end.

Definition matchesCompound (e : string * list (string * string))
  (c : compound) : bool :=
  forallb (matchesSimple (fst e) (snd e)) c.

(** [chain] holds the compounds still to be found among the ancestors,
    nearest first; [anc] the ancestors, nearest first. *)
Fixpoint matchesAncestors (chain : list compound)
  (anc : list (string * list (string * string))) : bool :=
  match chain with
  | [] => true
  | c :: chain' =>
      (fix find (l : list (string * list (string * string))) : bool :=
         match l with
         | [] => false
         | e :: l' =>
             if matchesCompound e c then matchesAncestors chain' l'
             else find l'
         end) anc
  end.

Definition matchesComplex (anc : list (string * list (string * string)))
  (e : string * list (string * string)) (cx : complex) : bool :=
  match rev cx with
  | [] => false
  | subject :: outer => matchesCompound e subject && matchesAncestors outer anc
  end.

Definition matchesSelector (anc : list (string * list (string * string)))
  (e : string * list (string * string)) (sel : selector) : bool :=
  existsb (matchesComplex anc e) sel.

(** The elements of the subtree at [n] ([n] included) that match [sel], in
    document order. *)
Fixpoint selectFrom (sel : selector)
  (anc : list (string * list (string * string))) (n : node) : list node :=
  match n with
  | Element t a ch =>
      (if matchesSelector anc (t, a) sel then [n] else []) ++
      flat_map (selectFrom sel ((t, a) :: anc)) ch
  | _ => []
  end.

Definition selectAll (sel : selector)
  (anc : list (string * list (string * string))) (l : list node)
  : list node :=
  flat_map (selectFrom sel anc) l.

(** A document is the list of its child nodes.  [document.querySelectorAll],
    [document.querySelector], [document.getElementsByTagName]. *)
Definition document : Type := list node.

Definition docQuerySelectorAll (d : document) (sel : selector) : list node :=
  selectAll sel [] d.

Definition docQuerySelector (d : document) (sel : selector) : option node :=
  head (docQuerySelectorAll d sel).

Definition getElementsByTagName (d : document) (tag : string) : list node :=
  docQuerySelectorAll d [[[ByTag tag]]].

(** [element.querySelectorAll] and [element.querySelector]: the descendants
    of the element.  The source calls them with compound selectors only,
    whose matching does not look at ancestors. *)
Definition querySelectorAll (n : node) (sel : selector) : list node :=
  selectAll sel [] (childNodes n).

Definition querySelector (n : node) (sel : selector) : option node :=
  head (querySelectorAll n sel).

(** *** Mutations used by the source, as functions on trees *)

(** [root.querySelectorAll(sel).forEach(el => el.remove())] on the children
    [l] of the root: every matching element leaves with its subtree. *)
Fixpoint removeFrom (sel : selector) (n : node) : list node :=
  match n with
  | Element t a ch =>
      if matchesSelector [] (t, a) sel then []
      else
        [Element t a (flat_map (removeFrom sel) ch)]
  | _ => [n]
  end.

Definition removeAll (sel : selector) (l : list node) : list node :=
  flat_map (removeFrom sel) l.

(** The tree walker over text nodes: every text node gets [f] of its
    data. *)
Fixpoint mapText (f : string -> string) (n : node) : node :=
  match n with
  | Text d => Text (f d)
  | Comment d => Comment d
  | Element t a ch => Element t a (map (mapText f) ch)
  end.

(** The walk over the comments below a root with children [l], each comment
    being removed. *)
Fixpoint removeComments (n : node) : list node :=
  match n with
  | Comment _ => []
  | Element t a ch => [Element t a (flat_map removeComments ch)]
  | Text _ => [n]
  end.

End Dom.

(** ** What the browser and the network supply *)

(** The outcome of one request through a proxy: a failure with the message
    of the error it raises (a rejected [fetch], a status that is not ok, a
    body that cannot be read), or the text it delivers. *)
Inductive response : Type :=
| Failed (message : string)
| Body (text : string).

(** The CORS proxies of [parsePage] and [fetchChapterContent]. *)
Inductive proxy : Type :=
| AllOrigins | CorsAnywhere | CodeTabs | CorsProxy | ThingProxy | Yacdn.

Class Browser : Type := {
  (** [new URL(href, base).href]; [None] when the constructor throws. *)
  urlHref : string -> string -> option string;
  (** [new URL(url).hostname]; [None] when the constructor throws. *)
  urlHostname : string -> option string;
  (** The message of the [TypeError] of the [URL] constructor. *)
  invalidUrlMessage : string;
  (** The messages of the [TypeError] of a property read on [null] and on
      [undefined]. *)
  nullReadMessage : string;
  undefinedReadMessage : string;
  (** [DOMParser.parseFromString(html, 'text/html')]. *)
  parseFromString : string -> Dom.document;
  (** [div.innerHTML = html] on a new [div]: the children it gets. *)
  parseFragment : string -> list Dom.node;
  (** [window.location.href]. *)
  locationHref : string;
  (** The answer of a proxy for a target URL at the [n]-th page load of the
      session. *)
  proxyFetch : proxy -> string -> nat -> response;
  (** The bytes [addCoverImage] obtains for a cover URL, if it obtains
      any. *)
  coverFetch : string -> option string;
  (** [new Date().toISOString()] and [Utils.generateUUID()] at the [n]-th
      assembly of the session. *)
  dateNow : nat -> string;
  randomUUID : nat -> string;
}.

(** ** The state of a session *)

Module State.

Inductive chapterStatus : Type := Pending | Completed | Error.

Definition status_eqb (a b : chapterStatus) : bool :=
  match a, b with
  | Pending, Pending | Completed, Completed | Error, Error => true
  | _, _ => false
  end.

(** The chapter objects pushed by [extractChapters]. *)
Record chapter : Type := {
  url : string;
  baseUrl : string;
  title : string;
  index : nat;
  selected : bool;
  status : chapterStatus;
  content : option string;
  error : option string;
}.

(** What the page shows for a chapter: the check box [#chapter-i] and the
    status text next to it. *)
Record checkbox : Type := {
  checked : bool;
  disabled : bool;
  statusText : string;
}.

(** What a run leaves in its trace: the start of an attempt to fetch the
    chapter at an index, and a call of [Utils.sleep]. *)
Inductive event : Type :=
| Attempt (index : nat)
| Slept (ms : nat).

(** [chapters] is the array [Parser.chapters]; [WebToEpubApp.currentChapters]
    is the same array when [aliased], and an empty array of its own
    otherwise.  [zip] is the archive of the one [EpubGenerator] of the
    application, made when the application starts.  [loads] counts the page
    loads and [packs] the assemblies of the session: they tell the network,
    the clock and the random generator of [Browser] which answer is due.
    [trace] records the attempts and the sleeps. *)
Record session : Type := {
  chapters : list chapter;
  aliased : bool;
  boxes : list checkbox;
  loads : nat;
  packs : nat;
  trace : list event;
  zip : gmap string string;
  packDisabled : bool;
  shownError : option string;
}.

Definition currentChapters (s : session) : list chapter :=
  if aliased s then chapters s else [].

Definition setChapters (l : list chapter) (s : session) : session :=
  {| chapters := l; aliased := aliased s; boxes := boxes s;
     loads := loads s; packs := packs s; trace := trace s; zip := zip s;
     packDisabled := packDisabled s; shownError := shownError s |}.

Definition setAliased (b : bool) (s : session) : session :=
  {| chapters := chapters s; aliased := b; boxes := boxes s;
     loads := loads s; packs := packs s; trace := trace s; zip := zip s;
     packDisabled := packDisabled s; shownError := shownError s |}.

Definition setBoxes (l : list checkbox) (s : session) : session :=
  {| chapters := chapters s; aliased := aliased s; boxes := l;
     loads := loads s; packs := packs s; trace := trace s; zip := zip s;
     packDisabled := packDisabled s; shownError := shownError s |}.

Definition setLoads (n : nat) (s : session) : session :=
  {| chapters := chapters s; aliased := aliased s; boxes := boxes s;
     loads := n; packs := packs s; trace := trace s; zip := zip s;
     packDisabled := packDisabled s; shownError := shownError s |}.

Definition setPacks (n : nat) (s : session) : session :=
  {| chapters := chapters s; aliased := aliased s; boxes := boxes s;
     loads := loads s; packs := n; trace := trace s; zip := zip s;
     packDisabled := packDisabled s; shownError := shownError s |}.

Definition setTrace (t : list event) (s : session) : session :=
  {| chapters := chapters s; aliased := aliased s; boxes := boxes s;
     loads := loads s; packs := packs s; trace := t; zip := zip s;
     packDisabled := packDisabled s; shownError := shownError s |}.

Definition setZip (z : gmap string string) (s : session) : session :=
  {| chapters := chapters s; aliased := aliased s; boxes := boxes s;
     loads := loads s; packs := packs s; trace := trace s; zip := z;
     packDisabled := packDisabled s; shownError := shownError s |}.

Definition setPackDisabled (b : bool) (s : session) : session :=
  {| chapters := chapters s; aliased := aliased s; boxes := boxes s;
     loads := loads s; packs := packs s; trace := trace s; zip := zip s;
     packDisabled := b; shownError := shownError s |}.

Definition setShownError (e : option string) (s : session) : session :=
  {| chapters := chapters s; aliased := aliased s; boxes := boxes s;
     loads := loads s; packs := packs s; trace := trace s; zip := zip s;
     packDisabled := packDisabled s; shownError := e |}.

(** A new page: nothing loaded, an empty archive, the pack button
    disabled. *)
Definition initial : session :=
  {| chapters := []; aliased := false; boxes := []; loads := 0; packs := 0;
     trace := []; zip := ∅; packDisabled := true; shownError := None |}.

(** *** Computations that read and write the session and may throw *)

Inductive outcome (A : Type) : Type :=
| Returned (a : A)
| Thrown (message : string).

Arguments Returned {A} a.
Arguments Thrown {A} message.

Definition M (A : Type) : Type := session -> outcome A * session.

Definition ret {A : Type} (a : A) : M A := fun s => (Returned a, s).

Definition bind {A B : Type} (m : M A) (k : A -> M B) : M B :=
  fun s =>
    match m s with
    | (Returned a, s') => k a s'
    | (Thrown msg, s') => (Thrown msg, s')
    end.

Definition throw {A : Type} (message : string) : M A :=
  fun s => (Thrown message, s).

(** [try { m } catch (error) { handler(error.message) }]: what [m] wrote
    before it threw stays written. *)
Definition tryCatch {A : Type} (m : M A) (handler : string -> M A) : M A :=
  fun s =>
    match m s with
    | (Returned a, s') => (Returned a, s')
    | (Thrown msg, s') => handler msg s'
    end.

Definition get : M session := fun s => (Returned s, s).

Definition modify (f : session -> session) : M unit :=
  fun s => (Returned tt, f s).

Definition emit (e : event) : M unit :=
  modify (fun s => setTrace (trace s ++ [e]) s).

(** [await Utils.sleep(ms)]. *)
Definition sleep (ms : nat) : M unit := emit (Slept ms).

End State.

Declare Scope session_scope.
Delimit Scope session_scope with session.
Notation "'do' x <-- m ; k" := (State.bind m (fun x => k))
  (at level 10, x name, m at level 100, k at level 200) : session_scope.
Notation "'run' m ; k" := (State.bind m (fun _ => k))
  (at level 10, m at level 100, k at level 200) : session_scope.

(** ** Utils *)

Module Utils.

(** [Utils.cleanText]. *)
Definition cleanText (text : string) : string :=
  if Js.isEmpty text then EmptyString
  else Js.trim (Js.squeezeBlankLines (Js.collapseSpaces text)).

(** [Utils.parseHTML]: the parsed document, or the error message. *)
Definition parseHTML `{Browser} (html : string) : string + Dom.document :=
  let doc := parseFromString html in
  match Dom.docQuerySelector doc [[[Dom.ByTag "parsererror"]]] with
  | Some _ => inl "Failed to parse HTML content"
  | None => inr doc
  end.

(** [Utils.unescapeHtml]: the text content of a [div] that received the
    markup as its [innerHTML]. *)
Definition unescapeHtml `{Browser} (html : string) : string :=
  Js.concat (map Dom.textContent (parseFragment html)).

(** [Utils.extractText]. *)
Definition extractText `{Browser} (html : string) : string :=
  cleanText (unescapeHtml html).

(** [Utils.escapeHtml]: the [innerHTML] of a [div] whose [textContent] is
    the text. *)
Definition escapeHtml (text : string) : string :=
  Dom.innerHTML (Dom.Element "div" [] [Dom.Text text]).

(** [Utils.sanitizeHtml]: the children of the [div] when the scripts, the
    styles and the comments have been removed, and their markup. *)
Definition sanitizeNodes (l : list Dom.node) : list Dom.node :=
  flat_map Dom.removeComments
    (Dom.removeAll [[[Dom.ByTag "style"]]]
       (Dom.removeAll [[[Dom.ByTag "script"]]] l)).

Definition sanitizeHtml `{Browser} (html : string) : string :=
  Dom.innerHTML (Dom.Element "div" [] (sanitizeNodes (parseFragment html))).

(** The characters of the class of the first replacement: the angle
    brackets, the colon, the double quote, the slash, the backslash, the
    bar, the question mark and the asterisk. *)
Definition invalidInFilename (c : ascii) : bool :=
  existsb (Ascii.eqb c)
    [ "<"; ">"; ":"; Js.dquote; "/"; "\"; "|"; "?"; "*" ]%char.

Definition isUnderscore (c : ascii) : bool := Ascii.eqb c "_"%char.

(** [Utils.sanitizeFilename].  The third replacement turns a run of two or
    more underscores into one; it leaves a single underscore as it is, so
    every run of underscores becomes one underscore.  The last replacement
    removes the underscores at the start and at the end. *)
Definition sanitizeFilename (filename : string) : string :=
  Js.dropEnd isUnderscore
    (Js.dropStart isUnderscore
       (Js.squeezeRuns isUnderscore "_"%char
          (Js.squeezeRuns Js.isSpace "_"%char
             (Js.replaceClass invalidInFilename "_"%char filename)))).

(** [Utils.getDomain]. *)
Definition getDomain `{Browser} (url : string) : string :=
  match urlHostname url with
  | Some hostname => hostname
  | None => EmptyString
  end.

Definition uuidTemplate : string := "xxxxxxxx-xxxx-4xxx-yxxx-xxxxxxxxxxxx".

(** The replacer of [Utils.generateUUID] over the template, from its
    [k]-th call on: [rnd k] is the value of [Math.random() * 16 | 0] at the
    [k]-th call. *)
Fixpoint fillTemplate (rnd : nat -> Z) (k : nat) (template : string)
  : string :=
  match template with
  | EmptyString => EmptyString
  | String c t =>
      if Ascii.eqb c "x"%char then
        String (Js.hexDigit (rnd k)) (fillTemplate rnd (S k) t)
      else if Ascii.eqb c "y"%char then
        String (Js.hexDigit (Z.lor (Z.land (rnd k) 3) 8))
          (fillTemplate rnd (S k) t)
      else String c (fillTemplate rnd k t)
  end.

(** [Utils.generateUUID]. *)
Definition generateUUID (rnd : nat -> Z) : string :=
  fillTemplate rnd 0 uuidTemplate.

Local Open Scope session_scope.



End Utils.

(** ** A reader of the container

    What a parser of the package document does with character data: it
    resolves the five predefined entity references and the decimal character
    references; every other character stands for itself. *)

Module Reader.

Definition named : list (string * ascii) :=
  [ ("&amp;", "&"%char); ("&lt;", "<"%char); ("&gt;", ">"%char);
    ("&quot;", Js.dquote); ("&apos;", "'"%char) ].

Fixpoint namedReference (table : list (string * ascii)) (s : string)
  : option (ascii * string) :=
  match table with
  | [] => None
  | (name, c) :: r =>
      match Js.stripPrefix name s with
      | Some rest => Some (c, rest)
      | None => namedReference r s
      end
  end.

Definition numericReference (s : string) : option (ascii * string) :=
  match Js.stripPrefix "&#" s with
  | None => None
  | Some r =>
      let digits := Js.takeDigits r in
      if Js.isEmpty digits then None
      else
        match Js.stripPrefix (digits +:+ ";") r with
        | Some rest =>
            let n := Z.to_nat (Js.parseInt digits) in
            if n <? 256 then Some (ascii_of_nat n, rest) else None
        | None => None
        end
  end.

Definition reference (s : string) : option (ascii * string) :=
  match namedReference named s with
  | Some r => Some r
  | None => numericReference s
  end.

Fixpoint decodeFuel (fuel : nat) (s : string) : string :=
  match fuel with
  | O => EmptyString
  | S f =>
      match s with
      | EmptyString => EmptyString
      | String c t =>
          match reference s with
          | Some (d, rest) => String d (decodeFuel f rest)
          | None => String c (decodeFuel f t)
          end
      end
  end.

Definition decode (s : string) : string := decodeFuel (String.length s) s.

End Reader.

(** The metadata object ([metaInfo]). *)
Module Meta.

Record info : Type := {
  title : string;
  author : string;
  language : string;
  description : string;
  subject : string;
  coverImageUrl : string;
  filename : string;
}.

End Meta.

(** ** Parser *)

Module Parser.

Import Dom State.

Record rules : Type := {
  titleSelector : selector;
  authorSelector : selector;
  chapterSelectors : list selector;
  contentSelector : selector;
}.

(** [this.siteSpecificRules], keyed by host name. *)
Definition siteSpecificRules : list (string * rules) :=
  [ ("wuxiaworld.com",
     {| titleSelector := [[[ByClass "novel-title"]]];
        authorSelector := [[[ByClass "author"]]];
        chapterSelectors :=
          [ [[[ByClass "chapter-item"]; [ByTag "a"]]];
            [[[ByClass "wp-manga-chapter"]; [ByTag "a"]]] ];
        contentSelector := [[[ByClass "chapter-content"]]] |});
    ("royalroad.com",
     {| titleSelector := [[[ByClass "fic-title"]; [ByTag "h1"]]];
        authorSelector := [[[ByClass "author-name"]]];
        chapterSelectors := [ [[[ByClass "chapter-row"]; [ByTag "a"]]] ];
        contentSelector := [[[ByClass "chapter-content"]]] |});
    ("novelupdates.com",
     {| titleSelector := [[[ByClass "seriestitlenu"]]];
        authorSelector := [[[ById "showauthors"]]];
        chapterSelectors := [ [[[ById "chapterlist"]; [ByTag "a"]]] ];
        contentSelector := [[[ByClass "chapter-content"]]] |}) ].

Fixpoint lookupRules (host : string) (table : list (string * rules))
  : option rules :=
  match table with
  | [] => None
  | (k, r) :: t => if String.eqb k host then Some r else lookupRules host t
  end.

(** [getDefaultRules].  The joined title, author and content selectors are
    selector lists. *)
Definition getDefaultRules : rules :=
  {| titleSelector :=
       [ [[ByTag "h1"]]; [[ByClass "title"]]; [[ByClass "novel-title"]];
         [[ByClass "story-title"]]; [[AttrIs "property" "og:title"]];
         [[ByTag "title"]] ];
     authorSelector :=
       [ [[ByClass "author"]]; [[ByClass "novel-author"]];
         [[ByClass "story-author"]];
         [[AttrIs "property" "article:author"]];
         [[ByTag "a"; AttrContains "href" "author"]] ];
     chapterSelectors :=
       [ [[[ByClass "chapter-list"]; [ByTag "a"]]];
         [[[ByClass "chapters"]; [ByTag "a"]]];
         [[[ByTag "a"; AttrContains "href" "chapter"]]];
         [[[ByClass "chapter-link"]]];
         [[[ByClass "novel-chapter"]; [ByTag "a"]]];
         [[[ByClass "story-chapter"]; [ByTag "a"]]] ];
     contentSelector :=
       [ [[ByClass "chapter-content"]]; [[ByClass "entry-content"]];
         [[ByTag "article"]]; [[ByClass "post-content"]];
         [[ByClass "content"]] ] |}.

(** [this.siteSpecificRules[hostname] || this.getDefaultRules()]. *)
Definition rulesFor (hostname : string) : rules :=
  match lookupRules hostname siteSpecificRules with
  | Some r => r
  | None => getDefaultRules
  end.

(** [resolveUrl]. *)
Definition resolveUrl `{Browser} (href base : string) : string :=
  match urlHref href base with
  | Some u => u
  | None => href
  end.

(** *** Chapter discovery *)

(** The loop over a list of chapter selectors: the links of the first
    selector that finds any. *)
Fixpoint firstMatching (dom : document) (sels : list selector)
  : list node :=
  match sels with
  | [] => []
  | s :: r =>
      match docQuerySelectorAll dom s with
      | [] => firstMatching dom r
      | links => links
      end
  end.

Definition siteLinks (dom : document) (siteRules : rules) : list node :=
  firstMatching dom (chapterSelectors siteRules).

Definition defaultLinks (dom : document) : list node :=
  firstMatching dom (chapterSelectors getDefaultRules).

(** [/ch\s*\d+/i], [/chapter\s*\d+/i], [/ch\d+/i], [/chapter-\d+/i]. *)
Definition reSpacedNumber (word : string) (s : string) : bool :=
  Js.anySuffix
    (fun t => match Js.stripPrefixCI word t with
              | Some r => Js.startsWithDigit (Js.trimStart r)
              | None => false
              end) s.

Definition reNumber (word : string) (s : string) : bool :=
  Js.anySuffix
    (fun t => match Js.stripPrefixCI word t with
              | Some r => Js.startsWithDigit r
              | None => false
              end) s.

(** The predicate of the aggressive scan. *)
Definition looksLikeChapter (link : node) : bool :=
  match getAttribute "href" link with
  | None => false
  | Some href =>
      let text := Js.toLowerCase (textContent link) in
      negb (Js.isEmpty href) &&
      (Js.includes "chapter" text
       || Js.includes "ch." text
       || reSpacedNumber "ch" text
       || reSpacedNumber "chapter" text
       || Js.includes "chapter" href
       || reNumber "ch" href
       || reNumber "chapter-" href)
  end.

Definition aggressiveLinks (dom : document) : list node :=
  filter looksLikeChapter
    (docQuerySelectorAll dom [[[ByTag "a"; HasAttr "href"]]]).

(** [allChapterLinks] when the three strategies have run. *)
Definition allChapterLinks (dom : document) (siteRules : rules)
  : list node :=
  match siteLinks dom siteRules with
  | [] =>
      match defaultLinks dom with
      | [] => aggressiveLinks dom
      | links => links
      end
  | links => links
  end.

(** The [forEach] over the links: [seen] is [processedUrls], [acc] is
    [this.chapters], [i] the position of the link. *)
Fixpoint processLinks `{Browser} (base : string) (links : list node)
  (i : nat) (seen : gset string) (acc : list chapter) : list chapter :=
  match links with
  | [] => acc
  | link :: rest =>
      match getAttribute "href" link with
      | None => processLinks base rest (S i) seen acc
      | Some href =>
          if Js.isEmpty href then processLinks base rest (S i) seen acc
          else
            let absoluteUrl := resolveUrl href base in
            if decide (absoluteUrl ∈ seen)
            then processLinks base rest (S i) seen acc
            else
              let t := Utils.cleanText (textContent link) in
              let t := if Js.isEmpty t then "Chapter " +:+ Js.show (i + 1)
                       else t in
              processLinks base rest (S i) ({[absoluteUrl]} ∪ seen)
                (acc ++
                 [ {| url := absoluteUrl; baseUrl := base; title := t;
                      index := i; selected := true; status := Pending;
                      content := None; error := None |} ])
      end
  end.

(** The comparator of the sort.  [parseInt] returns a JavaScript number,
    the one nearest to the integer it reads.  The sort looks at the sign of
    what the comparator returns and takes [NaN], which is what the
    difference of two infinite numbers is, for zero: the difference of the
    two numbers taken as integers has that sign. *)
Definition compareChapters (a b : chapter) : Z :=
  match Js.matchDigits (title a), Js.matchDigits (title b) with
  | Some da, Some db =>
      Js.toDouble (Js.parseInt da) - Js.toDouble (Js.parseInt db)
  | _, _ => Z.of_nat (index a) - Z.of_nat (index b)
  end.

(** [Array.prototype.sort] is the host's; it is modelled as the stable
    insertion sort, which is what every stable sort computes when the
    comparator orders the array consistently. *)
Fixpoint insertBy {A : Type} (cmp : A -> A -> Z) (x : A) (l : list A)
  : list A :=
  match l with
  | [] => [x]
  | y :: r => if (0 <? cmp x y)%Z then y :: insertBy cmp x r else x :: l
  end.

Fixpoint sortBy {A : Type} (cmp : A -> A -> Z) (l : list A) : list A :=
  match l with
  | [] => []
  | x :: r => insertBy cmp x (sortBy cmp r)
  end.

(** [extractChapters]: the error message, or [this.chapters]. *)
Definition extractChapters `{Browser} (dom : document) (base : string)
  (siteRules : rules) : string + list chapter :=
  match allChapterLinks dom siteRules with
  | [] => inl "No chapters found on the page"
  | links => inr (sortBy compareChapters (processLinks base links 0 ∅ []))
  end.

(** *** Chapter content *)

Definition skipPatterns : list string :=
  ["header"; "footer"; "sidebar"; "menu"; "nav"; "comment";
   "advertisement"; "breadcrumb"; "pagination"; "social"].

(** [textDensity > 0.5], where [textDensity = text.length / html.length].
    Both lengths are integers far below 2^53, the division is correctly
    rounded and 0.5 is a floating-point number, so the comparison holds
    exactly when twice the text length exceeds the markup length; with an
    empty markup the quotient is [NaN] (no text) or [Infinity]. *)
Definition densityAboveHalf (textLength htmlLength : nat) : bool :=
  htmlLength <? 2 * textLength.

(** [isLikelyContent]. *)
Definition isLikelyContent (element : node) : bool :=
  let cls := Js.toLowerCase (className element) in
  let ident := Js.toLowerCase (id element) in
  if existsb (fun pattern => Js.includes pattern cls
                             || Js.includes pattern ident) skipPatterns
  then false
  else
    let text := Js.trim (textContent element) in
    let html := innerHTML element in
    densityAboveHalf (String.length text) (String.length html).

Definition contentTags : list string := ["article"; "div"; "section"; "main"].

(** The elements in the order the two nested loops of
    [findLargestTextBlock] visit them. *)
Definition scanOrder (dom : document) : list node :=
  flat_map (getElementsByTagName dom) contentTags.

(** One iteration of the inner loop, on [(maxLength, bestElement)]. *)
Definition considerBlock (st : nat * option node) (element : node)
  : nat * option node :=
  if isLikelyContent element then
    let text := Js.trim (textContent element) in
    if fst st <? String.length text then (String.length text, Some element)
    else st
  else st.

(** [findLargestTextBlock]. *)
Definition findLargestTextBlock (dom : document) : option node :=
  snd (fold_left considerBlock (scanOrder dom) (0, None)).

Definition unwantedSelectors : list selector :=
  [ [[[ByTag "script"]]]; [[[ByTag "style"]]]; [[[ByTag "iframe"]]];
    [[[ByTag "form"]]]; [[[ByTag "button"]]]; [[[ByTag "input"]]];
    [[[ByClass "advertisement"]]]; [[[ByClass "ads"]]];
    [[[ByClass "social-share"]]]; [[[ByClass "comments"]]];
    [[[AttrContains "id" "google"]]]; [[[AttrContains "class" "google"]]];
    [[[AttrContains "id" "ad-"]]]; [[[AttrContains "class" "ad-"]]];
    [[[AttrContains "id" "share"]]]; [[[AttrContains "class" "share"]]] ].

(** The selectors [removeUnwantedElements] adds for novel sites. *)
Definition novelSiteSelectors : list selector :=
  [ [[[ByClass "chapter-nav"]]]; [[[ByClass "chapter-navigation"]]];
    [[[ByClass "prev-chapter"]]]; [[[ByClass "next-chapter"]]];
    [[[ByClass "chapter-buttons"]]]; [[[ByClass "rating"]]];
    [[[ByClass "comments-section"]]]; [[[ByClass "author-note"]]];
    [[[AttrContains "id" "comment"]]]; [[[AttrContains "class" "comment"]]] ].

(** [sels.forEach(s => root.querySelectorAll(s).forEach(el => el.remove()))]
    on the children of the root. *)
Definition removeSelectors (sels : list selector) (l : list node)
  : list node :=
  fold_left (fun acc sel => removeAll sel acc) sels l.

(** What the tree walker assigns to a text node. *)
Definition cleanTextNode (d : string) : string :=
  Js.trim (Js.collapseSpaces d).

Definition blockSelector : selector :=
  [ [[ByTag "div"]]; [[ByTag "p"]]; [[ByTag "img"]]; [[ByTag "table"]] ].

Definition isNone {A : Type} (o : option A) : bool :=
  match o with None => true | Some _ => false end.

(** The loop over [querySelectorAll('div')]: a [div] without a [div], [p],
    [img] or [table] below it is replaced by a new [p] that receives its
    [innerHTML].  The list is in document order, so a [div] is looked at
    before the [div]s inside it, and one that is replaced has none inside.
    The children of the new [p] are those of the [div], serialized and
    parsed again; the model carries them over as they are. *)
Fixpoint convertDiv (n : node) : node :=
  match n with
  | Element t a ch =>
      if String.eqb t "div" && isNone (querySelector n blockSelector)
      then Element "p" [] ch
      else Element t a (map convertDiv ch)
  | _ => n
  end.

(** The loop over [childNodes]: a text node with text becomes a [p] holding
    the trimmed text. *)
Definition wrapBareText (n : node) : node :=
  match n with
  | Text d =>
      if Js.isEmpty (Js.trim d) then n
      else Element "p" [] [Text (Js.trim d)]
  | _ => n
  end.

(** [!el.textContent.trim() && !el.querySelector('img')]. *)
Definition isBlank (el : node) : bool :=
  Js.isEmpty (Js.trim (textContent el))
  && isNone (querySelector el [[[ByTag "img"]]]).

(** The loop over [querySelectorAll('*')]: an element is looked at before
    its descendants and leaves with its subtree. *)
Fixpoint dropBlank (n : node) : list node :=
  match n with
  | Element t a ch =>
      if isBlank n then [] else [Element t a (flat_map dropBlank ch)]
  | _ => [n]
  end.

(** The children of the clone when [extractContent] has run its steps. *)
Definition extractContentNodes (l : list node) : list node :=
  flat_map dropBlank
    (map wrapBareText
       (map convertDiv
          (map (mapText cleanTextNode)
             (removeSelectors unwantedSelectors l)))).

(** [extractContent] of an element: the [innerHTML] of the cleaned clone. *)
Definition extractContent (element : node) : string :=
  match element with
  | Element t a ch => innerHTML (Element t a (extractContentNodes ch))
  | _ => EmptyString
  end.

(** [removeUnwantedElements]: the element after the call. *)
Definition removeUnwantedElements (element : node) : node :=
  match element with
  | Element t a ch =>
      Element t a
        (flat_map dropBlank
           (removeSelectors (unwantedSelectors ++ novelSiteSelectors) ch))
  | _ => element
  end.

(** The three ways [fetchChapterContent] looks for the content element. *)
Fixpoint firstSelected (dom : document) (sels : list selector)
  : option node :=
  match sels with
  | [] => None
  | s :: r =>
      match docQuerySelector dom s with
      | Some e => Some e
      | None => firstSelected dom r
      end
  end.

Definition findContentElement (dom : document) (siteRules : rules)
  : option node :=
  match docQuerySelector dom (contentSelector siteRules) with
  | Some e => Some e
  | None =>
      match firstSelected dom
              (map (fun cx => [cx]) (contentSelector getDefaultRules)) with
      | Some e => Some e
      | None => findLargestTextBlock dom
      end
  end.

(** [!content || content.trim().length < 100]. *)
Definition tooShort (content : string) : bool :=
  Js.isEmpty content || (String.length (Js.trim content) <? 100).

(** From the parsed page to the chapter content: the message of the error
    thrown, or the content. *)
Definition contentOfPage (dom : document) (siteRules : rules)
  : string + string :=
  match findContentElement dom siteRules with
  | None => inl "Could not find chapter content"
  | Some contentElement =>
      let content := extractContent (removeUnwantedElements contentElement) in
      if tooShort content then inl "Extracted content is too short or empty"
      else inr content
  end.

(** [getSelectedChapters] of the parser. *)
Definition getSelectedChapters (chapters : list chapter) : list chapter :=
  filter (fun ch => selected ch) chapters.

(** *** Fetching *)

Local Open Scope session_scope.

Definition maxRetries : nat := 3.

Definition chapterProxies : list proxy :=
  [AllOrigins; CorsProxy; CodeTabs; ThingProxy; Yacdn].

Definition pageProxies : list proxy :=
  [AllOrigins; CorsAnywhere; CodeTabs; CorsProxy; ThingProxy; Yacdn].

(** The loop over the proxies: the first text that is not empty, and the
    message of the last error caught. *)
Fixpoint tryProxies `{Browser} (proxies : list proxy) (target : string)
  (n : nat) (lastError : option string) : option string * option string :=
  match proxies with
  | [] => (None, lastError)
  | p :: rest =>
      match proxyFetch p target n with
      | Failed message => tryProxies rest target n (Some message)
      | Body html =>
          if Js.isEmpty html then tryProxies rest target n lastError
          else (Some html, lastError)
      end
  end.

Definition setAt (i : nat) (f : chapter -> chapter) : M unit :=
  modify (fun s => setChapters (alter f i (chapters s)) s).

Definition completedWith (c : string) (ch : chapter) : chapter :=
  {| url := url ch; baseUrl := baseUrl ch; title := title ch;
     index := index ch; selected := selected ch; status := Completed;
     content := Some c; error := error ch |}.

Definition failedWith (message : string) (ch : chapter) : chapter :=
  {| url := url ch; baseUrl := baseUrl ch; title := title ch;
     index := index ch; selected := selected ch; status := Error;
     content := content ch; error := Some message |}.

Definition statusName (st : chapterStatus) : string :=
  match st with
  | Pending => "pending"
  | Completed => "completed"
  | Error => "error"
  end.

(** [updateChapterUI].  Without the check box of the chapter the second
    [querySelector] yields [null] and reading [parentElement] throws. *)
Definition updateChapterUI `{Browser} (i : nat) : M unit :=
  do s <-- get ;
  match boxes s !! i with
  | None => throw nullReadMessage
  | Some box =>
      match chapters s !! i with
      | None => throw undefinedReadMessage
      | Some ch =>
          let text :=
            match status ch with
            | Error =>
                "Error: " +:+
                match error ch with
                | Some e => if Js.isEmpty e then "Unknown error" else e
                | None => "Unknown error"
                end
            | st => statusName st
            end in
          let box' :=
            match status ch with
            | Error => {| checked := false; disabled := true;
                          statusText := text |}
            | _ => {| checked := checked box; disabled := false;
                      statusText := text |}
            end in
          modify (fun s => setBoxes (<[i := box']> (boxes s)) s)
      end
  end.

(** The body of the [try] block of [fetchChapterContent]. *)
Definition attemptChapter `{Browser} (i : nat) : M unit :=
  do s <-- get ;
  match chapters s !! i with
  | None => throw undefinedReadMessage
  | Some ch =>
      run emit (Attempt i) ;
      run modify (fun s => setLoads (S (loads s)) s) ;
      let absoluteUrl := resolveUrl (url ch) (baseUrl ch) in
      match tryProxies chapterProxies absoluteUrl (loads s) None with
      | (None, Some message) =>
          throw ("Failed to fetch content: " +:+ message)
      | (None, None) => throw "Failed to fetch content from all proxies"
      | (Some html, _) =>
          match Utils.parseHTML html with
          | inl message => throw message
          | inr dom =>
              match urlHostname absoluteUrl with
              | None => throw invalidUrlMessage
              | Some hostname =>
                  let siteRules :=
                    rulesFor (Js.replaceFirst "www." EmptyString hostname) in
                  match contentOfPage dom siteRules with
                  | inl message => throw message
                  | inr c =>
                      run setAt i (completedWith c) ;
                      run updateChapterUI i ;
                      sleep 1000
                  end
              end
          end
      end
  end.

(** The [while] loop of [fetchChapterContent]; [left] is
    [maxRetries - retryCount], so the loop goes on while [left] is not 0. *)
Fixpoint retryLoop `{Browser} (left : nat) (i : nat) (retryCount : nat)
  : M unit :=
  match left with
  | O => ret tt
  | S left' =>
      tryCatch (attemptChapter i)
        (fun message =>
           let retryCount := retryCount + 1 in
           if maxRetries <=? retryCount then
             run setAt i (failedWith message) ;
             run updateChapterUI i ;
             throw message
           else
             run sleep (2000 * retryCount) ;
             retryLoop left' i retryCount)
  end.

(** [fetchChapterContent(this.chapters[i], i)]. *)
Definition fetchChapterContent `{Browser} (i : nat) : M unit :=
  retryLoop maxRetries i 0.

(** [parsePage], without the metadata it also reads from the page: the
    chapters found. *)
Definition parsePage `{Browser} (pageUrl : string) : M (list chapter) :=
  tryCatch
    (do s <-- get ;
     run modify (fun s => setLoads (S (loads s)) s) ;
     match fst (tryProxies pageProxies pageUrl (loads s) None) with
     | None =>
         throw ("Failed to fetch content. Please try again later "
                +:+ "or use a different URL.")
     | Some html =>
         match Utils.parseHTML html with
         | inl message => throw message
         | inr dom =>
             match urlHostname pageUrl with
             | None => throw invalidUrlMessage
             | Some hostname =>
                 let siteRules :=
                   rulesFor (Js.replaceFirst "www." EmptyString hostname) in
                 run modify (setChapters []) ;
                 match extractChapters dom pageUrl siteRules with
                 | inl message => throw message
                 | inr found =>
                     run modify (setChapters found) ;
                     ret found
                 end
             end
         end
     end)
    (fun message =>
       throw ("Parser failed: " +:+ message
              +:+ ". Please try a different URL or contact support.")).

(** *** Metadata *)


(** [dom.querySelector(a) || dom.querySelector(b)]. *)
Definition querySelectorOr (dom : document) (a b : selector) : option node :=
  match docQuerySelector dom a with
  | Some e => Some e
  | None => docQuerySelector dom b
  end.

(** [element.textContent || element.getAttribute('content') || '']. *)
Definition textOrContent (element : node) : string :=
  if Js.isEmpty (textContent element) then
    match getAttribute "content" element with
    | Some v => v
    | None => EmptyString
    end
  else textContent element.

(** [element.getAttribute('src') || element.getAttribute('content')]. *)
Definition srcOrContent (element : node) : option string :=
  match getAttribute "src" element with
  | Some v => if Js.isEmpty v then getAttribute "content" element else Some v
  | None => getAttribute "content" element
  end.

Definition descSelectors : list selector :=
  [ [[[AttrIs "property" "og:description"]]]; [[[ByClass "description"]]];
    [[[ByClass "summary"]]]; [[[ByClass "synopsis"]]] ].

Definition coverSelectors : list selector :=
  [ [[[AttrIs "property" "og:image"]]];
    [[[ByClass "cover"]; [ByTag "img"]]];
    [[[ByClass "novel-cover"]; [ByTag "img"]]];
    [[[ByClass "story-cover"]; [ByTag "img"]]] ].

(** The loop over the description selectors: the first selector with an
    element decides. *)
Fixpoint findDescription (dom : document) (sels : list selector)
  : option string :=
  match sels with
  | [] => None
  | sel :: rest =>
      match docQuerySelector dom sel with
      | Some element => Some (Utils.cleanText (textOrContent element))
      | None => findDescription dom rest
      end
  end.

(** The loop over the cover selectors: the first selector whose element has
    an address decides. *)
Fixpoint findCover `{Browser} (dom : document) (url : string)
  (sels : list selector) : option string :=
  match sels with
  | [] => None
  | sel :: rest =>
      match docQuerySelector dom sel with
      | Some element =>
          match srcOrContent element with
          | Some src =>
              if Js.isEmpty src then findCover dom url rest
              else Some (resolveUrl src url)
          | None => findCover dom url rest
          end
      | None => findCover dom url rest
      end
  end.

(** [extractMetadata]: [this.metaInfo] after the call, from [this.metaInfo]
    before it. *)
Definition extractMetadata `{Browser} (metaInfo : Meta.info)
  (dom : document) (url : string) (siteRules : rules) : Meta.info :=
  let title :=
    match querySelectorOr dom (titleSelector siteRules)
            (titleSelector getDefaultRules) with
    | Some titleElement => Utils.cleanText (textOrContent titleElement)
    | None => Meta.title metaInfo
    end in
  let author :=
    match querySelectorOr dom (authorSelector siteRules)
            (authorSelector getDefaultRules) with
    | Some authorElement => Utils.cleanText (textContent authorElement)
    | None => Meta.author metaInfo
    end in
  let description :=
    match findDescription dom descSelectors with
    | Some d => d
    | None => Meta.description metaInfo
    end in
  let coverImageUrl :=
    match findCover dom url coverSelectors with
    | Some c => c
    | None => Meta.coverImageUrl metaInfo
    end in
  {| Meta.title := if Js.isEmpty title then "Untitled Story" else title;
     Meta.author := author;
     Meta.language := Meta.language metaInfo;
     Meta.description := description;
     Meta.subject := Meta.subject metaInfo;
     Meta.coverImageUrl := coverImageUrl;
     Meta.filename := Meta.filename metaInfo |}.

(** [areChaptersReady]. *)
Definition areChaptersReady (chapters : list chapter) : bool :=
  let selectedChapters := getSelectedChapters chapters in
  (0 <? length selectedChapters)
  && forallb (fun ch => status_eqb (status ch) Completed
                        || status_eqb (status ch) Error)
       selectedChapters.

End Parser.

(** ** EpubGenerator *)

Module EpubGenerator.

Import Dom State.
Local Open Scope session_scope.

(** [escapeXml]. *)
Definition escapeXml (text : string) : string :=
  if Js.isEmpty text then EmptyString
  else
    Js.replaceAll "'"%char "&#39;"
      (Js.replaceAll Js.dquote "&quot;"
         (Js.replaceAll ">"%char "&gt;"
            (Js.replaceAll "<"%char "&lt;"
               (Js.replaceAll "&"%char "&amp;" text)))).

Definition nl : string := Js.str "010"%char.

(** [this.zip.file(name, data)] and [this.zip.folder(name)]. *)
Definition zipFile (name data : string) : M unit :=
  modify (fun s => setZip (<[name := data]> (zip s)) s).

Definition zipFolder (name : string) : M unit :=
  modify (fun s => setZip (<[name +:+ "/" := EmptyString]> (zip s)) s).

Definition containerXml : string :=
  Js.concat
    [ "<?xml version=" +:+ Js.quoted "1.0" +:+ " encoding="
        +:+ Js.quoted "UTF-8" +:+ "?>"; nl;
      "<container version=" +:+ Js.quoted "1.0" +:+ " xmlns="
        +:+ Js.quoted "urn:oasis:names:tc:opendocument:xmlns:container"
        +:+ ">"; nl;
      "    <rootfiles>"; nl;
      "        <rootfile full-path=" +:+ Js.quoted "OEBPS/content.opf"
        +:+ " media-type=" +:+ Js.quoted "application/oebps-package+xml"
        +:+ "/>"; nl;
      "    </rootfiles>"; nl;
      "</container>" ].

(** [createEpubStructure]. *)
Definition createEpubStructure : M unit :=
  run zipFolder "META-INF" ;
  run zipFolder "OEBPS" ;
  zipFile "META-INF/container.xml" containerXml.

(** The name [chapter-N] of the chapter at [index]. *)
Definition chapterId (index : nat) : string :=
  "chapter-" +:+ Js.show (index + 1).

(** The three [chapters.map] of [addMetadata]. *)
Definition manifestItem (index : nat) : string :=
  "<item id=" +:+ Js.quoted (chapterId index)
    +:+ " href=" +:+ Js.quoted (chapterId index +:+ ".xhtml")
    +:+ " media-type=" +:+ Js.quoted "application/xhtml+xml" +:+ "/>".

Definition spineItem (index : nat) : string :=
  "<itemref idref=" +:+ Js.quoted (chapterId index) +:+ "/>".

Definition navPoint (index : nat) (ch : chapter) : string :=
  Js.concat
    [ nl;
      "        <navPoint id=" +:+ Js.quoted ("nav-" +:+ Js.show (index + 1))
        +:+ " playOrder=" +:+ Js.quoted (Js.show (index + 1)) +:+ ">"; nl;
      "            <navLabel>"; nl;
      "                <text>" +:+ escapeXml (title ch) +:+ "</text>"; nl;
      "            </navLabel>"; nl;
      "            <content src=" +:+ Js.quoted (chapterId index +:+ ".xhtml")
        +:+ "/>"; nl;
      "        </navPoint>" ].

Definition manifestItems (chapters : list chapter) : list string :=
  imap (fun index _ => manifestItem index) chapters.

Definition spineItems (chapters : list chapter) : list string :=
  imap (fun index _ => spineItem index) chapters.

Definition navPoints (chapters : list chapter) : list string :=
  imap navPoint chapters.

(** The separator of the three [join]s. *)
Definition itemSeparator : string := nl +:+ "        ".

Definition opfHead (identifier : string) : string :=
  Js.concat
    [ "<?xml version=" +:+ Js.quoted "1.0" +:+ " encoding="
        +:+ Js.quoted "UTF-8" +:+ "?>"; nl;
      "<package version=" +:+ Js.quoted "3.0" +:+ " xmlns="
        +:+ Js.quoted "http://www.idpf.org/2007/opf"
        +:+ " unique-identifier=" +:+ Js.quoted "BookId" +:+ ">"; nl;
      "    <metadata xmlns:dc="
        +:+ Js.quoted "http://purl.org/dc/elements/1.1/"
        +:+ " xmlns:opf=" +:+ Js.quoted "http://www.idpf.org/2007/opf"
        +:+ ">"; nl;
      "        <dc:identifier id=" +:+ Js.quoted "BookId" +:+ ">urn:uuid:"
        +:+ identifier +:+ "</dc:identifier>"; nl ].

Definition opfTitle (metaInfo : Meta.info) : string :=
  "        <dc:title>" +:+ escapeXml (Meta.title metaInfo) +:+ "</dc:title>".

Definition opfCreator (metaInfo : Meta.info) : string :=
  "        <dc:creator>" +:+ escapeXml (Meta.author metaInfo)
    +:+ "</dc:creator>".

(** The metadata after the creator. *)
Definition opfMetadataRest (metaInfo : Meta.info) (now : string) : string :=
  Js.concat
    [ "        <dc:language>" +:+ Meta.language metaInfo
        +:+ "</dc:language>"; nl;
      "        <dc:date>" +:+ now +:+ "</dc:date>"; nl;
      "        <dc:publisher>WebToEpub</dc:publisher>"; nl;
      "        <dc:description>" +:+ escapeXml (Meta.description metaInfo)
        +:+ "</dc:description>"; nl;
      "        <dc:subject>" +:+ escapeXml (Meta.subject metaInfo)
        +:+ "</dc:subject>"; nl;
      "        <meta property=" +:+ Js.quoted "dcterms:modified" +:+ ">"
        +:+ now +:+ "</meta>"; nl;
      "        " +:+
        (if Js.isEmpty (Meta.coverImageUrl metaInfo) then EmptyString
         else "<meta name=" +:+ Js.quoted "cover" +:+ " content="
                +:+ Js.quoted "cover-image" +:+ "/>"); nl;
      "    </metadata>" ].

(** The [manifest] element. *)
Definition opfManifest (metaInfo : Meta.info) (chapters : list chapter)
  : string :=
  Js.concat
    [ "    <manifest>"; nl;
      "        <item id=" +:+ Js.quoted "ncx" +:+ " href="
        +:+ Js.quoted "toc.ncx" +:+ " media-type="
        +:+ Js.quoted "application/x-dtbncx+xml" +:+ "/>"; nl;
      "        <item id=" +:+ Js.quoted "css" +:+ " href="
        +:+ Js.quoted "style.css" +:+ " media-type="
        +:+ Js.quoted "text/css" +:+ "/>"; nl;
      "        " +:+
        (if Js.isEmpty (Meta.coverImageUrl metaInfo) then EmptyString
         else "<item id=" +:+ Js.quoted "cover-image" +:+ " href="
                +:+ Js.quoted "cover.jpg" +:+ " media-type="
                +:+ Js.quoted "image/jpeg" +:+ "/>"); nl;
      "        " +:+ Js.join itemSeparator (manifestItems chapters); nl;
      "    </manifest>" ].

(** The [spine] element. *)
Definition opfSpine (chapters : list chapter) : string :=
  Js.concat
    [ "    <spine toc=" +:+ Js.quoted "ncx" +:+ ">"; nl;
      "        " +:+ Js.join itemSeparator (spineItems chapters); nl;
      "    </spine>" ].

(** [content.opf]. *)
Definition contentOpf (metaInfo : Meta.info) (chapters : list chapter)
  (identifier now : string) : string :=
  Js.concat
    [ opfHead identifier;
      opfTitle metaInfo; nl;
      opfCreator metaInfo; nl;
      opfMetadataRest metaInfo now; nl;
      opfManifest metaInfo chapters; nl;
      opfSpine chapters; nl;
      "</package>" ].

Definition ncxHead (metaInfo : Meta.info) (identifier : string) : string :=
  Js.concat
    [ "<?xml version=" +:+ Js.quoted "1.0" +:+ " encoding="
        +:+ Js.quoted "UTF-8" +:+ "?>"; nl;
      "<ncx xmlns=" +:+ Js.quoted "http://www.daisy.org/z3986/2005/ncx/"
        +:+ " version=" +:+ Js.quoted "2005-1" +:+ " xml:lang="
        +:+ Js.quoted "en" +:+ ">"; nl;
      "    <head>"; nl;
      "        <meta name=" +:+ Js.quoted "dtb:uid" +:+ " content="
        +:+ Js.quoted identifier +:+ "/>"; nl;
      "        <meta name=" +:+ Js.quoted "dtb:depth" +:+ " content="
        +:+ Js.quoted "1" +:+ "/>"; nl;
      "        <meta name=" +:+ Js.quoted "dtb:totalPageCount"
        +:+ " content=" +:+ Js.quoted "0" +:+ "/>"; nl;
      "        <meta name=" +:+ Js.quoted "dtb:maxPageNumber"
        +:+ " content=" +:+ Js.quoted "0" +:+ "/>"; nl;
      "    </head>"; nl;
      "    <docTitle>"; nl;
      "        <text>" +:+ escapeXml (Meta.title metaInfo) +:+ "</text>"; nl;
      "    </docTitle>" ].

(** The [navMap] element. *)
Definition ncxNavMap (chapters : list chapter) : string :=
  Js.concat
    [ "    <navMap>"; nl;
      "        " +:+ Js.join itemSeparator (navPoints chapters); nl;
      "    </navMap>" ].

(** [toc.ncx]. *)
Definition tocNcx (metaInfo : Meta.info) (chapters : list chapter)
  (identifier : string) : string :=
  Js.concat
    [ ncxHead metaInfo identifier; nl;
      ncxNavMap chapters; nl;
      "</ncx>" ].

Definition css : string :=
"body {
    font-family: Georgia, serif;
    line-height: 1.6;
    margin: 2em;
    text-align: justify;
}

h1, h2, h3 {
    color: #333;
    margin-top: 2em;
    margin-bottom: 1em;
}

h1 {
    font-size: 1.8em;
    text-align: center;
    border-bottom: 2px solid #333;
    padding-bottom: 0.5em;
}

h2 {
    font-size: 1.4em;
}

p {
    margin-bottom: 1em;
    text-indent: 2em;
}

img {
    max-width: 100%;
    height: auto;
    display: block;
    margin: 1em auto;
}

blockquote {
    margin: 1em 0;
    padding: 0.5em 1em;
    border-left: 4px solid #ccc;
    background: #f9f9f9;
}

hr {
    border: none;
    border-top: 1px solid #ccc;
    margin: 2em 0;
}".

(** [addMetadata]. *)
Definition addMetadata `{Browser} (metaInfo : Meta.info)
  (chapters : list chapter) : M unit :=
  do s <-- get ;
  let now := dateNow (packs s) in
  let identifier := randomUUID (packs s) in
  run zipFile "OEBPS/content.opf"
        (contentOpf metaInfo chapters identifier now) ;
  run zipFile "OEBPS/toc.ncx" (tocNcx metaInfo chapters identifier) ;
  zipFile "OEBPS/style.css" css.

(** [/<br\s*\/?>/gi] and [/<hr\s*\/?>/gi], replaced by the closed tag. *)
Definition matchVoidTag (tag : string) (s : string)
  : option (string * string) :=
  match Js.stripPrefixCI ("<" +:+ tag) s with
  | None => None
  | Some r =>
      let r := Js.trimStart r in
      let r := match Js.stripPrefix "/" r with Some t => t | None => r end in
      match Js.stripPrefix ">" r with
      | Some rest => Some ("<" +:+ tag +:+ "/>", rest)
      | None => None
      end
  end.

(** The regular expression for [img] tags, replaced by [<img$1/>]: the
    group takes all that comes before the next [>]. *)
Definition matchImgTag (s : string) : option (string * string) :=
  match Js.stripPrefixCI "<img" s with
  | None => None
  | Some r =>
      match Js.splitAt ">"%char r with
      | Some (group, rest) => Some ("<img" +:+ group +:+ "/>", rest)
      | None => None
      end
  end.

(** [/&nbsp;/g], replaced by a space. *)
Definition matchNbsp (s : string) : option (string * string) :=
  match Js.stripPrefix "&nbsp;" s with
  | Some rest => Some (" ", rest)
  | None => None
  end.

Fixpoint setAttr (name value : string) (attrs : list (string * string))
  : list (string * string) :=
  match attrs with
  | [] => [(name, value)]
  | (k, v) :: r =>
      if String.eqb k name then (k, value) :: r
      else (k, v) :: setAttr name value r
  end.

(** The loop over [querySelectorAll('img')].  [img.src] reads the [src]
    attribute resolved against the address of the page, or the attribute
    as it is when it does not resolve. *)
Fixpoint resolveImage `{Browser} (n : node) : list node :=
  match n with
  | Element t a ch =>
      let ch' := flat_map resolveImage ch in
      if String.eqb t "img" then
        match lookupAttr "src" a with
        | None => [Element t a ch']
        | Some v =>
            let src := match urlHref v locationHref with
                       | Some u => u
                       | None => v
                       end in
            if Js.isEmpty src then [Element t a ch']
            else
              match urlHref src locationHref with
              | Some u => [Element t (setAttr "src" u a) ch']
              | None => []
              end
        end
      else [Element t a ch']
  | _ => [n]
  end.

(** [processChapterContent].  The last step splits at blank lines; the
    white space has been collapsed by then, so there is one paragraph. *)
Definition processChapterContent `{Browser} (content : option string)
  : string :=
  match content with
  | None => "<p>No content available.</p>"
  | Some c =>
      if Js.isEmpty c then "<p>No content available.</p>"
      else
        let nodes := parseFragment c in
        let nodes := Parser.removeSelectors Parser.unwantedSelectors nodes in
        let nodes := map (mapText Parser.cleanTextNode) nodes in
        let nodes := map Parser.wrapBareText nodes in
        let nodes := flat_map resolveImage nodes in
        let nodes := map Parser.convertDiv nodes in
        let processedContent :=
          Js.trim
            (Js.collapseSpaces
               (Js.replaceRegex matchNbsp
                  (Js.replaceRegex matchImgTag
                     (Js.replaceRegex (matchVoidTag "hr")
                        (Js.replaceRegex (matchVoidTag "br")
                           (serializeAll false nodes)))))) in
        if negb (Js.includes "<p>" processedContent)
           && negb (Js.includes "<div>" processedContent)
        then
          if Js.isEmpty (Js.trim processedContent) then EmptyString
          else "<p>" +:+ Js.trim processedContent +:+ "</p>"
        else processedContent
  end.

(** The document of one chapter. *)
Definition chapterXhtml `{Browser} (ch : chapter) : string :=
  Js.concat
    [ "<?xml version=" +:+ Js.quoted "1.0" +:+ " encoding="
        +:+ Js.quoted "UTF-8" +:+ "?>"; nl;
      "<!DOCTYPE html>"; nl;
      "<html xmlns=" +:+ Js.quoted "http://www.w3.org/1999/xhtml" +:+ ">"; nl;
      "<head>"; nl;
      "    <title>" +:+ escapeXml (title ch) +:+ "</title>"; nl;
      "    <link rel=" +:+ Js.quoted "stylesheet" +:+ " type="
        +:+ Js.quoted "text/css" +:+ " href=" +:+ Js.quoted "style.css"
        +:+ "/>"; nl;
      "</head>"; nl;
      "<body>"; nl;
      "    <h1>" +:+ escapeXml (title ch) +:+ "</h1>"; nl;
      "    " +:+ processChapterContent (content ch); nl;
      "</body>"; nl;
      "</html>" ].

Definition chapterPath (index : nat) : string :=
  "OEBPS/" +:+ chapterId index +:+ ".xhtml".

(** [addChapters]: the loop from position [i] on. *)
Fixpoint addChaptersFrom `{Browser} (i : nat) (chapters : list chapter)
  : M unit :=
  match chapters with
  | [] => ret tt
  | ch :: rest =>
      run zipFile (chapterPath i) (chapterXhtml ch) ;
      run sleep 100 ;
      addChaptersFrom (S i) rest
  end.

Definition addChapters `{Browser} (chapters : list chapter) : M unit :=
  addChaptersFrom 0 chapters.

(** [addCoverImage]: a failure is logged and nothing else happens. *)
Definition addCoverImage `{Browser} (imageUrl : string) : M unit :=
  match coverFetch imageUrl with
  | Some bytes => zipFile "OEBPS/cover.jpg" bytes
  | None => ret tt
  end.

(** [generateEpub]: the archive it delivers. *)
Definition generateEpub `{Browser} (metaInfo : Meta.info)
  (chapters : list chapter) : M (gmap string string) :=
  tryCatch
    (match chapters with
     | [] => throw "No chapters to generate EPUB from"
     | _ =>
         run createEpubStructure ;
         run addMetadata metaInfo chapters ;
         run addChapters chapters ;
         run (if Js.isEmpty (Meta.coverImageUrl metaInfo) then ret tt
              else addCoverImage (Meta.coverImageUrl metaInfo)) ;
         run modify (fun s => setPacks (S (packs s)) s) ;
         do s <-- get ;
         ret (zip s)
     end)
    (fun message => throw ("Failed to generate EPUB: " +:+ message)).

Definition selfClosingTags : list string :=
  ["br"; "hr"; "img"; "input"; "link"; "meta"].

(** The regular expression of [ensureProperXhtml] for one tag (the tag
    after an opening angle bracket, a group of characters other than the
    closing bracket, the closing bracket; flags [gi]), replaced by
    [<tag$1/>]: the group takes all that comes before the next [>]. *)
Definition matchOpenTag (tag : string) (s : string)
  : option (string * string) :=
  match Js.stripPrefixCI ("<" +:+ tag) s with
  | None => None
  | Some r =>
      match Js.splitAt ">"%char r with
      | Some (group, rest) => Some ("<" +:+ tag +:+ group +:+ "/>", rest)
      | None => None
      end
  end.

Definition entityNames : list string :=
  ["amp;"; "lt;"; "gt;"; "quot;"; "apos;"].

(** [/&(?!(amp|lt|gt|quot|apos);)/g], replaced by [&amp;]. *)
Definition matchBareAmpersand (s : string) : option (string * string) :=
  match s with
  | String c rest =>
      if Ascii.eqb c "&"%char
         && negb (existsb (fun name => Js.startsWith name rest) entityNames)
      then Some ("&amp;", rest)
      else None
  | EmptyString => None
  end.

(** [ensureProperXhtml]. *)
Definition ensureProperXhtml (content : string) : string :=
  let content :=
    fold_left (fun content tag => Js.replaceRegex (matchOpenTag tag) content)
      selfClosingTags content in
  Js.replaceAll "'"%char "&apos;"
    (Js.replaceAll Js.dquote "&quot;"
       (Js.replaceAll ">"%char "&gt;"
          (Js.replaceAll "<"%char "&lt;"
             (Js.replaceRegex matchBareAmpersand content)))).

(** [generateFilename]. *)
Definition generateFilename (metaInfo : Meta.info) : string :=
  let filename :=
    Utils.sanitizeFilename
      (if Js.isEmpty (Meta.title metaInfo) then "untitled"
       else Meta.title metaInfo) in
  let filename :=
    if Js.isEmpty (Meta.author metaInfo) then filename
    else filename +:+ "_by_" +:+ Utils.sanitizeFilename (Meta.author metaInfo)
  in
  filename +:+ ".epub".

End EpubGenerator.

(** ** WebToEpubApp *)

Module App.

Import State.
Local Open Scope session_scope.

(** [Utils.showError]. *)
Definition showError (message : string) : M unit :=
  modify (setShownError (Some message)).

(** [Utils.isValidUrl]. *)
Definition isValidUrl `{Browser} (u : string) : bool :=
  match urlHostname u with Some _ => true | None => false end.

(** [updateChaptersSection]: one checked box per chapter, with the status of
    the chapter as its text. *)
Definition updateChaptersSection (chs : list chapter) : M unit :=
  modify (setBoxes
            (map (fun ch => {| checked := true; disabled := false;
                               statusText := Parser.statusName (status ch) |})
                 chs)).

(** The loop of [fetchAllChapters], from position [i] on [n] more chapters,
    on the counters [(successCount, errorCount)]. *)
Fixpoint fetchFrom `{Browser} (i n : nat) (counts : nat * nat)
  : M (nat * nat) :=
  match n with
  | O => ret counts
  | S n' =>
      do counts' <--
        tryCatch
          (run Parser.fetchChapterContent i ;
           ret (S (fst counts), snd counts))
          (fun _ => ret (fst counts, S (snd counts))) ;
      fetchFrom (S i) n' counts'
  end.

(** [fetchAllChapters]. *)
Definition fetchAllChapters `{Browser} : M (nat * nat) :=
  do s <-- get ;
  do counts <-- fetchFrom 0 (length (currentChapters s)) (0, 0) ;
  run (if 0 <? snd counts then
         showError ("Finished with " +:+ Js.show (snd counts)
                    +:+ " errors. " +:+ Js.show (fst counts)
                    +:+ " chapters were fetched successfully.")
       else ret tt) ;
  run modify (setPackDisabled (fst counts =? 0)) ;
  ret counts.

Definition loadErrorMessage (message : string) : string :=
  "Failed to parse page: " +:+
  (if Js.includes "Failed to fetch" message then
     "Could not access the webpage. This might be due to:"
     +:+ EpubGenerator.nl +:+ "1. The website is blocking access"
     +:+ EpubGenerator.nl +:+ "2. The website requires authentication"
     +:+ EpubGenerator.nl
     +:+ "3. The CORS proxy is temporarily unavailable"
     +:+ EpubGenerator.nl
     +:+ "Please try again later or try a different URL."
   else if Js.includes "No chapters found" message then
     "Could not find any chapters. This might be because:"
     +:+ EpubGenerator.nl +:+ "1. The URL is not a novel page"
     +:+ EpubGenerator.nl +:+ "2. The website structure is not supported"
     +:+ EpubGenerator.nl
     +:+ "3. The URL points to a chapter list rather than the main novel page"
     +:+ EpubGenerator.nl
     +:+ "Please make sure you are using the main novel page URL."
   else message).

(** [handleLoadAndAnalyze], for the trimmed text of the URL field. *)
Definition handleLoadAndAnalyze `{Browser} (pageUrl : string) : M unit :=
  if Js.isEmpty pageUrl then showError "Please enter a URL"
  else if negb (isValidUrl pageUrl) then showError "Please enter a valid URL"
  else
    tryCatch
      (run modify (setShownError None) ;
       run modify (setAliased false) ;
       run updateChaptersSection [] ;
       do found <-- Parser.parsePage pageUrl ;
       match found with
       | [] =>
           throw ("No chapters found. This might not be a supported "
                  +:+ "novel page.")
       | _ =>
           run modify (setAliased true) ;
           run updateChaptersSection found ;
           do _counts <-- fetchAllChapters ;
           ret tt
       end)
      (fun message => showError (loadErrorMessage message)).

(** [getSelectedChapters] of the application. *)
Definition getSelectedChapters (s : session) : list chapter :=
  omap (fun x => x)
    (imap (fun index ch =>
             match boxes s !! index with
             | Some box =>
                 if checked box && status_eqb (status ch) Completed
                 then Some ch else None
             | None => None
             end)
          (currentChapters s)).

(** [handlePackEpub], with the metadata of the form: the archive handed
    over for download, if there is one. *)
Definition handlePackEpub `{Browser} (metaInfo : Meta.info)
  : M (option (gmap string string)) :=
  tryCatch
    (do s <-- get ;
     match getSelectedChapters s with
     | [] =>
         run showError "Please select at least one chapter" ;
         ret None
     | selectedChapters =>
         do epubBlob <-- EpubGenerator.generateEpub metaInfo selectedChapters ;
         ret (Some epubBlob)
     end)
    (fun message =>
       run showError ("Failed to generate EPUB: " +:+ message) ;
       ret None).

(** The name under which [handlePackEpub] hands the archive over. *)
Definition fullFilename (metaInfo : Meta.info) : string :=
  let filename :=
    Utils.sanitizeFilename
      (if Js.isEmpty (Meta.filename metaInfo) then "untitled"
       else Meta.filename metaInfo) in
  if Js.endsWith ".epub" filename then filename else filename +:+ ".epub".

Definition setChecked (b : bool) (box : checkbox) : checkbox :=
  {| checked := b; disabled := disabled box; statusText := statusText box |}.

(** The loop of [selectAllChapters] from position [i] on: the box of a
    completed chapter, if the page has it, gets checked. *)
Fixpoint selectFrom (i : nat) (chs : list chapter) (bx : list checkbox)
  : list checkbox :=
  match chs with
  | [] => bx
  | ch :: rest =>
      selectFrom (S i) rest
        (if status_eqb (status ch) Completed
         then alter (setChecked true) i bx else bx)
  end.

(** [selectAllChapters]. *)
Definition selectAllChapters : M unit :=
  modify (fun s => setBoxes (selectFrom 0 (currentChapters s) (boxes s)) s).

(** The loop of [deselectAllChapters] from position [i] on. *)
Fixpoint deselectFrom (i : nat) (chs : list chapter) (bx : list checkbox)
  : list checkbox :=
  match chs with
  | [] => bx
  | _ :: rest => deselectFrom (S i) rest (alter (setChecked false) i bx)
  end.

(** [deselectAllChapters]. *)
Definition deselectAllChapters : M unit :=
  modify (fun s => setBoxes (deselectFrom 0 (currentChapters s) (boxes s)) s).

End App.

(** * Vocabulary of the properties *)

Module Spec.

(** What [escapeXml] writes for one character. *)
Definition escapeChar (c : ascii) : string :=
  if Ascii.eqb c "&"%char then "&amp;"
  else if Ascii.eqb c "<"%char then "&lt;"
  else if Ascii.eqb c ">"%char then "&gt;"
  else if Ascii.eqb c Js.dquote then "&quot;"
  else if Ascii.eqb c "'"%char then "&#39;"
  else Js.str c.

Fixpoint escapeChars (s : string) : string :=
  match s with
  | EmptyString => EmptyString
  | String c t => escapeChar c +:+ escapeChars t
  end.

(** The five [replace] calls of [escapeXml]. *)
Definition replaceChain (s : string) : string :=
  Js.replaceAll "'"%char "&#39;"
    (Js.replaceAll Js.dquote "&quot;"
       (Js.replaceAll ">"%char "&gt;"
          (Js.replaceAll "<"%char "&lt;"
             (Js.replaceAll "&"%char "&amp;" s)))).

(** The character [c] occurs in [s]. *)
Fixpoint occurs (c : ascii) (s : string) : bool :=
  match s with
  | EmptyString => false
  | String d t => Ascii.eqb d c || occurs c t
  end.

(** [part] is a piece of [whole]. *)
Definition within (part whole : string) : Prop :=
  exists pre post, whole = pre +:+ part +:+ post.

(** The entries every assembly writes besides the chapter documents. *)
Definition fixedEntries : list string :=
  [ "META-INF/"; "OEBPS/"; "META-INF/container.xml"; "OEBPS/content.opf";
    "OEBPS/toc.ncx"; "OEBPS/style.css"; "OEBPS/cover.jpg" ].

(** The archive after the loop of [addChapters] from position [i]. *)
Fixpoint writeChapters `{Browser} (i : nat) (chs : list State.chapter)
  (z : gmap string string) : gmap string string :=
  match chs with
  | [] => z
  | ch :: rest =>
      writeChapters (S i) rest
        (<[EpubGenerator.chapterPath i := EpubGenerator.chapterXhtml ch]> z)
  end.

Definition writeCover `{Browser} (metaInfo : Meta.info)
  (z : gmap string string) : gmap string string :=
  if Js.isEmpty (Meta.coverImageUrl metaInfo) then z
  else
    match coverFetch (Meta.coverImageUrl metaInfo) with
    | Some bytes => <["OEBPS/cover.jpg" := bytes]> z
    | None => z
    end.

(** The archive after an assembly that is the [n]-th of the session. *)
Definition assembled `{Browser} (metaInfo : Meta.info)
  (chs : list State.chapter) (n : nat) (z : gmap string string)
  : gmap string string :=
  writeCover metaInfo
    (writeChapters 0 chs
       (<["OEBPS/style.css" := EpubGenerator.css]>
          (<["OEBPS/toc.ncx" :=
               EpubGenerator.tocNcx metaInfo chs (randomUUID n)]>
             (<["OEBPS/content.opf" :=
                  EpubGenerator.contentOpf metaInfo chs (randomUUID n)
                    (dateNow n)]>
                (<["META-INF/container.xml" := EpubGenerator.containerXml]>
                   (<["OEBPS/" := EmptyString]>
                      (<["META-INF/" := EmptyString]> z))))))).

(** The chapter at position [i] of the current chapters has its box
    checked and is completed. *)
Definition included (s : State.session) (i : nat) : bool :=
  match State.boxes s !! i, State.currentChapters s !! i with
  | Some box, Some ch =>
      State.checked box && State.status_eqb (State.status ch) State.Completed
  | _, _ => false
  end.

(** The chapters at the included positions from [k] on, in order. *)
Definition includedFrom (s : State.session) (k n : nat)
  : list State.chapter :=
  omap (fun i => if included s i then State.currentChapters s !! i else None)
       (seq k n).

Definition includedChapters (s : State.session) : list State.chapter :=
  includedFrom s 0 (length (State.currentChapters s)).

(** What [resolveUrl] gives for the links that have an [href], in the order
    of the links. *)
Definition resolvedHrefs `{Browser} (base : string) (links : list Dom.node)
  : list string :=
  omap (fun link =>
          match Dom.getAttribute "href" link with
          | Some href =>
              if Js.isEmpty href then None
              else Some (Parser.resolveUrl href base)
          | None => None
          end) links.

(** The first occurrence of every string of [l] that is not in [seen]. *)
Fixpoint firstOccurrences (seen : gset string) (l : list string)
  : list string :=
  match l with
  | [] => []
  | x :: r =>
      if decide (x ∈ seen) then firstOccurrences seen r
      else x :: firstOccurrences ({[x]} ∪ seen) r
  end.

(** The number the comparator reads in the title of a chapter: the
    JavaScript number nearest to the first integer of the title. *)
Definition chapterNumber (ch : State.chapter) : option Z :=
  match Js.matchDigits (State.title ch) with
  | Some digits => Some (Js.toDouble (Js.parseInt digits))
  | None => None
  end.

Definition numbered (ch : State.chapter) : bool :=
  match chapterNumber ch with
  | Some _ => true
  | None => false
  end.

Definition unnumbered (ch : State.chapter) : bool :=
  match chapterNumber ch with
  | Some _ => false
  | None => true
  end.

(** The order the specification asks of a chapter [a] that comes before a
    chapter [b]: by number when both titles have one, by position of
    discovery otherwise. *)
Definition inSpecifiedOrder (a b : State.chapter) : Prop :=
  match chapterNumber a, chapterNumber b with
  | Some x, Some y => (x <= y)%Z
  | _, _ => State.index a <= State.index b
  end.

(** The same order with what a stable sort adds: two chapters with the
    same number come in the order of their discovery. *)
Definition comesBefore (a b : State.chapter) : Prop :=
  match chapterNumber a, chapterNumber b with
  | Some x, Some y => (x < y)%Z \/ (x = y /\ State.index a < State.index b)
  | _, _ => State.index a < State.index b
  end.

(** The order is transitive on the chapters of [l]. *)
Definition orderIsTransitive (l : list State.chapter) : Prop :=
  forall a b c, In a l -> In b l -> In c l ->
    comesBefore a b -> comesBefore b c -> comesBefore a c.

(** An arrangement of the chapters of [l] in which every chapter comes
    before those after it. *)
Definition arrangementOf (l arrangement : list State.chapter) : Prop :=
  Permutation l arrangement /\ StronglySorted comesBefore arrangement.

(** A browser for the examples.  An address is absolute when it starts with
    [http]; any other is appended to the base; the host name is what stands
    between [://] and the next [/]; the network answers a request with the
    address itself, and the parser looks the text up in [pages]. *)
Fixpoint lookupPage (pages : list (string * Dom.document)) (key : string)
  : Dom.document :=
  match pages with
  | [] => []
  | (k, d) :: r => if String.eqb k key then d else lookupPage r key
  end.

Definition hostOf (u : string) : option string :=
  match Js.stripPrefix "http://" u, Js.stripPrefix "https://" u with
  | Some r, _ | None, Some r =>
      match Js.splitAt "/"%char r with
      | Some (h, _) => Some h
      | None => Some r
      end
  | None, None => None
  end.

Definition sampleBrowser (pages : list (string * Dom.document)) : Browser :=
  {| urlHref := fun href base =>
       if Js.startsWith "http" href then Some href
       else if Js.startsWith "http" base then Some (base +:+ href)
       else None;
     urlHostname := hostOf;
     invalidUrlMessage := "Invalid URL";
     nullReadMessage := "Cannot read properties of null";
     undefinedReadMessage := "Cannot read properties of undefined";
     parseFromString := lookupPage pages;
     parseFragment := fun html => [Dom.Text html];
     locationHref := "http://localhost/";
     proxyFetch := fun _ target _ => Body target;
     coverFetch := fun _ => None;
     dateNow := fun _ => "2024-01-01T00:00:00.000Z";
     randomUUID := fun _ => "00000000-0000-4000-8000-000000000000" |}.

(** A page whose body is a list of chapters: one anchor per title. *)
Definition anchor (href text : string) : Dom.node :=
  Dom.Element "a" [("href", href)] [Dom.Text text].

Definition listPage (anchors : list Dom.node) : Dom.document :=
  [ Dom.Element "html" []
      [ Dom.Element "head" [] [];
        Dom.Element "body" []
          [ Dom.Element "ul" [("class", "chapter-list")] anchors ] ] ].

(** The start page of the scenario: anchors titled Chapter 2, Chapter 1 and
    Chapter 10, in that order. *)
Definition scenarioPage : Dom.document :=
  listPage [ anchor "/c2" "Chapter 2"; anchor "/c1" "Chapter 1";
             anchor "/c10" "Chapter 10" ].

Definition pending (u t : string) (i : nat) : State.chapter :=
  {| State.url := u; State.baseUrl := "http://novels.example";
     State.title := t; State.index := i; State.selected := true;
     State.status := State.Pending; State.content := None;
     State.error := None |}.

Definition scenarioSorted : list State.chapter :=
  [ pending "http://novels.example/c1" "Chapter 1" 1;
    pending "http://novels.example/c2" "Chapter 2" 0;
    pending "http://novels.example/c10" "Chapter 10" 2 ].

(** A start page that mixes titles with and without an integer. *)
Definition mixedPage : Dom.document :=
  listPage [ anchor "/c5" "Chapter 5"; anchor "/p" "Prologue";
             anchor "/c1" "Chapter 1" ].

Definition mixedFound : list State.chapter :=
  [ pending "http://novels.example/c5" "Chapter 5" 0;
    pending "http://novels.example/p" "Prologue" 1;
    pending "http://novels.example/c1" "Chapter 1" 2 ].

(** A start page that mixes them with the comparator still consistent: a
    prologue, then Chapter 2 and Chapter 1. *)
Definition prologuePage : Dom.document :=
  listPage [ anchor "/p" "Prologue"; anchor "/c2" "Chapter 2";
             anchor "/c1" "Chapter 1" ].

Definition prologuePushed : list State.chapter :=
  [ pending "http://novels.example/p" "Prologue" 0;
    pending "http://novels.example/c2" "Chapter 2" 1;
    pending "http://novels.example/c1" "Chapter 1" 2 ].

Definition prologueSorted : list State.chapter :=
  [ pending "http://novels.example/p" "Prologue" 0;
    pending "http://novels.example/c1" "Chapter 1" 2;
    pending "http://novels.example/c2" "Chapter 2" 1 ].

(** Two titles whose integers, 2^53 + 1 and 2^53, are the same JavaScript
    number. *)
Definition hugePage : Dom.document :=
  listPage [ anchor "/a" "Chapter 9007199254740993";
             anchor "/b" "Chapter 9007199254740992" ].

Definition hugeFound : list State.chapter :=
  [ pending "http://novels.example/a" "Chapter 9007199254740993" 0;
    pending "http://novels.example/b" "Chapter 9007199254740992" 1 ].

(** The length of the trimmed text of an element. *)
Definition textLength (e : Dom.node) : nat :=
  String.length (Js.trim (Dom.textContent e)).





Definition bodyOf (blocks : list Dom.node) : Dom.document :=
  [ Dom.Element "html" []
      [ Dom.Element "head" [] []; Dom.Element "body" [] blocks ] ].






(** A chapter page whose body is one paragraph of 99 letters. *)
Definition shortPage : Dom.document :=
  bodyOf [ Dom.Element "article" []
             [ Dom.Element "p" [] [Dom.Text (Js.repeat "a"%char 99)] ] ].






(** What a fetch of the chapter at [i] leaves alone: the archive, the
    aliasing, the number of chapters and boxes, and every other chapter. *)
Definition preserved (i : nat) (s s1 : State.session) : Prop :=
  State.aliased s1 = State.aliased s
  /\ State.zip s1 = State.zip s
  /\ State.packs s1 = State.packs s
  /\ length (State.chapters s1) = length (State.chapters s)
  /\ length (State.boxes s1) = length (State.boxes s)
  /\ forall j, j = i \/ State.chapters s1 !! j = State.chapters s !! j.

(** The chapter is the same chapter: address, title and position. *)
Definition sameChapter (ch ch1 : State.chapter) : Prop :=
  State.url ch1 = State.url ch
  /\ State.baseUrl ch1 = State.baseUrl ch
  /\ State.title ch1 = State.title ch
  /\ State.index ch1 = State.index ch
  /\ State.selected ch1 = State.selected ch.

(** The events of [failures] failed attempts on the chapter at [i] that
    are retried, the first of them at retry count [rc]: each is followed by
    a sleep of 2000 times the new retry count. *)
Fixpoint retryEvents (i rc failures : nat) : list State.event :=
  match failures with
  | O => []
  | S f =>
      State.Attempt i :: State.Slept (2000 * (rc + 1))
        :: retryEvents i (S rc) f
  end.

(** The state in which the attempt on the chapter at [i] starts that
    follows [failures] failed attempts, the first of them made in [s] at
    retry count [rc]: each failed attempt is followed by a sleep of 2000
    times the new retry count. *)
Fixpoint stateBeforeAttempt `{Browser} (i rc failures : nat)
  (s : State.session) : State.session :=
  match failures with
  | O => s
  | S f =>
      stateBeforeAttempt i (S rc) f
        (snd (State.sleep (2000 * (rc + 1))
                (snd (Parser.attemptChapter i s))))
  end.

(** A session with one chapter found and not yet fetched. *)
Definition sampleSession : State.session :=
  {| State.chapters := [pending "http://novels.example/c1" "Chapter 1" 0];
     State.aliased := true;
     State.boxes := [ {| State.checked := true; State.disabled := false;
                         State.statusText := "pending" |} ];
     State.loads := 1; State.packs := 0; State.trace := [];
     State.zip := ∅; State.packDisabled := true;
     State.shownError := None |}.

(** A start page without any link. *)
Definition emptyPage : Dom.document :=
  bodyOf [Dom.Element "p" [] [Dom.Text "Nothing here."]].

Definition sampleMeta : Meta.info :=
  {| Meta.title := "A title"; Meta.author := "An author";
     Meta.language := "en"; Meta.description := EmptyString;
     Meta.subject := EmptyString; Meta.coverImageUrl := EmptyString;
     Meta.filename := "a-title" |}.

Definition settled (ch : State.chapter) : Prop :=
  State.status ch = State.Completed \/ State.status ch = State.Error.

(** Every character of [s] satisfies [q]. *)
Fixpoint allChars (q : ascii -> bool) (s : string) : bool :=
  match s with
  | EmptyString => true
  | String c t => q c && allChars q t
  end.

(** No two characters of the class [p] stand next to each other in [s];
    [prev] tells whether the character before [s] is of the class. *)
Fixpoint noAdjacent (p : ascii -> bool) (prev : bool) (s : string) : bool :=
  match s with
  | EmptyString => true
  | String c t =>
      if p c then negb prev && noAdjacent p true t
      else noAdjacent p false t
  end.

Definition startsIn (p : ascii -> bool) (s : string) : bool :=
  match s with
  | String c _ => p c
  | EmptyString => false
  end.

Fixpoint endsIn (p : ascii -> bool) (s : string) : bool :=
  match s with
  | EmptyString => false
  | String c EmptyString => p c
  | String _ t => endsIn p t
  end.

(** The only white space is the space character. *)
Definition blankIsSpace (c : ascii) : bool :=
  negb (Js.isSpace c) || Ascii.eqb c " "%char.

(** Tidy text: white space comes as single spaces only, and neither at the
    start nor at the end. *)
Definition tidy (s : string) : bool :=
  allChars blankIsSpace s
  && noAdjacent Js.isSpace false s
  && negb (startsIn Js.isSpace s)
  && negb (endsIn Js.isSpace s).

(** A character a file name may have: none of the class that
    [sanitizeFilename] replaces, and no white space. *)
Definition nameChar (c : ascii) : bool :=
  negb (Utils.invalidInFilename c) && negb (Js.isSpace c).

(** A safe file name: characters of file names only, underscores one at a
    time, and neither at the start nor at the end. *)
Definition safeName (s : string) : bool :=
  allChars nameChar s
  && noAdjacent Utils.isUnderscore false s
  && negb (startsIn Utils.isUnderscore s)
  && negb (endsIn Utils.isUnderscore s).

(** [P] holds of the node [n] and of every node below it. *)
Fixpoint everyNode (P : Dom.node -> bool) (n : Dom.node) : bool :=
  P n &&
  match n with
  | Dom.Element _ _ ch => forallb (everyNode P) ch
  | _ => true
  end.

(** The node is an element of a void tag ([br], [hr], [img], ...). *)
Definition isVoid (n : Dom.node) : bool :=
  match n with
  | Dom.Element t _ _ => Dom.inList t Dom.voidTags
  | _ => false
  end.

(** An element of a void tag has no children, as in every parsed
    document. *)
Definition voidIsEmpty (n : Dom.node) : bool :=
  match n with
  | Dom.Element t _ ch =>
      negb (Dom.inList t Dom.voidTags)
      || match ch with [] => true | _ => false end
  | _ => true
  end.

Definition notVoid (n : Dom.node) : bool := negb (isVoid n).

(** The node is no element that the selector matches. *)
Definition unmatched (sel : Dom.selector) (n : Dom.node) : bool :=
  match n with
  | Dom.Element t a _ => negb (Dom.matchesSelector [] (t, a) sel)
  | _ => true
  end.


Definition notComment (n : Dom.node) : bool :=
  match n with
  | Dom.Comment _ => false
  | _ => true
  end.

(** A page fragment: a paragraph with text, a line break and an image. *)
Definition illustrated : list Dom.node :=
  [ Dom.Element "p" []
      [ Dom.Text "Once upon a time"; Dom.Element "br" [] [];
        Dom.Element "img" [("src", "castle.png")] [] ] ].


(** The chapters [extractChapters] makes: a title, no content yet. *)
Definition freshChapter (base : string) (ch : State.chapter) : Prop :=
  State.baseUrl ch = base
  /\ State.title ch <> EmptyString
  /\ State.selected ch = true
  /\ State.status ch = State.Pending
  /\ State.content ch = None
  /\ State.error ch = None.

Definition isCompleted (ch : State.chapter) : bool :=
  State.status_eqb (State.status ch) State.Completed.

(** The message [handleLoadAndAnalyze] shows when the page cannot be
    fetched. *)
Definition unreachableMessage : string :=
  "Failed to parse page: Could not access the webpage. "
  +:+ "This might be due to:"
  +:+ EpubGenerator.nl +:+ "1. The website is blocking access"
  +:+ EpubGenerator.nl +:+ "2. The website requires authentication"
  +:+ EpubGenerator.nl +:+ "3. The CORS proxy is temporarily unavailable"
  +:+ EpubGenerator.nl +:+ "Please try again later or try a different URL.".

(** The proxy delivers nothing: it fails, or its text is empty. *)
Definition delivers_nothing (r : response) : Prop :=
  match r with
  | Failed _ => True
  | Body html => html = EmptyString
  end.

(** A browser without network: every request fails. *)
Definition offlineBrowser : Browser :=
  {| urlHref := fun href base =>
       if Js.startsWith "http" href then Some href
       else if Js.startsWith "http" base then Some (base +:+ href)
       else None;
     urlHostname := hostOf;
     invalidUrlMessage := "Invalid URL";
     nullReadMessage := "Cannot read properties of null";
     undefinedReadMessage := "Cannot read properties of undefined";
     parseFromString := fun _ => [];
     parseFragment := fun html => [Dom.Text html];
     locationHref := "http://localhost/";
     proxyFetch := fun _ _ _ => Failed "Failed to fetch";
     coverFetch := fun _ => None;
     dateNow := fun _ => "2024-01-01T00:00:00.000Z";
     randomUUID := fun _ => "00000000-0000-4000-8000-000000000000" |}.

(** Metadata with the address of a cover. *)
Definition coveredMeta : Meta.info :=
  {| Meta.title := "A title"; Meta.author := "An author";
     Meta.language := "en"; Meta.description := EmptyString;
     Meta.subject := EmptyString;
     Meta.coverImageUrl := "http://novels.example/cover.jpg";
     Meta.filename := "a-title" |}.

(** What the package document says of the cover: the [meta] element and
    the manifest item. *)
Definition coverMeta : string :=
  "<meta name=" +:+ Js.quoted "cover" +:+ " content="
  +:+ Js.quoted "cover-image" +:+ "/>".

Definition coverItem : string :=
  "<item id=" +:+ Js.quoted "cover-image" +:+ " href="
  +:+ Js.quoted "cover.jpg" +:+ " media-type="
  +:+ Js.quoted "image/jpeg" +:+ "/>".

(** A chapter that has been fetched. *)
Definition completed (u t : string) (i : nat) (c : string) : State.chapter :=
  {| State.url := u; State.baseUrl := "http://novels.example";
     State.title := t; State.index := i; State.selected := true;
     State.status := State.Completed; State.content := Some c;
     State.error := None |}.

(** A session after the fetch: one chapter completed, one in error, the box
    of the first unchecked by the user. *)
Definition fetchedSession : State.session :=
  {| State.chapters :=
       [ completed "http://novels.example/c1" "Chapter 1" 0 "<p>One</p>";
         {| State.url := "http://novels.example/c2";
            State.baseUrl := "http://novels.example";
            State.title := "Chapter 2"; State.index := 1;
            State.selected := true; State.status := State.Error;
            State.content := None; State.error := Some "down" |} ];
     State.aliased := true;
     State.boxes :=
       [ {| State.checked := false; State.disabled := false;
            State.statusText := "completed" |};
         {| State.checked := false; State.disabled := true;
            State.statusText := "Error: down" |} ];
     State.loads := 3; State.packs := 0; State.trace := [];
     State.zip := ∅; State.packDisabled := false;
     State.shownError := None |}.

End Spec.

(** * Properties *)

#[local] Arguments String.append : simpl nomatch.

(** ** Strings *)

Lemma append_nil_r (s : string) : s +:+ EmptyString = s.
Proof. induction s as [|c s IH]; [reflexivity|]. cbn. now rewrite IH. Qed.

Lemma append_assoc (a b c : string) : (a +:+ b) +:+ c = a +:+ (b +:+ c).
Proof. induction a as [|x a IH]; [reflexivity|]. cbn. now rewrite IH. Qed.

Lemma append_cons (c : ascii) (a b : string) :
  String c a +:+ b = String c (a +:+ b).
Proof. reflexivity. Qed.

Lemma length_append (a b : string) :
  String.length (a +:+ b) = String.length a + String.length b.
Proof. induction a as [|x a IH]; [reflexivity|]. cbn. now rewrite IH. Qed.

Lemma replaceAll_append (c : ascii) (r a b : string) :
  Js.replaceAll c r (a +:+ b) = Js.replaceAll c r a +:+ Js.replaceAll c r b.
Proof.
  induction a as [|x a IH]; [reflexivity|].
  cbn. destruct (Ascii.eqb x c).
  - rewrite IH. now rewrite append_assoc.
  - now rewrite IH.
Qed.

(** ** Escaping *)

Import Spec.

Lemma replaceChain_cons (c : ascii) (t : string) :
  replaceChain (String c t) = escapeChar c +:+ replaceChain t.
Proof.
  unfold replaceChain, escapeChar.
  change (String c t) with (Js.str c +:+ t).
  rewrite !replaceAll_append.
  f_equal.
  destruct (Ascii.eqb_spec c "&"%char) as [->|H1]; [reflexivity|].
  destruct (Ascii.eqb_spec c "<"%char) as [->|H2]; [reflexivity|].
  destruct (Ascii.eqb_spec c ">"%char) as [->|H3]; [reflexivity|].
  destruct (Ascii.eqb_spec c Js.dquote) as [->|H4]; [reflexivity|].
  destruct (Ascii.eqb_spec c "'"%char) as [->|H5]; [reflexivity|].
  cbn.
  apply Ascii.eqb_neq in H1, H2, H3, H4, H5.
  rewrite H1. cbn. rewrite H2. cbn. rewrite H3. cbn. rewrite H4. cbn.
  now rewrite H5.
Qed.

Lemma escapeXml_chars (s : string) :
  EpubGenerator.escapeXml s = escapeChars s.
Proof.
  unfold EpubGenerator.escapeXml.
  destruct s as [|c t]; [reflexivity|].
  cbn [Js.isEmpty]. fold (replaceChain (String c t)).
  generalize (String c t). intros s.
  induction s as [|d s IH]; [reflexivity|].
  rewrite replaceChain_cons. cbn. now rewrite IH.
Qed.

Lemma occurs_append (c : ascii) (a b : string) :
  occurs c (a +:+ b) = occurs c a || occurs c b.
Proof.
  induction a as [|x a IH]; [reflexivity|].
  cbn. rewrite IH. now rewrite orb_assoc.
Qed.

Lemma escapeChar_cases (c : ascii) :
  (c = "&"%char \/ c = "<"%char \/ c = ">"%char \/ c = Js.dquote
   \/ c = "'"%char)
  \/ (escapeChar c = Js.str c /\ c <> "&"%char /\ c <> "<"%char
      /\ c <> ">"%char /\ c <> Js.dquote /\ c <> "'"%char).
Proof.
  unfold escapeChar.
  destruct (Ascii.eqb_spec c "&"%char); [tauto|].
  destruct (Ascii.eqb_spec c "<"%char); [tauto|].
  destruct (Ascii.eqb_spec c ">"%char); [tauto|].
  destruct (Ascii.eqb_spec c Js.dquote); [tauto|].
  destruct (Ascii.eqb_spec c "'"%char); [tauto|].
  right. repeat split; assumption.
Qed.

Lemma occurs_escapeChars (c : ascii) (s : string) :
  c = "<"%char \/ c = ">"%char \/ c = Js.dquote \/ c = "'"%char ->
  occurs c (escapeChars s) = false.
Proof.
  intros Hc. induction s as [|d s IH]; [reflexivity|].
  cbn [escapeChars]. rewrite occurs_append, IH, orb_false_r.
  destruct (escapeChar_cases d)
    as [[->|[->|[->|[->| ->]]]]|(E & _ & N2 & N3 & N4 & N5)].
  1-5: destruct Hc as [->|[->|[->| ->]]]; reflexivity.
  rewrite E. cbn. rewrite orb_false_r. apply Ascii.eqb_neq.
  destruct Hc as [->|[->|[->| ->]]]; assumption.
Qed.

Lemma reference_plain (c : ascii) (t : string) :
  c <> "&"%char -> Reader.reference (String c t) = None.
Proof.
  intros N.
  assert (E : forall p, Js.stripPrefix (String "&"%char p) (String c t) = None).
  { intros p. cbn [Js.stripPrefix].
    destruct (Ascii.eqb_spec "&"%char c); congruence. }
  unfold Reader.reference, Reader.numericReference, Reader.named.
  cbn [Reader.namedReference]. now rewrite !E.
Qed.

Lemma reference_escapeChar (c : ascii) (rest : string) :
  c = "&"%char \/ c = "<"%char \/ c = ">"%char \/ c = Js.dquote
  \/ c = "'"%char ->
  Reader.reference (escapeChar c +:+ rest) = Some (c, rest).
Proof. intros [->|[->|[->|[->| ->]]]]; reflexivity. Qed.

Lemma decodeFuel_reference (f : nat) (s rest : string) (d : ascii) :
  Reader.reference s = Some (d, rest) ->
  Reader.decodeFuel (S f) s = String d (Reader.decodeFuel f rest).
Proof.
  intros E. destruct s as [|c t]; [discriminate E|].
  cbn [Reader.decodeFuel]. now rewrite E.
Qed.

Lemma escapeChar_length (c : ascii) : 1 <= String.length (escapeChar c).
Proof.
  destruct (escapeChar_cases c) as [[->|[->|[->|[->| ->]]]]|(E & _)];
    [cbn; lia..|].
  rewrite E. cbn. lia.
Qed.

Lemma decodeFuel_escapeChars (s : string) (fuel : nat) :
  String.length (escapeChars s) <= fuel ->
  Reader.decodeFuel fuel (escapeChars s) = s.
Proof.
  revert fuel. induction s as [|c s IH]; intros fuel Hf.
  - destruct fuel; reflexivity.
  - cbn [escapeChars] in *. rewrite length_append in Hf.
    pose proof (escapeChar_length c) as Hl.
    destruct fuel as [|f]; [lia|].
    destruct (escapeChar_cases c) as [Hc|(E & N1 & _)].
    + rewrite (decodeFuel_reference f _ (escapeChars s) c)
        by now apply reference_escapeChar.
      rewrite IH by lia. reflexivity.
    + rewrite E in *. cbn in Hf.
      cbn [Js.str String.append Reader.decodeFuel].
      rewrite reference_plain by assumption.
      rewrite IH by lia. reflexivity.
Qed.

Lemma decode_escapeXml (s : string) :
  Reader.decode (EpubGenerator.escapeXml s) = s.
Proof.
  rewrite escapeXml_chars. unfold Reader.decode.
  now apply decodeFuel_escapeChars.
Qed.

Lemma within_concat (part : string) (before after : list string) :
  within part (Js.concat (before ++ part :: after)).
Proof.
  exists (Js.concat before), (Js.concat after).
  induction before as [|b before IH]; [reflexivity|].
  cbn [app Js.concat]. rewrite IH. now rewrite append_assoc.
Qed.

Lemma within_inner (part whole pre post : string) :
  within (pre +:+ part +:+ post) whole -> within part whole.
Proof.
  intros (a & b & ->). exists (a +:+ pre), (post +:+ b).
  now rewrite !append_assoc.
Qed.

(** C7.  A title or author goes into the package document through
    [escapeXml]: the document holds the escaped string between the tags of
    its element; the escaped string has none of the characters [<], [>],
    double quote and apostrophe left, and writes [&] only as the start
    of a reference; and a reader that resolves the references gets the
    original string back, whatever the string is. *)
Theorem escapeXml_decodes_back (metaInfo : Meta.info)
  (chapters : list State.chapter) (identifier now : string) (s : string) :
  within ("<dc:title>" +:+ EpubGenerator.escapeXml (Meta.title metaInfo)
          +:+ "</dc:title>")
         (EpubGenerator.contentOpf metaInfo chapters identifier now)
  /\ within ("<dc:creator>"
             +:+ EpubGenerator.escapeXml (Meta.author metaInfo)
             +:+ "</dc:creator>")
            (EpubGenerator.contentOpf metaInfo chapters identifier now)
  /\ EpubGenerator.escapeXml s = escapeChars s
  /\ occurs "<"%char (EpubGenerator.escapeXml s) = false
  /\ occurs ">"%char (EpubGenerator.escapeXml s) = false
  /\ occurs Js.dquote (EpubGenerator.escapeXml s) = false
  /\ occurs "'"%char (EpubGenerator.escapeXml s) = false
  /\ Reader.decode (EpubGenerator.escapeXml s) = s.
Proof.
  split; [|split].
  - apply (within_inner _ _ "        " EmptyString).
    rewrite append_nil_r. unfold EpubGenerator.contentOpf.
    apply (within_concat _ [_]).
  - apply (within_inner _ _ "        " EmptyString).
    rewrite append_nil_r. unfold EpubGenerator.contentOpf.
    apply (within_concat _ [_; _; _]).
  - rewrite escapeXml_chars.
    repeat split; try (apply occurs_escapeChars; tauto).
    now apply decodeFuel_escapeChars.
Qed.

(** ** Names of the entries of the archive *)

Lemma append_same_length (a b c d : string) :
  String.length a = String.length b ->
  a +:+ c = b +:+ d -> a = b /\ c = d.
Proof.
  revert b. induction a as [|x a IH]; intros [|y b] L E;
    try discriminate L.
  - now split.
  - cbn in E. injection E as -> E. injection L as L.
    destruct (IH b L E) as [-> ->]. now split.
Qed.

Lemma append_cancel_r (a b c : string) : a +:+ c = b +:+ c -> a = b.
Proof.
  intros E. apply (append_same_length a b c c); [|assumption].
  apply (f_equal String.length) in E. rewrite !length_append in E. lia.
Qed.

Lemma show_inj (n m : nat) : Js.show n = Js.show m -> n = m.
Proof.
  unfold Js.show. intros E.
  apply DecimalNat.Unsigned.to_uint_inj.
  apply (f_equal NilEmpty.uint_of_string) in E.
  rewrite !NilEmpty.usu in E. congruence.
Qed.

Lemma chapterPath_inj (i j : nat) :
  EpubGenerator.chapterPath i = EpubGenerator.chapterPath j -> i = j.
Proof.
  unfold EpubGenerator.chapterPath, EpubGenerator.chapterId. intros E.
  apply (inj (String.append "OEBPS/")) in E.
  apply append_cancel_r in E.
  apply (inj (String.append "chapter-")) in E.
  apply show_inj in E. lia.
Qed.

(** The entries every assembly writes besides the chapter documents and the
    cover. *)
Lemma chapterPath_not_fixed (i : nat) :
  ~ In (EpubGenerator.chapterPath i) fixedEntries.
Proof.
  unfold EpubGenerator.chapterPath, EpubGenerator.chapterId, fixedEntries.
  cbn. intros H. repeat (destruct H as [H|H]; [discriminate H|]).
  exact H.
Qed.

(** ** The assembler *)

#[local] Arguments EpubGenerator.chapterPath : simpl never.
#[local] Arguments EpubGenerator.chapterXhtml : simpl never.
#[local] Arguments EpubGenerator.contentOpf : simpl never.
#[local] Arguments EpubGenerator.tocNcx : simpl never.
#[local] Arguments EpubGenerator.containerXml : simpl never.
#[local] Arguments EpubGenerator.css : simpl never.

Section Assembler.

Context `{Browser}.

Lemma addChaptersFrom_run (i : nat) (chs : list State.chapter)
  (s : State.session) :
  EpubGenerator.addChaptersFrom i chs s =
  (State.Returned tt,
   State.setTrace
     (State.trace s ++ replicate (length chs) (State.Slept 100))
     (State.setZip (writeChapters i chs (State.zip s)) s)).
Proof.
  revert i s. induction chs as [|ch chs IH]; intros i s.
  - destruct s. cbn. unfold State.ret, State.setTrace, State.setZip. cbn.
    now rewrite app_nil_r.
  - cbn [EpubGenerator.addChaptersFrom].
    unfold State.bind at 1. unfold EpubGenerator.zipFile, State.modify.
    unfold State.bind at 1. unfold State.sleep, State.emit, State.modify.
    rewrite IH. destruct s. cbn. unfold State.setTrace, State.setZip. cbn.
    now rewrite <- app_assoc.
Qed.

Lemma generateEpub_run (metaInfo : Meta.info) (c : State.chapter)
  (cs : list State.chapter) (s : State.session) :
  EpubGenerator.generateEpub metaInfo (c :: cs) s =
  (State.Returned
     (assembled metaInfo (c :: cs) (State.packs s) (State.zip s)),
   State.setPacks (S (State.packs s))
     (State.setTrace
        (State.trace s ++ replicate (S (length cs)) (State.Slept 100))
        (State.setZip
           (assembled metaInfo (c :: cs) (State.packs s) (State.zip s))
           s))).
Proof.
  unfold EpubGenerator.generateEpub, State.tryCatch.
  unfold State.bind at 1.
  unfold EpubGenerator.createEpubStructure, EpubGenerator.zipFolder,
    EpubGenerator.zipFile, State.bind, State.modify at 1 2 3.
  unfold EpubGenerator.addMetadata, EpubGenerator.zipFile, State.bind,
    State.get, State.modify.
  unfold EpubGenerator.addChapters. rewrite addChaptersFrom_run.
  unfold assembled, writeCover, EpubGenerator.addCoverImage,
    EpubGenerator.zipFile, State.modify, State.ret.
  destruct s as [chs al bx ld pk tr z pd se]. cbn.
  destruct (Js.isEmpty (Meta.coverImageUrl metaInfo)); cbn;
    [reflexivity|].
  destruct (coverFetch (Meta.coverImageUrl metaInfo)); reflexivity.
Qed.

Lemma writeChapters_other (k : string) (i : nat)
  (chs : list State.chapter) (z : gmap string string) :
  (forall j, k <> EpubGenerator.chapterPath j) ->
  writeChapters i chs z !! k = z !! k.
Proof.
  intros Hk. revert i z. induction chs as [|ch chs IH]; intros i z;
    [reflexivity|].
  cbn. rewrite IH. apply lookup_insert_ne. intros E. now apply (Hk i).
Qed.

Lemma writeChapters_lookup (j i : nat) (chs : list State.chapter)
  (z : gmap string string) :
  writeChapters i chs z !! EpubGenerator.chapterPath (i + j) =
  match chs !! j with
  | Some ch => Some (EpubGenerator.chapterXhtml ch)
  | None => z !! EpubGenerator.chapterPath (i + j)
  end.
Proof.
  revert j i z. induction chs as [|ch chs IH]; intros j i z;
    [reflexivity|].
  cbn [writeChapters]. destruct j as [|j].
  - cbn. rewrite Nat.add_0_r.
    assert (G : forall n l z',
      z' !! EpubGenerator.chapterPath i = Some (EpubGenerator.chapterXhtml ch) ->
      i < n ->
      writeChapters n l z' !! EpubGenerator.chapterPath i
      = Some (EpubGenerator.chapterXhtml ch)).
    { intros n l. revert n. induction l as [|x l IHl]; intros n z' Hz Hn;
        [exact Hz|].
      cbn. apply IHl; [|lia].
      rewrite lookup_insert_ne; [exact Hz|].
      intros E. apply chapterPath_inj in E. lia. }
    apply G; [apply lookup_insert_eq|lia].
  - replace (i + S j) with (S i + j) by lia. rewrite IH. cbn.
    destruct (chs !! j); [reflexivity|].
    apply lookup_insert_ne. intros E. apply chapterPath_inj in E. lia.
Qed.

Lemma writeChapters_before (j i : nat) (chs : list State.chapter)
  (z : gmap string string) :
  j < i ->
  writeChapters i chs z !! EpubGenerator.chapterPath j
  = z !! EpubGenerator.chapterPath j.
Proof.
  revert i z. induction chs as [|ch chs IH]; intros i z Hj; [reflexivity|].
  cbn. rewrite IH by lia. apply lookup_insert_ne.
  intros E. apply chapterPath_inj in E. lia.
Qed.

End Assembler.

Section Container.

Context `{Browser}.

Lemma fixed_not_chapterPath (k : string) (j : nat) :
  In k fixedEntries -> k <> EpubGenerator.chapterPath j.
Proof. intros Hk ->. now apply (chapterPath_not_fixed j). Qed.

Lemma writeCover_other (metaInfo : Meta.info) (k : string)
  (z : gmap string string) :
  k <> "OEBPS/cover.jpg" -> writeCover metaInfo z !! k = z !! k.
Proof.
  intros Hk. unfold writeCover.
  destruct (Js.isEmpty _); [reflexivity|].
  destruct (coverFetch _); [|reflexivity].
  now apply lookup_insert_ne.
Qed.

Lemma assembled_chapter (metaInfo : Meta.info) (chs : list State.chapter)
  (n i : nat) (z : gmap string string) :
  assembled metaInfo chs n z !! EpubGenerator.chapterPath i =
  match chs !! i with
  | Some ch => Some (EpubGenerator.chapterXhtml ch)
  | None => z !! EpubGenerator.chapterPath i
  end.
Proof.
  unfold assembled.
  rewrite writeCover_other
    by (apply not_eq_sym, fixed_not_chapterPath; cbn; tauto).
  rewrite (writeChapters_lookup i 0). cbn [Nat.add].
  destruct (chs !! i); [reflexivity|].
  rewrite !lookup_insert_ne
    by (apply fixed_not_chapterPath; cbn; tauto).
  reflexivity.
Qed.

Lemma assembled_opf (metaInfo : Meta.info) (chs : list State.chapter)
  (n : nat) (z : gmap string string) :
  assembled metaInfo chs n z !! "OEBPS/content.opf" =
  Some (EpubGenerator.contentOpf metaInfo chs (randomUUID n) (dateNow n)).
Proof.
  unfold assembled.
  rewrite writeCover_other by discriminate.
  rewrite writeChapters_other
    by (intros j; apply fixed_not_chapterPath; cbn; tauto).
  rewrite lookup_insert_ne by discriminate.
  rewrite lookup_insert_ne by discriminate.
  apply lookup_insert_eq.
Qed.


Lemma assembled_other (metaInfo : Meta.info) (chs : list State.chapter)
  (n : nat) (z : gmap string string) (k : string) :
  ~ In k fixedEntries ->
  (forall j, k <> EpubGenerator.chapterPath j) ->
  assembled metaInfo chs n z !! k = z !! k.
Proof.
  intros Hf Hc. unfold assembled.
  rewrite writeCover_other by (intros ->; apply Hf; cbn; tauto).
  rewrite writeChapters_other by assumption.
  rewrite !lookup_insert_ne by (intros <-; apply Hf; cbn; tauto).
  reflexivity.
Qed.

(** The archive belongs to the generator, not to one assembly: what an
    earlier assembly wrote at a position beyond the chapters of the current
    one is still there. *)
Remark earlier_documents_stay (metaInfo : Meta.info)
  (chs : list State.chapter) (n i : nat) (z : gmap string string) :
  length chs <= i ->
  assembled metaInfo chs n z !! EpubGenerator.chapterPath i
  = z !! EpubGenerator.chapterPath i.
Proof.
  intros Hi. rewrite assembled_chapter.
  now rewrite (lookup_ge_None_2 chs i Hi).
Qed.



End Container.

(** ** Selection of the chapters to pack *)




Lemma omap_imap_seq {A B : Type} (f : nat -> A -> option B) (l : list A)
  (k : nat) :
  omap (fun x => x) (imap (fun i => f (k + i)) l)
  = omap (fun i => match l !! (i - k) with
                   | Some a => f i a
                   | None => None
                   end) (seq k (length l)).
Proof.
  revert k. induction l as [|a l IH]; intros k; [reflexivity|].
  cbn [imap omap length seq list_omap fmap list_fmap].
  cbn. rewrite Nat.add_0_r, Nat.sub_diag. cbn.
  assert (E : omap (fun x => x) (imap ((fun i => f (k + i)) ∘ S) l)
              = omap (fun i => match (a :: l) !! (i - k) with
                               | Some a0 => f i a0
                               | None => None
                               end) (seq (S k) (length l))).
  { rewrite (imap_ext _ (fun i => f (S k + i)))
      by (intros; cbn; f_equal; lia).
    rewrite IH. apply list_omap_ext. apply Forall2_same_length_lookup_2;
      [reflexivity|].
    intros i x y Hx Hy. rewrite Hx in Hy. injection Hy as <-.
    apply lookup_seq in Hx as [-> Hi].
    replace (S k + i - k) with (S (i + k - k)) by lia.
    replace (S k + i - S k) with (i + k - k) by lia. reflexivity. }
  destruct (f k a); cbn; now rewrite E.
Qed.

Lemma getSelectedChapters_included (s : State.session) :
  App.getSelectedChapters s = includedChapters s.
Proof.
  unfold App.getSelectedChapters, includedChapters, includedFrom.
  rewrite (omap_imap_seq
             (fun index ch =>
                match State.boxes s !! index with
                | Some box =>
                    if State.checked box
                       && State.status_eqb (State.status ch) State.Completed
                    then Some ch else None
                | None => None
                end) (State.currentChapters s) 0).
  apply list_omap_ext. apply Forall2_same_length_lookup_2; [reflexivity|].
  intros i x y Hx Hy. rewrite Hx in Hy. injection Hy as <-.
  apply lookup_seq in Hx as [-> Hi]. cbn [Nat.add]. rewrite Nat.sub_0_r.
  unfold included.
  destruct (State.currentChapters s !! i) as [ch|];
    destruct (State.boxes s !! i) as [box|]; reflexivity.
Qed.

Section Packing.

Context `{Browser}.

Lemma handlePackEpub_none (metaInfo : Meta.info) (s : State.session) :
  App.getSelectedChapters s = [] ->
  App.handlePackEpub metaInfo s
  = (State.Returned None,
     State.setShownError (Some "Please select at least one chapter") s).
Proof.
  intros E. unfold App.handlePackEpub, State.tryCatch, State.bind, State.get.
  rewrite E. reflexivity.
Qed.



End Packing.

(** ** Sorting *)

Section Sorting.

Context {A : Type} (cmp : A -> A -> Z).

Lemma insertBy_perm (x : A) (l : list A) :
  Permutation (x :: l) (Parser.insertBy cmp x l).
Proof.
  induction l as [|y l IH]; [reflexivity|].
  cbn. destruct (0 <? cmp x y)%Z; [|reflexivity].
  rewrite perm_swap. now constructor.
Qed.

Lemma sortBy_perm (l : list A) : Permutation l (Parser.sortBy cmp l).
Proof.
  induction l as [|x l IH]; [reflexivity|].
  cbn. rewrite <- insertBy_perm. now constructor.
Qed.

End Sorting.

(** ** Chapter discovery *)

Section Discovery.

Context `{Browser}.

Lemma firstOccurrences_fresh (seen : gset string) (l : list string) :
  NoDup (firstOccurrences seen l)
  /\ Forall (fun x => x ∉ seen) (firstOccurrences seen l).
Proof.
  revert seen. induction l as [|x l IH]; intros seen.
  - split; constructor.
  - cbn. destruct (decide (x ∈ seen)) as [Hx|Hx]; [apply IH|].
    destruct (IH ({[x]} ∪ seen)) as [ND FA]. split.
    + constructor; [|exact ND].
      intros Hin. rewrite Forall_forall in FA. apply (FA x Hin).
      apply elem_of_union_l. now apply elem_of_singleton.
    + constructor; [exact Hx|].
      eapply Forall_impl; [exact FA|]. cbn. intros y Hy Hs.
      apply Hy. now apply elem_of_union_r.
Qed.

Lemma processLinks_urls (base : string) (links : list Dom.node) (i : nat)
  (seen : gset string) (acc : list State.chapter) :
  map State.url (Parser.processLinks base links i seen acc)
  = map State.url acc ++ firstOccurrences seen (resolvedHrefs base links).
Proof.
  revert i seen acc. induction links as [|link links IH]; intros i seen acc.
  - cbn. now rewrite app_nil_r.
  - cbn [Parser.processLinks]. unfold resolvedHrefs. cbn [omap list_omap].
    fold (resolvedHrefs base links).
    destruct (Dom.getAttribute "href" link) as [href|]; [|apply IH].
    destruct (Js.isEmpty href); [apply IH|].
    cbn [firstOccurrences].
    destruct (decide (Parser.resolveUrl href base ∈ seen)); [apply IH|].
    rewrite IH, map_app. cbn. now rewrite <- app_assoc.
Qed.

(** C10.  [resolveUrl] always returns a string: the address the [URL]
    constructor computes, or the [href] itself when the constructor throws.
    The chapters pushed carry what [resolveUrl] returned for the links with
    an [href], in the order of the links, each string once (the first time
    it comes): so a chapter has the [href] as its address when the [href]
    does not resolve, and two links are the same chapter exactly when
    [resolveUrl] returns the same string for them.  The chapters
    [extractChapters] returns are those chapters, reordered. *)
Theorem resolveUrl_is_total_and_feeds_dedup (href base : string)
  (dom : Dom.document) (siteRules : Parser.rules) :
  let links := Parser.allChapterLinks dom siteRules in
  let pushed := Parser.processLinks base links 0 ∅ [] in
  Parser.resolveUrl href base
  = match urlHref href base with Some u => u | None => href end
  /\ map State.url pushed = firstOccurrences ∅ (resolvedHrefs base links)
  /\ NoDup (map State.url pushed)
  /\ match Parser.extractChapters dom base siteRules with
     | inl _ => links = []
     | inr found => Permutation pushed found
     end.
Proof.
  intros links pushed. split; [reflexivity|]. split.
  { subst pushed. now rewrite processLinks_urls. }
  split.
  { subst pushed. rewrite processLinks_urls. cbn.
    apply firstOccurrences_fresh. }
  unfold Parser.extractChapters. fold links.
  destruct links; [reflexivity|]. apply sortBy_perm.
Qed.

(** With a base that is no address an [href] does not resolve, and the
    chapter carries the [href] itself. *)
Example unresolved_href_is_recorded :
  @Parser.resolveUrl (sampleBrowser []) "/c1" "about:blank" = "/c1"
  /\ map State.url
       (@Parser.processLinks (sampleBrowser []) "about:blank"
          [anchor "/c1" "Chapter 1"; anchor "/c1" "Chapter 1 again"]
          0 ∅ [])
     = ["/c1"].
Proof. split; reflexivity. Qed.

Lemma processLinks_indices (base : string) (links : list Dom.node) (i : nat)
  (seen : gset string) (acc : list State.chapter) :
  exists tail,
    Parser.processLinks base links i seen acc = acc ++ tail
    /\ StronglySorted (fun a b => State.index a < State.index b) tail
    /\ Forall (fun ch => i <= State.index ch) tail.
Proof.
  revert i seen acc. induction links as [|link links IH]; intros i seen acc.
  - exists []. cbn. rewrite app_nil_r. repeat constructor.
  - cbn [Parser.processLinks].
    assert (Skip : forall seen',
      exists tail,
        Parser.processLinks base links (S i) seen' acc = acc ++ tail
        /\ StronglySorted (fun a b => State.index a < State.index b) tail
        /\ Forall (fun ch => i <= State.index ch) tail).
    { intros seen'. destruct (IH (S i) seen' acc) as (tail & E & S1 & F1).
      exists tail. repeat split; [exact E|exact S1|].
      eapply Forall_impl; [exact F1|]. cbn. intros; lia. }
    destruct (Dom.getAttribute "href" link) as [href|]; [|apply Skip].
    destruct (Js.isEmpty href); [apply Skip|].
    destruct (decide (Parser.resolveUrl href base ∈ seen)); [apply Skip|].
    match goal with
    | |- context [Parser.processLinks base links (S i) ?sn (acc ++ [?c])] =>
        destruct (IH (S i) sn (acc ++ [c])) as (tail & E & S1 & F1);
        exists (c :: tail)
    end.
    rewrite E, <- app_assoc. split; [reflexivity|]. split.
    + constructor; [exact S1|].
      apply Forall_forall. intros y Hy. rewrite Forall_forall in F1.
      specialize (F1 y Hy). cbn in *. lia.
    + constructor; [cbn; lia|].
      eapply Forall_impl; [exact F1|]. cbn. intros; lia.
Qed.

(** The discovery fails, with the one message it has, exactly when the three
    strategies find no link. *)
Lemma extractChapters_fails_iff (dom : Dom.document) (base : string)
  (siteRules : Parser.rules) :
  Parser.extractChapters dom base siteRules
  = inl "No chapters found on the page"
  <-> Parser.siteLinks dom siteRules = []
      /\ Parser.defaultLinks dom = []
      /\ Parser.aggressiveLinks dom = [].
Proof.
  unfold Parser.extractChapters, Parser.allChapterLinks.
  destruct (Parser.siteLinks dom siteRules) as [|l1 r1].
  - destruct (Parser.defaultLinks dom) as [|l2 r2].
    + destruct (Parser.aggressiveLinks dom) as [|l3 r3].
      * tauto.
      * split; [discriminate|]. intros (_ & _ & E). discriminate E.
    + split; [discriminate|]. intros (_ & E & _). discriminate E.
  - split; [discriminate|]. intros (E & _). discriminate E.
Qed.

End Discovery.

(** ** The order of the chapters *)

Lemma compareChapters_antisym (a b : State.chapter) :
  Parser.compareChapters b a = (- Parser.compareChapters a b)%Z.
Proof.
  unfold Parser.compareChapters.
  destruct (Js.matchDigits (State.title a)),
    (Js.matchDigits (State.title b)); lia.
Qed.

Lemma compare_numbered (a b : State.chapter) (x y : Z) :
  chapterNumber a = Some x -> chapterNumber b = Some y ->
  Parser.compareChapters a b = (x - y)%Z.
Proof.
  unfold chapterNumber, Parser.compareChapters.
  destruct (Js.matchDigits (State.title a)); [|discriminate].
  destruct (Js.matchDigits (State.title b)); [|discriminate].
  now intros [= <-] [= <-].
Qed.

Lemma compare_unnumbered (a b : State.chapter) :
  unnumbered a = true ->
  Parser.compareChapters a b
  = (Z.of_nat (State.index a) - Z.of_nat (State.index b))%Z.
Proof.
  unfold unnumbered, chapterNumber, Parser.compareChapters.
  destruct (Js.matchDigits (State.title a)); [discriminate|]. reflexivity.
Qed.

(** Coming before, in terms of the comparator: it returns a negative
    number, or zero for two chapters in the order of their discovery. *)
Lemma comesBefore_compare (a b : State.chapter) :
  comesBefore a b
  <-> ((Parser.compareChapters a b < 0)%Z
       \/ (Parser.compareChapters a b = 0%Z
           /\ State.index a < State.index b)).
Proof.
  unfold comesBefore, chapterNumber, Parser.compareChapters.
  destruct (Js.matchDigits (State.title a)),
    (Js.matchDigits (State.title b)); lia.
Qed.

Lemma comesBefore_specified (a b : State.chapter) :
  comesBefore a b -> inSpecifiedOrder a b.
Proof.
  unfold comesBefore, inSpecifiedOrder.
  destruct (chapterNumber a), (chapterNumber b); lia.
Qed.

Lemma comesBefore_asym (a b : State.chapter) :
  comesBefore a b -> comesBefore b a -> False.
Proof.
  unfold comesBefore.
  destruct (chapterNumber a), (chapterNumber b); lia.
Qed.

Lemma transitive_sub (l l' : list State.chapter) :
  (forall x, In x l' -> In x l) ->
  orderIsTransitive l -> orderIsTransitive l'.
Proof. intros Hsub Hc a b c Ha Hb Hc'. apply Hc; now apply Hsub. Qed.

Lemma insertBy_ordered (x : State.chapter) (l : list State.chapter) :
  orderIsTransitive (x :: l) ->
  List.Forall (fun y => State.index x < State.index y) l ->
  StronglySorted comesBefore l ->
  StronglySorted comesBefore (Parser.insertBy Parser.compareChapters x l).
Proof.
  intros Hc Hi Hs. induction Hs as [|y l Hl IH Hy]; cbn [Parser.insertBy].
  - repeat constructor.
  - inversion Hi as [|? ? Ixy Hi']; subst.
    destruct (0 <? Parser.compareChapters x y)%Z eqn:E.
    + apply Z.ltb_lt in E. constructor.
      * apply IH; [|exact Hi'].
        apply (transitive_sub (x :: y :: l)); [|exact Hc].
        intros z [<-|Hz]; [now left|now right; right].
      * apply List.Forall_forall. intros z Hz.
        apply (Permutation_in _ (Permutation_sym (insertBy_perm _ x l)))
          in Hz.
        destruct Hz as [<-|Hz].
        -- apply comesBefore_compare. left.
           rewrite compareChapters_antisym. lia.
        -- rewrite List.Forall_forall in Hy. now apply Hy.
    + apply Z.ltb_ge in E.
      assert (Hxy : comesBefore x y) by (apply comesBefore_compare; lia).
      constructor; [now constructor|].
      constructor; [exact Hxy|].
      apply List.Forall_forall. intros z Hz.
      rewrite List.Forall_forall in Hy.
      apply (Hc x y z); [now left|now right; left|now right; right
                        |exact Hxy|now apply Hy].
Qed.

Lemma sortBy_ordered (l : list State.chapter) :
  orderIsTransitive l ->
  StronglySorted (fun a b => State.index a < State.index b) l ->
  StronglySorted comesBefore (Parser.sortBy Parser.compareChapters l).
Proof.
  intros Hc Hs. induction Hs as [|x l Hl IH Hx]; cbn [Parser.sortBy];
    [constructor|].
  apply insertBy_ordered.
  - apply (transitive_sub (x :: l)); [|exact Hc].
    intros z [<-|Hz]; [now left|right].
    eapply Permutation_in; [symmetry; apply sortBy_perm|exact Hz].
  - apply List.Forall_forall. intros z Hz. rewrite List.Forall_forall in Hx.
    apply Hx. eapply Permutation_in; [symmetry; apply sortBy_perm|exact Hz].
  - apply IH. apply (transitive_sub (x :: l)); [|exact Hc].
    intros z Hz. now right.
Qed.

(** Of two chapters of an arrangement one comes before the other, and no
    three of them come each before the next in a circle. *)
Lemma arranged_total (l : list State.chapter) (a b : State.chapter) :
  StronglySorted comesBefore l -> In a l -> In b l ->
  a = b \/ comesBefore a b \/ comesBefore b a.
Proof.
  induction 1 as [|h t Ht IH Hh]; intros Ha Hb; [destruct Ha|].
  rewrite List.Forall_forall in Hh.
  destruct Ha as [<-|Ha], Hb as [<-|Hb]; auto.
Qed.

Lemma arranged_no_circle (l : list State.chapter) (a b c : State.chapter) :
  StronglySorted comesBefore l -> In a l -> In b l -> In c l ->
  comesBefore a b -> comesBefore b c -> comesBefore c a -> False.
Proof.
  induction 1 as [|h t Ht IH Hh]; intros Ha Hb Hc Rab Rbc Rca;
    [destruct Ha|].
  rewrite List.Forall_forall in Hh.
  assert (First : forall x y, In x (h :: t) -> comesBefore x y -> y = h ->
                              False).
  { intros x y Hx Rxy ->. destruct Hx as [<-|Hx].
    - exact (comesBefore_asym _ _ Rxy Rxy).
    - exact (comesBefore_asym _ _ Rxy (Hh x Hx)). }
  destruct Ha as [Ea|Ha];
    [exact (First c a Hc Rca (eq_sym Ea))|].
  destruct Hb as [Eb|Hb];
    [exact (First a b (or_intror Ha) Rab (eq_sym Eb))|].
  destruct Hc as [Ec|Hc];
    [exact (First b c (or_intror Hb) Rbc (eq_sym Ec))|].
  now apply IH.
Qed.

Lemma arranged_is_transitive (l arrangement : list State.chapter) :
  arrangementOf l arrangement -> orderIsTransitive l.
Proof.
  intros [Hp Hs] a b c Ha Hb Hc Rab Rbc.
  apply (Permutation_in _ Hp) in Ha, Hb, Hc.
  destruct (arranged_total arrangement a c Hs Ha Hc) as [<-|[R|R]].
  - destruct (comesBefore_asym _ _ Rab Rbc).
  - exact R.
  - destruct (arranged_no_circle arrangement a b c Hs Ha Hb Hc Rab Rbc R).
Qed.

(** The chapters have one arrangement at most. *)
Lemma arrangement_unique (l l' : list State.chapter) :
  Permutation l l' ->
  StronglySorted comesBefore l -> StronglySorted comesBefore l' -> l = l'.
Proof.
  revert l'. induction l as [|a t IH]; intros l' Hp Hs Hs'.
  - now apply Permutation_nil in Hp.
  - destruct l' as [|b t'];
      [now apply Permutation_sym, Permutation_nil in Hp|].
    inversion Hs as [|? ? Ht Ha]; subst.
    inversion Hs' as [|? ? Ht' Hb]; subst.
    rewrite List.Forall_forall in Ha, Hb.
    assert (E : a = b).
    { destruct (Permutation_in _ Hp (or_introl eq_refl)) as [Eb|Ia];
        [now symmetry|].
      destruct (Permutation_in _ (Permutation_sym Hp) (or_introl eq_refl))
        as [Ea|Ib]; [now symmetry|].
      destruct (comesBefore_asym a b (Ha b Ib) (Hb a Ia)). }
    subst b. f_equal. apply IH; [|exact Ht|exact Ht'].
    now apply Permutation_cons_inv in Hp.
Qed.

(** Where every title has a number, and where none has, the order is
    transitive. *)
Lemma uniform_is_transitive (l : list State.chapter) :
  forallb numbered l = true \/ forallb unnumbered l = true ->
  orderIsTransitive l.
Proof.
  intros [Hn|Hu] a b c Ha Hb Hc.
  - rewrite forallb_forall in Hn.
    pose proof (Hn a Ha) as Na. pose proof (Hn b Hb) as Nb.
    pose proof (Hn c Hc) as Nc. unfold numbered in Na, Nb, Nc.
    unfold comesBefore.
    destruct (chapterNumber a); [|discriminate].
    destruct (chapterNumber b); [|discriminate].
    destruct (chapterNumber c); [|discriminate]. lia.
  - rewrite forallb_forall in Hu.
    pose proof (Hu a Ha) as Na. pose proof (Hu b Hb) as Nb.
    pose proof (Hu c Hc) as Nc. unfold unnumbered in Na, Nb, Nc.
    unfold comesBefore.
    destruct (chapterNumber a); [discriminate|].
    destruct (chapterNumber b); [discriminate|].
    destruct (chapterNumber c); [discriminate|]. lia.
Qed.

Section Ordering.

Context `{Browser}.

(** C4, as the code has it.  The chapters returned are the chapters pushed,
    reordered.  Wherever the chapters pushed can be arranged so that every
    chapter comes before those after it, the chapters returned are that
    arrangement: two chapters whose titles both have an integer stand by
    the numbers read from them, two with the same number and every other
    pair in the order of their discovery.  They can be so arranged where
    every title has an integer and where none has.  The number read is the
    JavaScript number nearest to the integer. *)
Theorem chapters_sorted_wherever_an_arrangement_exists
  (dom : Dom.document) (base : string) (siteRules : Parser.rules)
  (found : list State.chapter) :
  let pushed :=
    Parser.processLinks base (Parser.allChapterLinks dom siteRules) 0 ∅ [] in
  Parser.extractChapters dom base siteRules = inr found ->
  Permutation pushed found
  /\ (forall arrangement,
        arrangementOf pushed arrangement -> found = arrangement)
  /\ (forallb numbered pushed = true \/ forallb unnumbered pushed = true ->
      arrangementOf pushed found)
  /\ (forall a b, comesBefore a b -> inSpecifiedOrder a b).
Proof.
  intros pushed Hfound. subst pushed.
  remember (Parser.allChapterLinks dom siteRules) as links eqn:El.
  set (pushed := Parser.processLinks base links 0 ∅ []) in *.
  assert (E : found = Parser.sortBy Parser.compareChapters pushed).
  { unfold Parser.extractChapters in Hfound. rewrite <- El in Hfound.
    subst pushed. destruct links; [discriminate|]. congruence. }
  destruct (processLinks_indices base links 0 ∅ [])
    as (tail & Et & Hinc & _).
  cbn [app] in Et. fold pushed in Et. subst tail.
  assert (P : Permutation pushed found) by (subst found; apply sortBy_perm).
  assert (S : orderIsTransitive pushed -> arrangementOf pushed found).
  { intros Ht. split; [exact P|]. subst found. now apply sortBy_ordered. }
  split; [exact P|]. split; [|split].
  - intros arrangement Ha.
    destruct (S (arranged_is_transitive pushed arrangement Ha)) as [_ Hs].
    destruct Ha as [Hp Hs'].
    apply arrangement_unique; [|exact Hs|exact Hs'].
    now rewrite <- P.
  - intros Hu. apply S. now apply uniform_is_transitive.
  - apply comesBefore_specified.
Qed.

End Ordering.

(** The scenario: Chapter 2, Chapter 1, Chapter 10 come out as 1, 2, 10. *)
Lemma chapters_sorted_scenario :
  @Parser.extractChapters (sampleBrowser []) scenarioPage
    "http://novels.example" Parser.getDefaultRules
  = inr scenarioSorted
  /\ arrangementOf
       (@Parser.processLinks (sampleBrowser []) "http://novels.example"
          (Parser.allChapterLinks scenarioPage Parser.getDefaultRules)
          0 ∅ [])
       scenarioSorted.
Proof.
  split; [vm_compute; reflexivity|].
  apply (@chapters_sorted_wherever_an_arrangement_exists
           (sampleBrowser []) scenarioPage "http://novels.example"
           Parser.getDefaultRules scenarioSorted
           ltac:(vm_compute; reflexivity)).
  left. vm_compute. reflexivity.
Defined.

(** A prologue before Chapter 2 and Chapter 1: titles with and without an
    integer that can be arranged; the chapters come out as Prologue,
    Chapter 1, Chapter 2. *)
Example prologue_stays_first :
  @Parser.extractChapters (sampleBrowser []) prologuePage
    "http://novels.example" Parser.getDefaultRules
  = inr prologueSorted
  /\ @Parser.processLinks (sampleBrowser []) "http://novels.example"
       (Parser.allChapterLinks prologuePage Parser.getDefaultRules) 0 ∅ []
     = prologuePushed
  /\ arrangementOf prologuePushed prologueSorted.
Proof.
  split; [vm_compute; reflexivity|]. split; [vm_compute; reflexivity|].
  split.
  - unfold prologuePushed, prologueSorted.
    apply perm_skip. apply perm_swap.
  - assert (N0 : chapterNumber
                   (pending "http://novels.example/p" "Prologue" 0) = None)
      by reflexivity.
    assert (N1 : chapterNumber
                   (pending "http://novels.example/c1" "Chapter 1" 2)
                 = Some 1%Z) by reflexivity.
    assert (N2 : chapterNumber
                   (pending "http://novels.example/c2" "Chapter 2" 1)
                 = Some 2%Z) by reflexivity.
    unfold prologueSorted.
    apply SSorted_cons;
      [apply SSorted_cons;
         [apply SSorted_cons; [apply SSorted_nil|apply List.Forall_nil]|]|].
    + apply List.Forall_cons; [|apply List.Forall_nil].
      unfold comesBefore. rewrite N1, N2. lia.
    + apply List.Forall_cons;
        [|apply List.Forall_cons; [|apply List.Forall_nil]];
        unfold comesBefore; rewrite N0; cbn; lia.
Qed.

(** The integers 2^53 + 1 and 2^53 are the same JavaScript number: the two
    chapters compare as equal and stay in the order of their discovery. *)
Example equal_numbers_keep_the_discovery_order :
  @Parser.extractChapters (sampleBrowser []) hugePage
    "http://novels.example" Parser.getDefaultRules
  = inr hugeFound
  /\ StronglySorted comesBefore hugeFound.
Proof.
  split; [vm_compute; reflexivity|].
  assert (Na : chapterNumber
                 (pending "http://novels.example/a"
                    "Chapter 9007199254740993" 0)
               = Some 9007199254740992%Z) by (vm_compute; reflexivity).
  assert (Nb : chapterNumber
                 (pending "http://novels.example/b"
                    "Chapter 9007199254740992" 1)
               = Some 9007199254740992%Z) by (vm_compute; reflexivity).
  apply SSorted_cons;
    [apply SSorted_cons; [apply SSorted_nil|apply List.Forall_nil]|].
  apply List.Forall_cons; [|apply List.Forall_nil].
  unfold comesBefore. rewrite Na, Nb.
  right. split; [reflexivity|]. cbn. lia.
Qed.

(** C4 as stated fails where titles with and without an integer mix.  For
    the anchors Chapter 5, Prologue, Chapter 1 the order of discovery is
    kept, which leaves Chapter 5 before Chapter 1; and no order of the three
    chapters puts every pair as the specification wants it: Chapter 1 would come
    before Chapter 5, Chapter 5 before Prologue and Prologue before
    Chapter 1. *)
Lemma mixed_titles_have_no_specified_order :
  @Parser.extractChapters (sampleBrowser []) mixedPage
    "http://novels.example" Parser.getDefaultRules
  = inr mixedFound
  /\ ~ StronglySorted inSpecifiedOrder mixedFound
  /\ forall l, Permutation mixedFound l -> ~ StronglySorted inSpecifiedOrder l.
Proof.
  split; [vm_compute; reflexivity|].
  assert (G : forall l, Permutation mixedFound l
                        -> ~ StronglySorted inSpecifiedOrder l).
  { intros l Hp Hs.
    pose proof (Permutation_length Hp) as Hl.
    destruct l as [|x [|y [|z [|w l]]]]; try discriminate Hl.
    pose proof (Permutation_in _ Hp (or_introl eq_refl)) as H0.
    pose proof (Permutation_in _ Hp (or_intror (or_introl eq_refl))) as H1.
    pose proof (Permutation_in _ Hp
                  (or_intror (or_intror (or_introl eq_refl)))) as H2.
    inversion Hs as [|? ? Hs1 Hf1]; subst.
    inversion Hs1 as [|? ? _ Hf2]; subst.
    inversion Hf1 as [|? ? Rxy Hf1']; subst.
    inversion Hf1' as [|? ? Rxz _]; subst.
    inversion Hf2 as [|? ? Ryz _]; subst.
    clear Hs Hs1 Hf1 Hf1' Hf2 Hp Hl.
    assert (N5 : chapterNumber
                   (pending "http://novels.example/c5" "Chapter 5" 0)
                 = Some 5%Z) by reflexivity.
    assert (N0 : chapterNumber
                   (pending "http://novels.example/p" "Prologue" 1)
                 = None) by reflexivity.
    assert (N1 : chapterNumber
                   (pending "http://novels.example/c1" "Chapter 1" 2)
                 = Some 1%Z) by reflexivity.
    cbn in H0, H1, H2.
    destruct H0 as [E0|[E0|[E0|[]]]];
      destruct H1 as [E1|[E1|[E1|[]]]];
      destruct H2 as [E2|[E2|[E2|[]]]];
      subst; try (unfold pending in *; congruence);
      revert Rxy Rxz Ryz; unfold inSpecifiedOrder;
      rewrite ?N5, ?N0, ?N1; cbn; lia. }
  split; [apply G; reflexivity|exact G].
Qed.

(** ** The largest text block *)






(** ** The guard on short content *)

(** C3, as the code has it.  The guard measures the content string, which
    is the serialized markup of the cleaned element: the extraction fails
    with the message of the guard exactly when the trimmed markup has fewer
    than 100 characters; markup of 100 characters passes and markup of 99
    does not. *)
Theorem guard_measures_trimmed_markup (dom : Dom.document)
  (siteRules : Parser.rules) (content : string) :
  Parser.tooShort content = (String.length (Js.trim content) <? 100)
  /\ Parser.contentOfPage dom siteRules
     = match Parser.findContentElement dom siteRules with
       | None => inl "Could not find chapter content"
       | Some e =>
           let markup :=
             Parser.extractContent (Parser.removeUnwantedElements e) in
           if String.length (Js.trim markup) <? 100
           then inl "Extracted content is too short or empty"
           else inr markup
       end
  /\ Parser.tooShort (Js.repeat "a"%char 100) = false
  /\ Parser.tooShort (Js.repeat "a"%char 99) = true.
Proof.
  assert (E : forall c,
    Parser.tooShort c = (String.length (Js.trim c) <? 100)).
  { intros c. unfold Parser.tooShort. destruct c; reflexivity. }
  split; [apply E|]. split; [|split; vm_compute; reflexivity].
  unfold Parser.contentOfPage.
  destruct (Parser.findContentElement dom siteRules); [|reflexivity].
  cbv zeta. now rewrite E.
Qed.

(** C3 as stated fails: a chapter body of one paragraph of 99 letters has a
    trimmed text of 99 characters, below 100, and is not rejected, its
    markup having 106. *)
Lemma short_text_passes_the_guard :
  Parser.findContentElement shortPage Parser.getDefaultRules
  = Some (Dom.Element "article" []
            [Dom.Element "p" [] [Dom.Text (Js.repeat "a"%char 99)]])
  /\ Parser.contentOfPage shortPage Parser.getDefaultRules
     = inr ("<p>" +:+ Js.repeat "a"%char 99 +:+ "</p>")
  /\ textLength
       (Dom.Element "article" []
          (Parser.extractContentNodes
             (Dom.childNodes
                (Parser.removeUnwantedElements
                   (Dom.Element "article" []
                      [Dom.Element "p" []
                         [Dom.Text (Js.repeat "a"%char 99)]])))))
     = 99
  /\ 99 < 100.
Proof. repeat split; try (vm_compute; reflexivity); lia. Qed.

(** ** The normalizer *)

(** Induction on a node with the children as a list. *)
Lemma node_induction (P : Dom.node -> Prop) :
  (forall d, P (Dom.Text d)) ->
  (forall d, P (Dom.Comment d)) ->
  (forall t a ch, Forall P ch -> P (Dom.Element t a ch)) ->
  forall n, P n.
Proof.
  intros HT HC HE.
  fix IH 1. intros [d|d|t a ch]; [apply HT|apply HC|].
  apply HE. induction ch as [|c ch IHch]; constructor; [apply IH|exact IHch].
Qed.














(** ** Fetching the chapters *)

#[local] Arguments Parser.tryProxies : simpl never.
#[local] Arguments Parser.contentOfPage : simpl never.
#[local] Arguments Utils.parseHTML : simpl never.
#[local] Arguments Parser.resolveUrl : simpl never.
#[local] Arguments Parser.rulesFor : simpl never.
#[local] Arguments Js.replaceFirst : simpl never.

Section Fetching.

Context `{Browser}.

Lemma preserved_refl (i : nat) (s : State.session) : preserved i s s.
Proof. unfold preserved. repeat split; auto. Qed.

Lemma preserved_trans (i : nat) (s s1 s2 : State.session) :
  preserved i s s1 -> preserved i s1 s2 -> preserved i s s2.
Proof.
  intros (A1 & A2 & A3 & A4 & A5 & A6) (B1 & B2 & B3 & B4 & B5 & B6).
  unfold preserved. repeat split; try congruence.
  intros j. destruct (A6 j) as [->|E1]; [now left|].
  destruct (B6 j) as [->|E2]; [now left|]. right. congruence.
Qed.

Lemma preserved_setTrace (i : nat) (s : State.session)
  (t : list State.event) :
  preserved i s (State.setTrace t s).
Proof. destruct s. unfold preserved. cbn. repeat split; auto. Qed.

Lemma sameChapter_refl (ch : State.chapter) : sameChapter ch ch.
Proof. unfold sameChapter. repeat split. Qed.

Lemma sameChapter_trans (a b c : State.chapter) :
  sameChapter a b -> sameChapter b c -> sameChapter a c.
Proof. unfold sameChapter. intuition congruence. Qed.

Lemma attemptChapter_spec (i : nat) (s : State.session) (ch : State.chapter) :
  State.chapters s !! i = Some ch ->
  preserved i s (snd (Parser.attemptChapter i s))
  /\ ((fst (Parser.attemptChapter i s) = State.Returned tt
       /\ State.trace (snd (Parser.attemptChapter i s))
          = State.trace s ++ [State.Attempt i; State.Slept 1000]
       /\ exists c,
            State.chapters (snd (Parser.attemptChapter i s)) !! i
            = Some (Parser.completedWith c ch))
      \/ (exists m ch1,
            fst (Parser.attemptChapter i s) = State.Thrown m
            /\ State.trace (snd (Parser.attemptChapter i s))
               = State.trace s ++ [State.Attempt i]
            /\ State.chapters (snd (Parser.attemptChapter i s)) !! i
               = Some ch1
            /\ sameChapter ch ch1)).
Proof.
  intros Hch. destruct s as [chs al bx ld pk tr z pd se].
  cbn [State.chapters] in Hch.
  unfold Parser.attemptChapter, State.bind, State.get. cbn [State.chapters].
  rewrite Hch.
  unfold State.emit, State.modify, State.throw, Parser.setAt,
    Parser.updateChapterUI, State.sleep, State.emit, State.bind, State.get,
    State.modify, State.throw.
  cbn.
  assert (Hp0 : forall ld' tr',
    preserved i
      {| State.chapters := chs; State.aliased := al; State.boxes := bx;
         State.loads := ld; State.packs := pk; State.trace := tr;
         State.zip := z; State.packDisabled := pd; State.shownError := se |}
      {| State.chapters := chs; State.aliased := al; State.boxes := bx;
         State.loads := ld'; State.packs := pk; State.trace := tr';
         State.zip := z; State.packDisabled := pd;
         State.shownError := se |}).
  { intros. unfold preserved. cbn. repeat split; auto. }
  assert (Hp1 : forall ld' tr' f bx',
    length bx' = length bx ->
    preserved i
      {| State.chapters := chs; State.aliased := al; State.boxes := bx;
         State.loads := ld; State.packs := pk; State.trace := tr;
         State.zip := z; State.packDisabled := pd; State.shownError := se |}
      {| State.chapters := alter f i chs; State.aliased := al;
         State.boxes := bx'; State.loads := ld'; State.packs := pk;
         State.trace := tr'; State.zip := z; State.packDisabled := pd;
         State.shownError := se |}).
  { intros ld' tr' f bx' Hb. unfold preserved. cbn.
    repeat split; auto using length_alter.
    intros j. destruct (decide (j = i)) as [->|Hj]; [now left|right].
    apply list_lookup_alter_ne. congruence. }
  pose proof (sameChapter_refl ch) as Hsame.
  assert (Hsame' : forall c, sameChapter ch (Parser.completedWith c ch))
    by (intros c; unfold sameChapter; cbn; repeat split).
  destruct (Parser.tryProxies _ _ _ _) as [[html|] [m|]].
  3,4: (cbn; split; [apply Hp0|right; do 2 eexists; cbn; eauto]).
  all: destruct (Utils.parseHTML html) as [m1|dom];
    [cbn; split; [apply Hp0|right; do 2 eexists; cbn; eauto]|].
  all: destruct (urlHostname _) as [hostname|];
    [|cbn; split; [apply Hp0|right; do 2 eexists; cbn; eauto]].
  all: destruct (Parser.contentOfPage _ _) as [m2|c];
    [cbn; split; [apply Hp0|right; do 2 eexists; cbn; eauto]|].
  all: cbn; rewrite list_lookup_alter_eq, Hch; cbn.
  all: destruct (bx !! i) as [box|] eqn:Hbox; cbn.
  all: try (split; [apply Hp1; reflexivity|right; do 2 eexists; cbn;
                    rewrite list_lookup_alter_eq, Hch; cbn; eauto]).
  all: split; [apply Hp1; apply length_insert|left].
  all: cbn; rewrite list_lookup_alter_eq, Hch, <- app_assoc; cbn; eauto.
Qed.

(** The end of [fetchChapterContent] when the last attempt has failed. *)
Lemma settle_failure (i : nat) (s : State.session) (ch : State.chapter)
  (message : string) :
  State.chapters s !! i = Some ch ->
  let result :=
    State.bind (Parser.setAt i (Parser.failedWith message))
      (fun _ => State.bind (Parser.updateChapterUI i)
                  (fun _ => State.throw (A := unit) message)) s in
  preserved i s (snd result)
  /\ State.trace (snd result) = State.trace s
  /\ (exists m, fst result = State.Thrown m)
  /\ State.chapters (snd result) !! i
     = Some (Parser.failedWith message ch).
Proof.
  intros Hch. destruct s as [chs al bx ld pk tr z pd se].
  cbn [State.chapters] in Hch.
  unfold Parser.setAt, Parser.updateChapterUI, State.bind, State.get,
    State.modify, State.throw.
  cbn. rewrite list_lookup_alter_eq, Hch. cbn.
  assert (Hp : forall bx', length bx' = length bx ->
    preserved i
      {| State.chapters := chs; State.aliased := al; State.boxes := bx;
         State.loads := ld; State.packs := pk; State.trace := tr;
         State.zip := z; State.packDisabled := pd; State.shownError := se |}
      {| State.chapters := alter (Parser.failedWith message) i chs;
         State.aliased := al; State.boxes := bx'; State.loads := ld;
         State.packs := pk; State.trace := tr; State.zip := z;
         State.packDisabled := pd; State.shownError := se |}).
  { intros bx' Hb. unfold preserved. cbn.
    repeat split; auto using length_alter.
    intros j. destruct (decide (j = i)) as [->|Hj]; [now left|right].
    apply list_lookup_alter_ne. congruence. }
  destruct (bx !! i) as [box|]; cbn;
    (split; [apply Hp; try reflexivity; apply length_insert|]);
    rewrite list_lookup_alter_eq, Hch; cbn; eauto.
Qed.

Lemma bind_sleep {B : Type} (n : nat) (k : State.M B) (s : State.session) :
  State.bind (State.sleep n) (fun _ => k) s
  = k (State.setTrace (State.trace s ++ [State.Slept n]) s).
Proof. reflexivity. Qed.

Lemma retryLoop_spec (left : nat) (i rc : nat) (s : State.session)
  (ch : State.chapter) :
  State.chapters s !! i = Some ch ->
  left + rc = Parser.maxRetries -> 0 < left ->
  let result := Parser.retryLoop left i rc s in
  preserved i s (snd result)
  /\ ((fst result = State.Returned tt
       /\ (exists k,
             k < left
             /\ State.trace (snd result)
                = State.trace s ++ retryEvents i rc k
                  ++ [State.Attempt i; State.Slept 1000])
       /\ exists ch1 c,
            State.chapters (snd result) !! i = Some ch1
            /\ sameChapter ch ch1
            /\ State.status ch1 = State.Completed
            /\ State.content ch1 = Some c)
      \/ ((exists m, fst result = State.Thrown m)
          /\ State.trace (snd result)
             = State.trace s ++ retryEvents i rc (left - 1)
               ++ [State.Attempt i]
          /\ (forall k, k < left ->
                exists m,
                  fst (Parser.attemptChapter i (stateBeforeAttempt i rc k s))
                  = State.Thrown m)
          /\ exists ch1 last,
               State.chapters (snd result) !! i = Some ch1
               /\ sameChapter ch ch1
               /\ State.status ch1 = State.Error
               /\ State.error ch1 = Some last
               /\ State.trace (stateBeforeAttempt i rc (left - 1) s)
                  = State.trace s ++ retryEvents i rc (left - 1)
               /\ fst (Parser.attemptChapter i
                         (stateBeforeAttempt i rc (left - 1) s))
                  = State.Thrown last)).
Proof.
  revert rc s ch. induction left as [|left IH]; intros rc s ch Hch Hsum Hpos;
    [lia|].
  cbn [Parser.retryLoop]. unfold State.tryCatch.
  destruct (attemptChapter_spec i s ch Hch) as [P1 O1].
  destruct (Parser.attemptChapter i s) as [o1 s1] eqn:E1. cbn [fst snd] in *.
  destruct O1 as [(-> & T1 & c1 & C1)|(m1 & ch1 & -> & T1 & C1 & S1)].
  { cbn [fst snd]. split; [exact P1|left]. split; [reflexivity|]. split.
    - exists 0. split; [lia|exact T1].
    - exists (Parser.completedWith c1 ch), c1.
      repeat split; assumption || reflexivity. }
  unfold Parser.maxRetries in *.
  destruct left as [|left].
  - (* the ceiling is reached *)
    assert (rc = 2) as -> by lia. cbn [Nat.add Nat.leb].
    destruct (settle_failure i s1 ch1 m1 C1) as (P2 & T2 & M2 & C2).
    cbn zeta in P2, T2, M2, C2.
    destruct (State.bind _ _ s1) as [o2 s2]. cbn [fst snd] in *.
    split; [eapply preserved_trans; eassumption|right].
    split; [exact M2|]. split; [now rewrite T2, T1|].
    split.
    { intros k Hk. assert (k = 0) as -> by lia. cbn [stateBeforeAttempt].
      exists m1. now rewrite E1. }
    exists (Parser.failedWith m1 ch1), m1.
    cbn [Nat.sub stateBeforeAttempt].
    repeat split; try reflexivity; try apply S1; try assumption.
    + cbn. now rewrite app_nil_r.
    + now rewrite E1.
  - (* one more round *)
    assert (E : (3 <=? rc + 1) = false) by (apply Nat.leb_gt; lia).
    rewrite E. rewrite bind_sleep.
    set (s1' := State.setTrace
                  (State.trace s1 ++ [State.Slept (2000 * (rc + 1))]) s1).
    assert (Hch1 : State.chapters s1' !! i = Some ch1)
      by (subst s1'; destruct s1; exact C1).
    assert (T1' : State.trace s1'
                  = State.trace s
                    ++ [State.Attempt i; State.Slept (2000 * (rc + 1))]).
    { subst s1'. destruct s1. cbn in *. rewrite T1, <- app_assoc.
      reflexivity. }
    assert (P1' : preserved i s s1').
    { eapply preserved_trans; [exact P1|]. apply preserved_setTrace. }
    assert (Next : forall k,
              stateBeforeAttempt i rc (S k) s
              = stateBeforeAttempt i (rc + 1) k s1').
    { intros k. cbn [stateBeforeAttempt]. rewrite E1. cbn [snd].
      replace (S rc) with (rc + 1) by lia. reflexivity. }
    clearbody s1'.
    destruct (IH (rc + 1) s1' ch1 Hch1 ltac:(lia) ltac:(lia)) as [P2 O2].
    cbn zeta in P2, O2.
    destruct (Parser.retryLoop (S left) i (rc + 1) s1') as [o2 s2].
    cbn [fst snd] in *.
    split; [eapply preserved_trans; eassumption|].
    replace (S rc) with (rc + 1) by lia.
    destruct O2 as [(-> & (k & Hk & T2) & ch2 & c2 & C2 & S2 & St2 & Co2)|
                    (M2 & T2 & All & ch2 & last & C2 & S2 & St2 & Er2 & T3
                     & A3)].
    + left. split; [reflexivity|]. split.
      * exists (S k). split; [lia|]. rewrite T2, T1', <- app_assoc.
        cbn [retryEvents app]. replace (S rc) with (rc + 1) by lia.
        reflexivity.
      * exists ch2, c2. repeat split; try assumption;
          try (eapply sameChapter_trans; eassumption);
          apply (sameChapter_trans _ _ _ S1 S2).
    + right. split; [exact M2|]. split.
      * rewrite T2, T1', <- app_assoc.
        replace (S (S left) - 1) with (S (S left - 1)) by lia.
        cbn [retryEvents app]. replace (S rc) with (rc + 1) by lia.
        reflexivity.
      * split.
        { intros [|k] Hk.
          - cbn [stateBeforeAttempt]. exists m1. now rewrite E1.
          - rewrite Next. apply All. lia. }
        replace (S (S left) - 1) with (S (S left - 1)) by lia.
        rewrite Next.
        exists ch2, last. repeat split; try assumption;
          try apply (sameChapter_trans _ _ _ S1 S2).
        rewrite T3, T1', <- app_assoc.
        cbn [retryEvents app]. replace (S rc) with (rc + 1) by lia.
        reflexivity.
Qed.

Lemma fetchFrom_step (n i : nat) (counts : nat * nat) (s : State.session) :
  App.fetchFrom i (S n) counts s
  = match Parser.fetchChapterContent i s with
    | (State.Returned _, s1) =>
        App.fetchFrom (S i) n (S (fst counts), snd counts) s1
    | (State.Thrown _, s1) =>
        App.fetchFrom (S i) n (fst counts, S (snd counts)) s1
    end.
Proof.
  cbn [App.fetchFrom]. unfold State.bind, State.tryCatch, State.ret.
  destruct (Parser.fetchChapterContent i s) as [[u|m] s1]; reflexivity.
Qed.

Lemma fetchFrom_spec (n i : nat) (counts : nat * nat) (s : State.session) :
  i + n <= length (State.chapters s) ->
  let result := App.fetchFrom i n counts s in
  exists counts' new,
    fst result = State.Returned counts'
    /\ fst counts' + snd counts' = fst counts + snd counts + n
    /\ State.aliased (snd result) = State.aliased s
    /\ State.zip (snd result) = State.zip s
    /\ length (State.chapters (snd result)) = length (State.chapters s)
    /\ State.trace (snd result) = State.trace s ++ new
    /\ Forall (fun j => In (State.Attempt j) new) (seq i n)
    /\ forall j ch,
         State.chapters s !! j = Some ch ->
         exists ch1,
           State.chapters (snd result) !! j = Some ch1
           /\ sameChapter ch ch1
           /\ ((i <= j < i + n /\ settled ch1)
               \/ ((j < i \/ i + n <= j) /\ ch1 = ch)).
Proof.
  revert i counts s. induction n as [|n IH]; intros i counts s Hlen.
  - cbn. exists counts, []. rewrite app_nil_r.
    repeat split; try (constructor || lia).
    intros j ch Hj. exists ch. split; [exact Hj|].
    split; [apply sameChapter_refl|]. right. split; [lia|reflexivity].
  - cbn zeta. rewrite fetchFrom_step.
    destruct (State.chapters s !! i) as [chi|] eqn:Hi;
      [|apply lookup_ge_None in Hi; lia].
    pose proof (retryLoop_spec 3 i 0 s chi Hi eq_refl ltac:(lia)) as Spec1.
    cbn zeta in Spec1.
    change (Parser.retryLoop 3 i 0 s)
      with (Parser.fetchChapterContent i s) in Spec1.
    destruct Spec1 as [P1 O1].
    destruct (Parser.fetchChapterContent i s) as [o1 s1]. cbn [fst snd] in *.
    destruct P1 as (A1 & Z1 & _ & L1 & _ & Oth1).
    assert (Step : exists counts1 new1 ch1,
      (match o1 with
       | State.Returned _ =>
           App.fetchFrom (S i) n (S (fst counts), snd counts) s1
       | State.Thrown _ =>
           App.fetchFrom (S i) n (fst counts, S (snd counts)) s1
       end) = App.fetchFrom (S i) n counts1 s1
      /\ fst counts1 + snd counts1 = fst counts + snd counts + 1
      /\ State.trace s1 = State.trace s ++ new1
      /\ In (State.Attempt i) new1
      /\ State.chapters s1 !! i = Some ch1
      /\ sameChapter chi ch1 /\ settled ch1).
    { destruct O1 as [(-> & (k & _ & T1) & ch1 & c & C1 & S1 & St1 & _)|
                      ((m & ->) & T1 & _ & ch1 & _ & C1 & S1 & St1 & _)].
      - eexists _, _, ch1. split; [reflexivity|]. cbn [fst snd].
        split; [lia|]. split; [exact T1|]. split.
        + apply in_or_app. right. now left.
        + repeat split; try assumption; try apply S1. now left.
      - eexists _, _, ch1. split; [reflexivity|]. cbn [fst snd].
        split; [lia|]. split; [exact T1|]. split.
        + apply in_or_app. right. now left.
        + repeat split; try assumption; try apply S1. now right. }
    destruct Step as (counts1 & new1 & ch1 & -> & Hc1 & T1 & In1 & C1 & S1 & St1).
    destruct (IH (S i) counts1 s1 ltac:(lia))
      as (counts2 & new2 & R2 & Hc2 & A2 & Z2 & L2 & T2 & In2 & Ch2).
    cbn zeta in *.
    destruct (App.fetchFrom (S i) n counts1 s1) as [o2 s2].
    cbn [fst snd] in *. subst o2.
    exists counts2, (new1 ++ new2).
    split; [reflexivity|]. split; [lia|]. split; [congruence|].
    split; [congruence|]. split; [congruence|].
    split; [now rewrite T2, T1, app_assoc|]. split.
    + cbn [seq]. constructor; [apply in_or_app; now left|].
      eapply Forall_impl; [exact In2|]. cbn. intros j Hj.
      apply in_or_app. now right.
    + intros j ch Hj. destruct (decide (j = i)) as [->|Hne].
      * rewrite Hi in Hj. injection Hj as <-.
        destruct (Ch2 i ch1 C1) as (ch2 & C2 & S2 & [[Hr _]|[_ ->]]);
          [lia|].
        exists ch1. repeat split; try assumption; try apply S1.
        left. split; [lia|exact St1].
      * destruct (Oth1 j) as [->|Eq]; [congruence|].
        rewrite <- Eq in Hj.
        destruct (Ch2 j ch Hj) as (ch2 & C2 & S2 & Hcase).
        exists ch2. split; [exact C2|]. split; [exact S2|].
        destruct Hcase as [[Hr St]|[Hr ->]].
        -- left. split; [lia|exact St].
        -- right. split; [lia|reflexivity].
Qed.

Lemma fetchAllChapters_eq (s : State.session) :
  exists shown,
    App.fetchAllChapters s
    = match App.fetchFrom 0 (length (State.currentChapters s)) (0, 0) s with
      | (State.Returned counts, s1) =>
          (State.Returned counts,
           State.setPackDisabled (fst counts =? 0)
             (State.setShownError (shown counts s1) s1))
      | (State.Thrown m, s1) => (State.Thrown m, s1)
      end.
Proof.
  exists (fun counts s1 =>
            if 0 <? snd counts then
              Some ("Finished with " +:+ Js.show (snd counts)
                    +:+ " errors. " +:+ Js.show (fst counts)
                    +:+ " chapters were fetched successfully.")
            else State.shownError s1).
  unfold App.fetchAllChapters, State.bind, State.get.
  destruct (App.fetchFrom 0 _ _ s) as [[counts|m] s1]; [|reflexivity].
  unfold App.showError, State.modify, State.ret.
  destruct (0 <? snd counts); [reflexivity|]. now destruct s1.
Qed.

Lemma fetchAllChapters_spec (s : State.session) :
  let result := App.fetchAllChapters s in
  exists succ err new,
    fst result = State.Returned (succ, err)
    /\ succ + err = length (State.currentChapters s)
    /\ State.aliased (snd result) = State.aliased s
    /\ State.zip (snd result) = State.zip s
    /\ State.packDisabled (snd result) = (succ =? 0)
    /\ State.trace (snd result) = State.trace s ++ new
    /\ Forall (fun j => In (State.Attempt j) new)
         (seq 0 (length (State.currentChapters s)))
    /\ length (State.currentChapters (snd result))
       = length (State.currentChapters s)
    /\ Forall settled (State.currentChapters (snd result)).
Proof.
  cbn zeta. destruct (fetchAllChapters_eq s) as [shown ->].
  assert (Hn : 0 + length (State.currentChapters s)
               <= length (State.chapters s)).
  { unfold State.currentChapters. destruct (State.aliased s); cbn; lia. }
  destruct (fetchFrom_spec (length (State.currentChapters s)) 0 (0, 0) s Hn)
    as ([succ err] & new & R & Hc & A & Z & L & T & In1 & Ch).
  cbn zeta in *. cbn [fst snd] in Hc.
  destruct (App.fetchFrom 0 (length (State.currentChapters s)) (0, 0) s)
    as [o1 s1]. cbn [fst snd] in *. subst o1.
  exists succ, err, new.
  assert (Hset : Forall settled (State.currentChapters s1)
                 /\ length (State.currentChapters s1)
                    = length (State.currentChapters s)).
  { unfold State.currentChapters in *. rewrite A.
    destruct (State.aliased s); [|split; [constructor|reflexivity]].
    split; [|exact L].
    apply Forall_lookup. intros j ch1 Hj.
    assert (Hlt : j < length (State.chapters s)).
    { rewrite <- L. eapply lookup_lt_Some. exact Hj. }
    destruct (lookup_lt_is_Some_2 _ _ Hlt) as [ch Hch].
    destruct (Ch j ch Hch) as (ch1' & Hj' & _ & [[_ St]|[Hr _]]); [|lia].
    congruence. }
  destruct Hset as [Hs Hl].
  destruct s1 as [chs al bx ld pk tr z pd se].
  unfold State.currentChapters in *. cbn in *.
  repeat split; auto; lia.
Qed.

(** C9.  A fetch of a chapter makes one, two or three attempts and no more;
    it sleeps 2000 ms before the second attempt and 4000 ms before the
    third; when it returns, the chapter is completed and has content.  It
    throws when the three attempts have failed: the first in the state the
    fetch starts in, the second in the state the first and the sleep of
    2000 ms leave, the third in the state the second and the sleep of
    4000 ms leave; the chapter then has the status [error] and, as its
    error, the message that this third attempt throws.  In both cases the archive, the other chapters and the number of
    chapters are as before.  The loop over all chapters catches what a fetch
    throws: it returns normally, it has made an attempt on every chapter,
    every chapter is then completed or in error, and the two counts add up
    to the number of chapters. *)
Theorem retries_are_bounded_and_failures_contained (i : nat)
  (ch : State.chapter) (s : State.session) :
  State.chapters s !! i = Some ch ->
  let result := Parser.fetchChapterContent i s in
  let A := State.Attempt i in
  let every := App.fetchAllChapters s in
  Parser.maxRetries = 3
  /\ preserved i s (snd result)
  /\ ((fst result = State.Returned tt
       /\ (State.trace (snd result)
           = State.trace s ++ [A; State.Slept 1000]
           \/ State.trace (snd result)
              = State.trace s ++ [A; State.Slept 2000; A; State.Slept 1000]
           \/ State.trace (snd result)
              = State.trace s
                ++ [A; State.Slept 2000; A; State.Slept 4000; A;
                    State.Slept 1000])
       /\ exists ch1 c,
            State.chapters (snd result) !! i = Some ch1
            /\ sameChapter ch ch1
            /\ State.status ch1 = State.Completed
            /\ State.content ch1 = Some c)
      \/ ((exists m, fst result = State.Thrown m)
          /\ State.trace (snd result)
             = State.trace s
               ++ [A; State.Slept 2000; A; State.Slept 4000; A]
          /\ exists ch1 m1 m2 last,
               let s1 :=
                 snd (State.sleep 2000 (snd (Parser.attemptChapter i s))) in
               let s2 :=
                 snd (State.sleep 4000 (snd (Parser.attemptChapter i s1))) in
               fst (Parser.attemptChapter i s) = State.Thrown m1
               /\ fst (Parser.attemptChapter i s1) = State.Thrown m2
               /\ fst (Parser.attemptChapter i s2) = State.Thrown last
               /\ State.trace s2
                  = State.trace s
                    ++ [A; State.Slept 2000; A; State.Slept 4000]
               /\ State.chapters (snd result) !! i = Some ch1
               /\ sameChapter ch ch1
               /\ State.status ch1 = State.Error
               /\ State.error ch1 = Some last))
  /\ exists succ err new,
       fst every = State.Returned (succ, err)
       /\ succ + err = length (State.currentChapters s)
       /\ State.aliased (snd every) = State.aliased s
       /\ State.zip (snd every) = State.zip s
       /\ State.packDisabled (snd every) = (succ =? 0)
       /\ State.trace (snd every) = State.trace s ++ new
       /\ Forall (fun j => In (State.Attempt j) new)
            (seq 0 (length (State.currentChapters s)))
       /\ length (State.currentChapters (snd every))
          = length (State.currentChapters s)
       /\ Forall settled (State.currentChapters (snd every)).
Proof.
  intros Hch result A every. split; [reflexivity|].
  pose proof (retryLoop_spec 3 i 0 s ch Hch eq_refl ltac:(lia)) as Spec1.
  cbn zeta in Spec1.
  change (Parser.retryLoop 3 i 0 s) with result in Spec1.
  destruct Spec1 as [P1 O1]. split; [exact P1|]. split.
  - destruct O1 as [(R & (k & Hk & T1) & Rest)|(M & T1 & Rest)].
    + left. split; [exact R|]. split; [|exact Rest].
      destruct k as [|[|[|k]]]; [now left|right; now left|
                                 right; right; exact T1|lia].
    + right. split; [exact M|]. split; [exact T1|].
      destruct Rest as (All & ch1 & last & C1 & S1 & St1 & Er1 & T3 & A3).
      destruct (All 0 ltac:(lia)) as [m1 E1].
      destruct (All 1 ltac:(lia)) as [m2 E2].
      exists ch1, m1, m2, last. cbn zeta.
      split; [exact E1|]. split; [exact E2|]. split; [exact A3|].
      split; [exact T3|]. auto.
  - apply fetchAllChapters_spec.
Qed.

(** ** A start page without chapters *)

Lemma parsePage_run (pageUrl html hostname : string) (dom : Dom.document)
  (s : State.session) :
  urlHostname pageUrl = Some hostname ->
  fst (Parser.tryProxies Parser.pageProxies pageUrl (State.loads s) None)
  = Some html ->
  Utils.parseHTML html = inr dom ->
  Parser.parsePage pageUrl s
  = match Parser.extractChapters dom pageUrl
            (Parser.rulesFor (Js.replaceFirst "www." EmptyString hostname))
    with
    | inl message =>
        (State.Thrown
           ("Parser failed: " +:+ message
            +:+ ". Please try a different URL or contact support."),
         State.setChapters [] (State.setLoads (S (State.loads s)) s))
    | inr found =>
        (State.Returned found,
         State.setChapters found (State.setLoads (S (State.loads s)) s))
    end.
Proof.
  intros Hh Hp Hd.
  unfold Parser.parsePage, State.tryCatch, State.bind, State.get,
    State.modify.
  rewrite Hp, Hd, Hh.
  destruct (Parser.extractChapters _ _ _); destruct s; reflexivity.
Qed.

Lemma handleLoadAndAnalyze_run (pageUrl html hostname : string)
  (dom : Dom.document) (s : State.session) :
  Js.isEmpty pageUrl = false ->
  urlHostname pageUrl = Some hostname ->
  fst (Parser.tryProxies Parser.pageProxies pageUrl (State.loads s) None)
  = Some html ->
  Utils.parseHTML html = inr dom ->
  let s0 :=
    State.setLoads (S (State.loads s))
      (State.setBoxes [] (State.setAliased false
                            (State.setShownError None s))) in
  App.handleLoadAndAnalyze pageUrl s
  = match Parser.extractChapters dom pageUrl
            (Parser.rulesFor (Js.replaceFirst "www." EmptyString hostname))
    with
    | inl message =>
        (State.Returned tt,
         State.setShownError
           (Some (App.loadErrorMessage
                    ("Parser failed: " +:+ message
                     +:+ ". Please try a different URL or contact support.")))
           (State.setChapters [] s0))
    | inr [] =>
        (State.Returned tt,
         State.setShownError
           (Some (App.loadErrorMessage
                    ("No chapters found. This might not be a supported "
                     +:+ "novel page.")))
           (State.setChapters [] s0))
    | inr found =>
        match App.fetchAllChapters
                (State.setBoxes
                   (map (fun ch =>
                           {| State.checked := true; State.disabled := false;
                              State.statusText :=
                                Parser.statusName (State.status ch) |})
                        found)
                   (State.setAliased true (State.setChapters found s0)))
        with
        | (State.Returned _, s2) => (State.Returned tt, s2)
        | (State.Thrown m, s2) =>
            (State.Returned tt,
             State.setShownError (Some (App.loadErrorMessage m)) s2)
        end
    end.
Proof.
  intros Hne Hh Hp Hd s0.
  unfold App.handleLoadAndAnalyze, App.isValidUrl.
  rewrite Hne, Hh. cbn [negb].
  unfold State.tryCatch, State.bind, App.updateChaptersSection,
    State.modify, App.showError, State.throw, State.ret.
  set (s00 := State.setBoxes _ _).
  assert (Hl0 : State.loads s00 = State.loads s)
    by (subst s00; destruct s; reflexivity).
  rewrite (parsePage_run pageUrl html hostname dom s00 Hh)
    by (rewrite ?Hl0; assumption).
  destruct (Parser.extractChapters _ _ _) as [m|[|c cs]].
  - subst s00 s0. destruct s; reflexivity.
  - subst s00 s0. destruct s; reflexivity.
  - match goal with
    | |- context [App.fetchAllChapters ?x] =>
        replace x with
          (State.setBoxes
             (map (fun ch =>
                     {| State.checked := true; State.disabled := false;
                        State.statusText :=
                          Parser.statusName (State.status ch) |})
                  (c :: cs))
             (State.setAliased true (State.setChapters (c :: cs) s0)))
          by (subst s00 s0; destruct s; reflexivity)
    end.
    destruct (App.fetchAllChapters _) as [[u|m] s2]; reflexivity.
Qed.

(** C5.  With the start page fetched and parsed, the discovery fails, with
    the message that no chapters were found, exactly when the selectors of
    the site, the default selectors and the scan of all anchors each find no
    link.  The failure ends the conversion: the application shows the error,
    holds no chapter, fetches nothing and leaves the archive alone, and a
    request to pack returns no archive.  When the discovery succeeds the
    application holds the chapters found. *)
Theorem no_chapters_found_is_fatal (pageUrl html hostname : string)
  (dom : Dom.document) (s : State.session) (metaInfo : Meta.info) :
  Js.isEmpty pageUrl = false ->
  urlHostname pageUrl = Some hostname ->
  fst (Parser.tryProxies Parser.pageProxies pageUrl (State.loads s) None)
  = Some html ->
  Utils.parseHTML html = inr dom ->
  let siteRules :=
    Parser.rulesFor (Js.replaceFirst "www." EmptyString hostname) in
  let s' := snd (App.handleLoadAndAnalyze pageUrl s) in
  (Parser.extractChapters dom pageUrl siteRules
   = inl "No chapters found on the page"
   <-> Parser.siteLinks dom siteRules = []
       /\ Parser.defaultLinks dom = []
       /\ Parser.aggressiveLinks dom = [])
  /\ match Parser.extractChapters dom pageUrl siteRules with
     | inl message =>
         message = "No chapters found on the page"
         /\ fst (App.handleLoadAndAnalyze pageUrl s) = State.Returned tt
         /\ State.shownError s'
            = Some (App.loadErrorMessage
                      ("Parser failed: " +:+ message
                       +:+ ". Please try a different URL or contact support."))
         /\ State.currentChapters s' = []
         /\ State.chapters s' = []
         /\ State.trace s' = State.trace s
         /\ State.zip s' = State.zip s
         /\ fst (App.handlePackEpub metaInfo s') = State.Returned None
         /\ State.zip (snd (App.handlePackEpub metaInfo s')) = State.zip s
     | inr found =>
         length (State.currentChapters s') = length found
     end.
Proof.
  intros Hne Hh Hp Hd siteRules s'.
  split; [apply extractChapters_fails_iff|].
  subst s'.
  rewrite (handleLoadAndAnalyze_run pageUrl html hostname dom s Hne Hh Hp Hd).
  fold siteRules.
  destruct (Parser.extractChapters dom pageUrl siteRules)
    as [m|[|c cs]] eqn:Ex.
  - assert (Em : m = "No chapters found on the page").
    { unfold Parser.extractChapters in Ex.
      destruct (Parser.allChapterLinks dom siteRules); congruence. }
    cbn [fst snd]. split; [exact Em|]. split; [reflexivity|].
    split; [now destruct s|]. split; [now destruct s|].
    split; [now destruct s|]. split; [now destruct s|].
    split; [now destruct s|].
    rewrite handlePackEpub_none by (now destruct s).
    cbn [fst snd]. split; [reflexivity|]. now destruct s.
  - cbn [fst snd]. now destruct s.
  - match goal with
    | |- context [App.fetchAllChapters ?x] =>
        destruct (fetchAllChapters_spec x)
          as (succ & err & new & R & _ & _ & _ & _ & _ & _ & L & _);
        cbn zeta in R, L;
        destruct (App.fetchAllChapters x) as [o2 s2]
    end.
    cbn [fst snd] in *. subst o2. cbn [snd]. rewrite L.
    now destruct s.
Qed.

End Fetching.

Lemma retries_on_a_sample_session :
  State.chapters sampleSession !! 0
  = Some (pending "http://novels.example/c1" "Chapter 1" 0)
  /\ Parser.maxRetries = 3
  /\ preserved 0 sampleSession
       (snd (@Parser.fetchChapterContent (sampleBrowser []) 0 sampleSession)).
Proof.
  split; [reflexivity|].
  pose proof (@retries_are_bounded_and_failures_contained (sampleBrowser [])
                0 (pending "http://novels.example/c1" "Chapter 1" 0)
                sampleSession eq_refl) as W.
  cbv zeta in W. split; [apply W|apply W].
Defined.

Lemma no_chapters_on_an_empty_page :
  Js.isEmpty "http://novels.example/" = false
  /\ @urlHostname (sampleBrowser [("http://novels.example/", emptyPage)])
       "http://novels.example/" = Some "novels.example"
  /\ fst (@Parser.tryProxies
            (sampleBrowser [("http://novels.example/", emptyPage)])
            Parser.pageProxies "http://novels.example/"
            (State.loads State.initial) None)
     = Some "http://novels.example/"
  /\ @Utils.parseHTML (sampleBrowser [("http://novels.example/", emptyPage)])
       "http://novels.example/" = inr emptyPage
  /\ (@Parser.extractChapters
        (sampleBrowser [("http://novels.example/", emptyPage)])
        emptyPage "http://novels.example/"
        (Parser.rulesFor (Js.replaceFirst "www." EmptyString "novels.example"))
      = inl "No chapters found on the page"
      <-> Parser.siteLinks emptyPage
            (Parser.rulesFor
               (Js.replaceFirst "www." EmptyString "novels.example")) = []
          /\ Parser.defaultLinks emptyPage = []
          /\ Parser.aggressiveLinks emptyPage = []).
Proof.
  split; [reflexivity|]. split; [reflexivity|]. split; [reflexivity|].
  split; [reflexivity|].
  apply (@no_chapters_found_is_fatal
           (sampleBrowser [("http://novels.example/", emptyPage)])
           "http://novels.example/" "http://novels.example/" "novels.example"
           emptyPage State.initial sampleMeta);
    reflexivity.
Defined.
(** * Further properties of the code *)

(** ** Runs of characters *)

Lemma allChars_append (q : ascii -> bool) (a b : string) :
  allChars q (a +:+ b) = allChars q a && allChars q b.
Proof.
  induction a as [|c a IH]; [reflexivity|].
  cbn. now rewrite IH, andb_assoc.
Qed.

Lemma allChars_impl (q q' : ascii -> bool) (s : string) :
  (forall c, q c = true -> q' c = true) ->
  allChars q s = true -> allChars q' s = true.
Proof.
  intros Hq. induction s as [|c s IH]; [reflexivity|].
  cbn. intros E. apply andb_true_iff in E as [E1 E2].
  now rewrite (Hq c E1), IH.
Qed.

Lemma noAdjacent_weaken (p : ascii -> bool) (b : bool) (s : string) :
  noAdjacent p b s = true -> noAdjacent p false s = true.
Proof.
  destruct s as [|c s]; [reflexivity|]. cbn.
  destruct (p c); [|auto]. intros E. now apply andb_true_iff in E as [_ ->].
Qed.

Lemma noAdjacent_cons (p : ascii -> bool) (b : bool) (c : ascii)
  (t : string) :
  noAdjacent p b (String c t)
  = if p c then negb b && noAdjacent p true t else noAdjacent p false t.
Proof. reflexivity. Qed.

Lemma collapseFrom_squeeze (b : bool) (s : string) :
  Js.collapseFrom b s = Js.squeezeFrom Js.isSpace " "%char b s.
Proof.
  revert b. induction s as [|c s IH]; intros b; [reflexivity|].
  cbn. now rewrite !IH.
Qed.

Lemma trimStart_drop (s : string) :
  Js.trimStart s = Js.dropStart Js.isSpace s.
Proof. induction s as [|c s IH]; [reflexivity|]. cbn. now rewrite IH. Qed.

Lemma trimEnd_drop (s : string) : Js.trimEnd s = Js.dropEnd Js.isSpace s.
Proof. induction s as [|c s IH]; [reflexivity|]. cbn. now rewrite IH. Qed.

Section Runs.

Context (p : ascii -> bool) (r : ascii).

Lemma replaceClass_chars (q : ascii -> bool) (s : string) :
  q r = true -> (forall c, p c = false -> q c = true) ->
  allChars q (Js.replaceClass p r s) = true.
Proof.
  intros Hr Hq. induction s as [|c s IH]; [reflexivity|].
  cbn. rewrite IH, andb_true_r. destruct (p c) eqn:E; [exact Hr|now apply Hq].
Qed.

Lemma replaceClass_fixed (s : string) :
  allChars (fun c => negb (p c)) s = true -> Js.replaceClass p r s = s.
Proof.
  induction s as [|c s IH]; [reflexivity|].
  cbn. intros E. apply andb_true_iff in E as [E1 E2].
  apply negb_true_iff in E1. now rewrite E1, IH.
Qed.

Lemma squeezeFrom_chars (q q0 : ascii -> bool) (b : bool) (s : string) :
  q r = true ->
  (forall c, p c = false -> q0 c = true -> q c = true) ->
  allChars q0 s = true -> allChars q (Js.squeezeFrom p r b s) = true.
Proof.
  intros Hr Hq. revert b. induction s as [|c s IH]; intros b; [reflexivity|].
  cbn. intros E. apply andb_true_iff in E as [E1 E2].
  destruct (p c) eqn:Ep.
  - destruct b; cbn; rewrite ?Hr; now apply IH.
  - cbn. now rewrite (Hq c Ep E1), IH.
Qed.

Lemma squeezeFrom_noAdjacent (b : bool) (s : string) :
  p r = true -> noAdjacent p b (Js.squeezeFrom p r b s) = true.
Proof.
  intros Hr. revert b. induction s as [|c s IH]; intros b; [reflexivity|].
  cbn. destruct (p c) eqn:Ep.
  - destruct b; [apply IH|]. cbn. rewrite Hr. cbn. apply IH.
  - cbn. rewrite Ep. apply IH.
Qed.

Lemma squeezeFrom_fixed (b : bool) (s : string) :
  noAdjacent p b s = true ->
  allChars (fun c => negb (p c) || Ascii.eqb c r) s = true ->
  Js.squeezeFrom p r b s = s.
Proof.
  revert b. induction s as [|c s IH]; intros b; [reflexivity|].
  cbn. intros N E. apply andb_true_iff in E as [E1 E2].
  destruct (p c) eqn:Ep.
  - apply andb_true_iff in N as [Nb N]. apply negb_true_iff in Nb. subst b.
    cbn in E1. apply Ascii.eqb_eq in E1. subst c. now rewrite IH.
  - now rewrite IH.
Qed.

Lemma dropStart_chars (q : ascii -> bool) (s : string) :
  allChars q s = true -> allChars q (Js.dropStart p s) = true.
Proof.
  induction s as [|c s IH]; [reflexivity|].
  intros E. cbn. destruct (p c); [|exact E].
  cbn in E. apply andb_true_iff in E as [_ E]. now apply IH.
Qed.

Lemma dropStart_noAdjacent (p' : ascii -> bool) (b : bool) (s : string) :
  noAdjacent p' b s = true -> noAdjacent p' false (Js.dropStart p s) = true.
Proof.
  revert b. induction s as [|c s IH]; intros b; [reflexivity|].
  intros N. cbn [Js.dropStart]. destruct (p c).
  - cbn in N. destruct (p' c).
    + apply andb_true_iff in N as [_ N]. now apply (IH true).
    + now apply (IH false).
  - now apply (noAdjacent_weaken p' b).
Qed.

Lemma dropStart_starts (s : string) : startsIn p (Js.dropStart p s) = false.
Proof.
  induction s as [|c s IH]; [reflexivity|].
  cbn. destruct (p c) eqn:E; [exact IH|]. cbn. exact E.
Qed.

Lemma dropStart_fixed (s : string) :
  startsIn p s = false -> Js.dropStart p s = s.
Proof. destruct s as [|c s]; [reflexivity|]. cbn. now intros ->. Qed.

Lemma dropEnd_cons (c : ascii) (t : string) :
  Js.dropEnd p (String c t)
  = match Js.dropEnd p t with
    | EmptyString => if p c then EmptyString else Js.str c
    | t' => String c t'
    end.
Proof. reflexivity. Qed.

Lemma dropEnd_chars (q : ascii -> bool) (s : string) :
  allChars q s = true -> allChars q (Js.dropEnd p s) = true.
Proof.
  induction s as [|c s IH]; [reflexivity|].
  intros E. cbn in E. apply andb_true_iff in E as [E1 E2].
  rewrite dropEnd_cons. specialize (IH E2).
  destruct (Js.dropEnd p s) as [|d t'].
  - destruct (p c); [reflexivity|]. cbn. now rewrite E1.
  - cbn. cbn in IH. now rewrite E1, IH.
Qed.

Lemma dropEnd_noAdjacent (p' : ascii -> bool) (b : bool) (s : string) :
  noAdjacent p' b s = true -> noAdjacent p' b (Js.dropEnd p s) = true.
Proof.
  revert b. induction s as [|c s IH]; intros b; [reflexivity|].
  intros N. rewrite dropEnd_cons. cbn in N.
  destruct (p' c) eqn:Ec.
  - apply andb_true_iff in N as [Nb N]. specialize (IH true N).
    destruct (Js.dropEnd p s) as [|d t'].
    + destruct (p c); [reflexivity|]. cbn. now rewrite Ec, Nb.
    + rewrite noAdjacent_cons. now rewrite Ec, Nb, IH.
  - specialize (IH false N).
    destruct (Js.dropEnd p s) as [|d t'].
    + destruct (p c); [reflexivity|]. cbn. now rewrite Ec.
    + rewrite noAdjacent_cons. now rewrite Ec, IH.
Qed.

Lemma dropEnd_ends (s : string) : endsIn p (Js.dropEnd p s) = false.
Proof.
  induction s as [|c s IH]; [reflexivity|].
  rewrite dropEnd_cons. destruct (Js.dropEnd p s) as [|d t'].
  - destruct (p c) eqn:E; [reflexivity|]. cbn. exact E.
  - exact IH.
Qed.

Lemma dropEnd_starts (p' : ascii -> bool) (s : string) :
  startsIn p' s = false -> startsIn p' (Js.dropEnd p s) = false.
Proof.
  destruct s as [|c s]; [reflexivity|].
  rewrite dropEnd_cons. cbn. intros E.
  destruct (Js.dropEnd p s); [destruct (p c)|]; cbn; auto.
Qed.

Lemma dropEnd_fixed (s : string) :
  endsIn p s = false -> Js.dropEnd p s = s.
Proof.
  induction s as [|c s IH]; [reflexivity|].
  intros E. rewrite dropEnd_cons. destruct s as [|d t].
  - cbn in *. now rewrite E.
  - rewrite IH by exact E. reflexivity.
Qed.

End Runs.


Lemma allChars_all (q : ascii -> bool) (s : string) :
  (forall c, q c = true) -> allChars q s = true.
Proof.
  intros Hq. induction s as [|c s IH]; [reflexivity|].
  cbn. now rewrite Hq, IH.
Qed.

Lemma noAdjacent_none (p : ascii -> bool) (b : bool) (s : string) :
  allChars (fun c => negb (p c)) s = true -> noAdjacent p b s = true.
Proof.
  revert b. induction s as [|c s IH]; intros b; [reflexivity|].
  cbn. intros E. apply andb_true_iff in E as [E1 E2].
  apply negb_true_iff in E1. rewrite E1. now apply IH.
Qed.

(** ** [Utils.cleanText] *)

Lemma collapseSpaces_spaced (s : string) :
  allChars blankIsSpace (Js.collapseSpaces s) = true
  /\ noAdjacent Js.isSpace false (Js.collapseSpaces s) = true.
Proof.
  unfold Js.collapseSpaces. rewrite collapseFrom_squeeze. split.
  - apply (squeezeFrom_chars _ _ _ (fun _ => true)); [reflexivity| |].
    + intros c Ec _. unfold blankIsSpace. now rewrite Ec.
    + now apply allChars_all.
  - now apply squeezeFrom_noAdjacent.
Qed.

Lemma squeezeFuel_fixed (fuel : nat) (s : string) :
  allChars blankIsSpace s = true -> Js.squeezeFuel fuel s = s.
Proof.
  revert s. induction fuel as [|f IH]; intros s; [reflexivity|].
  destruct s as [|c s]; [reflexivity|].
  cbn [allChars Js.squeezeFuel]. intros E.
  apply andb_true_iff in E as [E1 E2].
  destruct (Ascii.eqb c "010"%char) eqn:Ec.
  - apply Ascii.eqb_eq in Ec. subst c. discriminate E1.
  - now rewrite IH.
Qed.

Lemma trim_tidy (s : string) :
  allChars blankIsSpace s = true ->
  noAdjacent Js.isSpace false s = true ->
  tidy (Js.trim s) = true.
Proof.
  intros Hc Hn. unfold tidy, Js.trim.
  rewrite trimStart_drop, trimEnd_drop.
  rewrite dropEnd_chars by now apply dropStart_chars.
  rewrite dropEnd_noAdjacent by now apply (dropStart_noAdjacent _ _ false).
  rewrite dropEnd_starts by apply dropStart_starts.
  now rewrite dropEnd_ends.
Qed.

Lemma tidy_parts (s : string) :
  tidy s = true ->
  allChars blankIsSpace s = true
  /\ noAdjacent Js.isSpace false s = true
  /\ startsIn Js.isSpace s = false
  /\ endsIn Js.isSpace s = false.
Proof.
  unfold tidy. intros E.
  apply andb_true_iff in E as [E E4]. apply andb_true_iff in E as [E E3].
  apply andb_true_iff in E as [E1 E2].
  apply negb_true_iff in E3, E4. auto.
Qed.

Lemma trim_fixed (s : string) : tidy s = true -> Js.trim s = s.
Proof.
  intros E. apply tidy_parts in E as (_ & _ & E3 & E4).
  unfold Js.trim. rewrite trimStart_drop, trimEnd_drop.
  rewrite dropStart_fixed by exact E3. now apply dropEnd_fixed.
Qed.

Lemma collapseSpaces_fixed (s : string) :
  tidy s = true -> Js.collapseSpaces s = s.
Proof.
  intros E. apply tidy_parts in E as (E1 & E2 & _ & _).
  unfold Js.collapseSpaces. rewrite collapseFrom_squeeze.
  now apply squeezeFrom_fixed.
Qed.

Lemma cleanText_collapse (text : string) :
  Utils.cleanText text = Js.trim (Js.collapseSpaces text).
Proof.
  unfold Utils.cleanText, Js.squeezeBlankLines.
  destruct text as [|c t]; [reflexivity|]. cbn [Js.isEmpty].
  rewrite squeezeFuel_fixed; [reflexivity|apply collapseSpaces_spaced].
Qed.

Lemma cleanText_tidy (text : string) : tidy (Utils.cleanText text) = true.
Proof.
  rewrite cleanText_collapse.
  apply trim_tidy; apply collapseSpaces_spaced.
Qed.

Lemma cleanText_fixed (text : string) :
  tidy text = true -> Utils.cleanText text = text.
Proof.
  intros E. rewrite cleanText_collapse.
  rewrite collapseSpaces_fixed by exact E. now apply trim_fixed.
Qed.

(** The text [Utils.cleanText] returns is tidy: its only white space
    is the space character, no two spaces stand next to each other, and it
    neither starts nor ends with one. *)
Theorem cleanText_is_tidy (text : string) :
  tidy (Utils.cleanText text) = true.
Proof. apply cleanText_tidy. Qed.

(** [Utils.cleanText] leaves a text as it is exactly when the text is
    tidy; so cleaning a cleaned text changes nothing. *)
Theorem cleanText_fixes_tidy_text (text : string) :
  (Utils.cleanText text = text <-> tidy text = true)
  /\ Utils.cleanText (Utils.cleanText text) = Utils.cleanText text.
Proof.
  split.
  - split; [|apply cleanText_fixed]. intros E. rewrite <- E.
    apply cleanText_tidy.
  - apply cleanText_fixed, cleanText_tidy.
Qed.

(** The second replacement of [Utils.cleanText], which is to turn
    blank lines into one line feed, never finds anything to replace: the
    first has turned every line feed into a space.  The result is the
    trimmed text with its white space collapsed. *)
Theorem cleanText_second_replace_is_idle (text : string) :
  Js.squeezeBlankLines (Js.collapseSpaces text) = Js.collapseSpaces text
  /\ Utils.cleanText text = Js.trim (Js.collapseSpaces text).
Proof.
  split; [|apply cleanText_collapse].
  apply squeezeFuel_fixed, collapseSpaces_spaced.
Qed.

(** ** [Utils.sanitizeFilename] *)

Lemma safeName_parts (s : string) :
  safeName s = true ->
  allChars nameChar s = true
  /\ noAdjacent Utils.isUnderscore false s = true
  /\ startsIn Utils.isUnderscore s = false
  /\ endsIn Utils.isUnderscore s = false.
Proof.
  unfold safeName. intros E.
  apply andb_true_iff in E as [E E4]. apply andb_true_iff in E as [E E3].
  apply andb_true_iff in E as [E1 E2].
  apply negb_true_iff in E3, E4. auto.
Qed.

Lemma sanitizeFilename_chars (filename : string) :
  allChars nameChar (Utils.sanitizeFilename filename) = true.
Proof.
  unfold Utils.sanitizeFilename, Js.squeezeRuns.
  apply dropEnd_chars, dropStart_chars.
  apply (squeezeFrom_chars _ _ _ nameChar); [reflexivity|auto|].
  apply (squeezeFrom_chars _ _ _ (fun c => negb (Utils.invalidInFilename c)));
    [reflexivity| |].
  - intros c Ec Ei. unfold nameChar. apply andb_true_iff.
    split; [exact Ei|now rewrite Ec].
  - apply replaceClass_chars; [reflexivity|]. now intros c ->.
Qed.

Lemma sanitizeFilename_safe (filename : string) :
  safeName (Utils.sanitizeFilename filename) = true.
Proof.
  unfold safeName. rewrite sanitizeFilename_chars.
  unfold Utils.sanitizeFilename, Js.squeezeRuns.
  rewrite dropEnd_noAdjacent
    by (apply (dropStart_noAdjacent _ _ false);
        now apply squeezeFrom_noAdjacent).
  rewrite dropEnd_starts by apply dropStart_starts.
  now rewrite dropEnd_ends.
Qed.

(** A name [Utils.sanitizeFilename] returns is safe: it has none of
    the characters the function replaces and no white space, its
    underscores come one at a time, and it neither starts nor ends with
    one. *)
Theorem sanitizeFilename_is_safe (filename : string) :
  safeName (Utils.sanitizeFilename filename) = true.
Proof. apply sanitizeFilename_safe. Qed.

(** [Utils.sanitizeFilename] leaves a name as it is exactly when the
    name is safe; so sanitizing a sanitized name changes nothing. *)
Theorem sanitizeFilename_fixes_safe_names (filename : string) :
  (Utils.sanitizeFilename filename = filename <-> safeName filename = true)
  /\ Utils.sanitizeFilename (Utils.sanitizeFilename filename)
     = Utils.sanitizeFilename filename.
Proof.
  assert (Fix : forall s, safeName s = true -> Utils.sanitizeFilename s = s).
  { intros s E. apply safeName_parts in E as (E1 & E2 & E3 & E4).
    unfold Utils.sanitizeFilename, Js.squeezeRuns.
    rewrite replaceClass_fixed.
    2:{ eapply allChars_impl; [|exact E1]. intros c Ec.
        unfold nameChar in Ec. apply andb_true_iff in Ec. apply Ec. }
    assert (Hs : allChars (fun c => negb (Js.isSpace c)) s = true).
    { eapply allChars_impl; [|exact E1]. intros c Ec.
      unfold nameChar in Ec. apply andb_true_iff in Ec. apply Ec. }
    rewrite (squeezeFrom_fixed Js.isSpace).
    2:{ now apply noAdjacent_none. }
    2:{ eapply allChars_impl; [|exact Hs]. intros c Ec.
        cbv beta in Ec. now rewrite Ec. }
    rewrite (squeezeFrom_fixed Utils.isUnderscore); [|exact E2|].
    2:{ apply allChars_all. intros c. unfold Utils.isUnderscore.
        now destruct (Ascii.eqb c "_"%char). }
    rewrite dropStart_fixed by exact E3. now apply dropEnd_fixed. }
  split.
  - split; [|apply Fix]. intros E. rewrite <- E.
    apply sanitizeFilename_safe.
  - apply Fix. apply sanitizeFilename_safe.
Qed.


(** ** File names *)

Lemma endsWith_append (p a : string) : Js.endsWith p (a +:+ p) = true.
Proof.
  induction a as [|c a IH].
  - destruct p; cbn; [reflexivity|]. now rewrite Ascii.eqb_refl, String.eqb_refl.
  - cbn [String.append Js.endsWith]. rewrite IH. apply orb_true_r.
Qed.

(** The name [generateFilename] makes for a book ends with [.epub] and
    has none of the characters [Utils.sanitizeFilename] replaces and no
    white space, whatever the title and the author are. *)
Theorem generateFilename_is_a_file_name (metaInfo : Meta.info) :
  Js.endsWith ".epub" (EpubGenerator.generateFilename metaInfo) = true
  /\ allChars nameChar (EpubGenerator.generateFilename metaInfo) = true.
Proof.
  unfold EpubGenerator.generateFilename. split.
  - apply endsWith_append.
  - rewrite allChars_append, andb_true_r.
    destruct (Js.isEmpty (Meta.author metaInfo));
      rewrite ?allChars_append, !sanitizeFilename_chars; reflexivity.
Qed.

(** The name under which [handlePackEpub] hands the archive over ends
    with [.epub], once, and has none of the characters
    [Utils.sanitizeFilename] replaces and no white space: a name of the form
    that already ends with [.epub] is kept as it is sanitized. *)
Theorem fullFilename_is_a_file_name (metaInfo : Meta.info) :
  let name :=
    Utils.sanitizeFilename
      (if Js.isEmpty (Meta.filename metaInfo) then "untitled"
       else Meta.filename metaInfo) in
  Js.endsWith ".epub" (App.fullFilename metaInfo) = true
  /\ allChars nameChar (App.fullFilename metaInfo) = true
  /\ (App.fullFilename metaInfo = name
      \/ (Js.endsWith ".epub" name = false
          /\ App.fullFilename metaInfo = name +:+ ".epub")).
Proof.
  intros name. unfold App.fullFilename. fold name.
  destruct (Js.endsWith ".epub" name) eqn:E.
  - split; [exact E|]. split; [apply sanitizeFilename_chars|now left].
  - split; [apply endsWith_append|]. split; [|now right].
    rewrite allChars_append, andb_true_r. apply sanitizeFilename_chars.
Qed.

(** ** [Utils.escapeHtml] *)

Lemma escapeText_occurs (c : ascii) (text : string) :
  c = "<"%char \/ c = ">"%char -> occurs c (Dom.escapeText text) = false.
Proof.
  intros Hc. induction text as [|d t IH]; [reflexivity|].
  cbn [Dom.escapeText]. rewrite occurs_append, IH, orb_false_r.
  destruct (Ascii.eqb d "&"%char) eqn:E1;
    [destruct Hc as [-> | ->]; reflexivity|].
  destruct (Ascii.eqb d Dom.nbsp) eqn:E2;
    [destruct Hc as [-> | ->]; reflexivity|].
  destruct (Ascii.eqb d "<"%char) eqn:E3;
    [destruct Hc as [-> | ->]; reflexivity|].
  destruct (Ascii.eqb d ">"%char) eqn:E4;
    [destruct Hc as [-> | ->]; reflexivity|].
  cbn. rewrite orb_false_r. destruct Hc as [-> | ->]; assumption.
Qed.

Lemma escapeHtml_text (text : string) :
  Utils.escapeHtml text = Dom.escapeText text.
Proof.
  unfold Utils.escapeHtml, Dom.innerHTML, Dom.serializeAll.
  change (Dom.inList "div" Dom.rawTextTags) with false.
  cbn [map Js.concat Dom.serialize]. apply append_nil_r.
Qed.

(** The markup [Utils.escapeHtml] returns for a text has no angle
    bracket, so a chapter title shown through it cannot open a tag; a text
    without ampersand, angle bracket and no-break space is returned as it
    is. *)
Theorem escapeHtml_leaves_no_tag (text : string) :
  occurs "<"%char (Utils.escapeHtml text) = false
  /\ occurs ">"%char (Utils.escapeHtml text) = false
  /\ (allChars (fun c => negb (Ascii.eqb c "&"%char || Ascii.eqb c Dom.nbsp
                               || Ascii.eqb c "<"%char || Ascii.eqb c ">"%char))
        text = true ->
      Utils.escapeHtml text = text).
Proof.
  rewrite escapeHtml_text.
  split; [apply escapeText_occurs; now left|].
  split; [apply escapeText_occurs; now right|].
  induction text as [|d t IH]; [reflexivity|].
  cbn [allChars Dom.escapeText]. intros E.
  apply andb_true_iff in E as [E1 E2]. apply negb_true_iff in E1.
  apply orb_false_iff in E1 as [E1 E1d]. apply orb_false_iff in E1 as [E1 E1c].
  apply orb_false_iff in E1 as [E1a E1b].
  rewrite E1a, E1b, E1c, E1d, IH by exact E2. reflexivity.
Qed.

Lemma escapeHtml_of_a_plain_title :
  Utils.escapeHtml "Chapter 1" = "Chapter 1".
Proof.
  apply (proj2 (proj2 (escapeHtml_leaves_no_tag "Chapter 1"))).
  reflexivity.
Defined.


(** ** [Utils.generateUUID] *)

Lemma hexDigit_hex (v : Z) :
  (0 <= v < 16)%Z -> In (Js.hexDigit v) Js.hexDigits.
Proof.
  intros Hv. unfold Js.hexDigit. apply nth_In. cbn [length Js.hexDigits]. lia.
Qed.

Lemma variant_digit (r : Z) :
  (0 <= r < 16)%Z ->
  In (Js.hexDigit (Z.lor (Z.land r 3) 8)) ["8"; "9"; "a"; "b"]%char.
Proof.
  intros Hr.
  assert (Cases : In r [0; 1; 2; 3; 4; 5; 6; 7; 8; 9; 10; 11; 12; 13; 14; 15]%Z).
  { cbn. lia. }
  cbn in Cases.
  repeat (destruct Cases as [<-|Cases]; [cbn; tauto|]).
  destruct Cases.
Qed.

#[local] Arguments Js.hexDigit : simpl never.

(** With every draw of the random source between 0 and 15,
    [Utils.generateUUID] returns an identifier of the form of a random
    UUID: 36 characters, hyphens at the positions 8, 13, 18 and 23, the
    version digit 4 at position 14, one of 8, 9, a, b at position 19, and
    lower-case hexadecimal digits everywhere else. *)
Theorem generateUUID_is_version_4 (rnd : nat -> Z) :
  (forall k, (0 <= rnd k < 16)%Z) ->
  let uuid := Utils.generateUUID rnd in
  String.length uuid = 36
  /\ (forall i, In i [8; 13; 18; 23] -> String.get i uuid = Some "-"%char)
  /\ String.get 14 uuid = Some "4"%char
  /\ (exists v, String.get 19 uuid = Some v
                /\ In v ["8"; "9"; "a"; "b"]%char)
  /\ (forall i c,
        String.get i uuid = Some c -> ~ In i [8; 13; 18; 23] ->
        In c Js.hexDigits).
Proof.
  intros Hr uuid. subst uuid.
  unfold Utils.generateUUID, Utils.uuidTemplate.
  cbn -[Z.lor Z.land In].
  split; [reflexivity|].
  split.
  { intros i Hi. cbn in Hi.
    destruct Hi as [<-|[<-|[<-|[<-|[]]]]]; reflexivity. }
  split; [reflexivity|].
  split.
  { eexists. split; [reflexivity|]. apply variant_digit, Hr. }
  intros i c G NI.
  assert (V : forall r, (0 <= r < 16)%Z ->
                        In (Js.hexDigit (Z.lor (Z.land r 3) 8)) Js.hexDigits).
  { intros r Hv. pose proof (variant_digit r Hv) as Hin. cbn in Hin |- *.
    tauto. }
  do 36 (destruct i as [|i];
         [cbn -[Z.lor Z.land In] in G; injection G as <-;
          first [apply hexDigit_hex, Hr
                |apply V, Hr
                |exfalso; apply NI; cbn; tauto
                |cbn; tauto]|]).
  discriminate G.
Qed.

Lemma generateUUID_example :
  String.length (Utils.generateUUID (fun _ => 7%Z)) = 36
  /\ String.get 14 (Utils.generateUUID (fun _ => 7%Z)) = Some "4"%char.
Proof.
  pose proof (generateUUID_is_version_4 (fun _ => 7%Z)
                ltac:(intros; lia)) as W.
  cbv zeta in W. split; apply W.
Defined.

(** ** [Utils.retry] *)






(** ** What the cleaning of a chapter body leaves *)

Lemma forallb_flat_map_impl {A B : Type} (f : A -> bool) (q : B -> bool)
  (g : A -> list B) (l : list A) :
  Forall (fun x => f x = true -> forallb q (g x) = true) l ->
  forallb f l = true -> forallb q (flat_map g l) = true.
Proof.
  induction 1 as [|x l Hx _ IH]; [reflexivity|].
  cbn [forallb flat_map]. intros E. apply andb_true_iff in E as [E1 E2].
  rewrite forallb_app, (Hx E1), (IH E2). reflexivity.
Qed.

Lemma forallb_map_impl {A B : Type} (f : A -> bool) (q : B -> bool)
  (g : A -> B) (l : list A) :
  Forall (fun x => f x = true -> q (g x) = true) l ->
  forallb f l = true -> forallb q (map g l) = true.
Proof.
  induction 1 as [|x l Hx _ IH]; [reflexivity|].
  cbn [forallb map]. intros E. apply andb_true_iff in E as [E1 E2].
  now rewrite (Hx E1), (IH E2).
Qed.

Lemma forallb_flat_map_all {A B : Type} (q : B -> bool) (g : A -> list B)
  (l : list A) :
  Forall (fun x => forallb q (g x) = true) l ->
  forallb q (flat_map g l) = true.
Proof.
  induction 1 as [|x l Hx _ IH]; [reflexivity|].
  cbn [flat_map]. now rewrite forallb_app, Hx, IH.
Qed.


Lemma everyNode_element (P : Dom.node -> bool) (t : string)
  (a : list (string * string)) (ch : list Dom.node) :
  everyNode P (Dom.Element t a ch)
  = P (Dom.Element t a ch) && forallb (everyNode P) ch.
Proof. reflexivity. Qed.

Section Kept.

(** A property of nodes that an element keeps when it loses children. *)
Context (P : Dom.node -> bool).

Hypothesis shrink :
  forall t a ch ch',
    P (Dom.Element t a ch) = true -> (ch = [] -> ch' = []) ->
    P (Dom.Element t a ch') = true.

Lemma removeFrom_keeps (sel : Dom.selector) (n : Dom.node) :
  everyNode P n = true ->
  forallb (everyNode P) (Dom.removeFrom sel n) = true.
Proof.
  induction n as [d|d|t a ch IH] using node_induction; intros E;
    try (cbn [Dom.removeFrom forallb]; now rewrite E).
  cbn [Dom.removeFrom].
  destruct (Dom.matchesSelector [] (t, a) sel); [reflexivity|].
  rewrite everyNode_element in E. apply andb_true_iff in E as [E1 E2].
  cbn [forallb]. rewrite everyNode_element, andb_true_r.
  apply andb_true_iff. split.
  - apply (shrink t a ch); [exact E1|now intros ->].
  - now apply (forallb_flat_map_impl (everyNode P)).
Qed.

Lemma removeAll_keeps (sel : Dom.selector) (l : list Dom.node) :
  forallb (everyNode P) l = true ->
  forallb (everyNode P) (Dom.removeAll sel l) = true.
Proof.
  apply forallb_flat_map_impl. apply Forall_forall.
  intros n _. apply removeFrom_keeps.
Qed.

Lemma removeSelectors_keeps (sels : list Dom.selector) (l : list Dom.node) :
  forallb (everyNode P) l = true ->
  forallb (everyNode P) (Parser.removeSelectors sels l) = true.
Proof.
  unfold Parser.removeSelectors. revert l.
  induction sels as [|sel sels IH]; intros l E; [exact E|].
  cbn [fold_left]. apply IH. now apply removeAll_keeps.
Qed.

Lemma dropBlank_keeps (n : Dom.node) :
  everyNode P n = true -> forallb (everyNode P) (Parser.dropBlank n) = true.
Proof.
  induction n as [d|d|t a ch IH] using node_induction; intros E;
    try (cbn [Parser.dropBlank forallb]; now rewrite E).
  cbn [Parser.dropBlank].
  destruct (Parser.isBlank (Dom.Element t a ch)); [reflexivity|].
  rewrite everyNode_element in E. apply andb_true_iff in E as [E1 E2].
  cbn [forallb]. rewrite everyNode_element, andb_true_r.
  apply andb_true_iff. split.
  - apply (shrink t a ch); [exact E1|now intros ->].
  - now apply (forallb_flat_map_impl (everyNode P)).
Qed.

Lemma removeComments_keeps (n : Dom.node) :
  everyNode P n = true ->
  forallb (everyNode P) (Dom.removeComments n) = true.
Proof.
  induction n as [d|d|t a ch IH] using node_induction; intros E;
    try (cbn [Dom.removeComments forallb]; now rewrite ?E).
  rewrite everyNode_element in E. apply andb_true_iff in E as [E1 E2].
  cbn [Dom.removeComments forallb]. rewrite everyNode_element, andb_true_r.
  apply andb_true_iff. split.
  - apply (shrink t a ch); [exact E1|now intros ->].
  - now apply (forallb_flat_map_impl (everyNode P)).
Qed.

Lemma mapText_keeps (f : string -> string) (n : Dom.node) :
  (forall d, P (Dom.Text d) = true -> P (Dom.Text (f d)) = true) ->
  everyNode P n = true -> everyNode P (Dom.mapText f n) = true.
Proof.
  intros Hf. induction n as [d|d|t a ch IH] using node_induction; intros E.
  - cbn in *. rewrite andb_true_r in *. now apply Hf.
  - exact E.
  - rewrite everyNode_element in E. apply andb_true_iff in E as [E1 E2].
    cbn [Dom.mapText]. rewrite everyNode_element.
    apply andb_true_iff. split.
    + apply (shrink t a ch); [exact E1|now intros ->].
    + now apply (forallb_map_impl (everyNode P)).
Qed.

Hypothesis paragraph : forall ch, P (Dom.Element "p" [] ch) = true.

Lemma convertDiv_keeps (n : Dom.node) :
  everyNode P n = true -> everyNode P (Parser.convertDiv n) = true.
Proof.
  induction n as [d|d|t a ch IH] using node_induction; intros E;
    try exact E.
  rewrite everyNode_element in E. apply andb_true_iff in E as [E1 E2].
  cbn [Parser.convertDiv].
  destruct (String.eqb t "div" && _).
  - rewrite everyNode_element, paragraph. exact E2.
  - rewrite everyNode_element. apply andb_true_iff. split.
    + apply (shrink t a ch); [exact E1|now intros ->].
    + now apply (forallb_map_impl (everyNode P)).
Qed.

Lemma wrapBareText_keeps (n : Dom.node) :
  (forall d, P (Dom.Text d) = true -> P (Dom.Text (Js.trim d)) = true) ->
  everyNode P n = true -> everyNode P (Parser.wrapBareText n) = true.
Proof.
  intros Ht E. destruct n as [d|d|t a ch]; try exact E.
  cbn [Parser.wrapBareText]. destruct (Js.isEmpty (Js.trim d)); [exact E|].
  cbn in *. rewrite andb_true_r in *. now rewrite paragraph, Ht.
Qed.

(** The steps of [extractContent] keep the property. *)
Lemma extractContentNodes_keeps (l : list Dom.node) :
  (forall d, P (Dom.Text d) = true ->
             P (Dom.Text (Parser.cleanTextNode d)) = true) ->
  (forall d, P (Dom.Text d) = true -> P (Dom.Text (Js.trim d)) = true) ->
  forallb (everyNode P) l = true ->
  forallb (everyNode P) (Parser.extractContentNodes l) = true.
Proof.
  intros Hc Ht E. unfold Parser.extractContentNodes.
  apply (forallb_flat_map_impl (everyNode P));
    [apply Forall_forall; intros n _; apply dropBlank_keeps|].
  apply (forallb_map_impl (everyNode P));
    [apply Forall_forall; intros n _; now apply wrapBareText_keeps|].
  apply (forallb_map_impl (everyNode P));
    [apply Forall_forall; intros n _; apply convertDiv_keeps|].
  apply (forallb_map_impl (everyNode P));
    [apply Forall_forall; intros n _; now apply mapText_keeps|].
  now apply removeSelectors_keeps.
Qed.

End Kept.

Lemma unmatched_shrinks (sel : Dom.selector) :
  forall t a (ch ch' : list Dom.node),
    unmatched sel (Dom.Element t a ch) = true -> (ch = [] -> ch' = []) ->
    unmatched sel (Dom.Element t a ch') = true.
Proof. intros t a ch ch' E _. exact E. Qed.

Lemma removeFrom_unmatched (sel : Dom.selector) (n : Dom.node) :
  forallb (everyNode (unmatched sel)) (Dom.removeFrom sel n) = true.
Proof.
  induction n as [d|d|t a ch IH] using node_induction; try reflexivity.
  cbn [Dom.removeFrom].
  destruct (Dom.matchesSelector [] (t, a) sel) eqn:E; [reflexivity|].
  cbn [forallb]. rewrite everyNode_element, andb_true_r.
  cbn [unmatched]. rewrite E. cbn [negb andb].
  now apply forallb_flat_map_all.
Qed.






Lemma voidIsEmpty_shrinks :
  forall t a (ch ch' : list Dom.node),
    voidIsEmpty (Dom.Element t a ch) = true -> (ch = [] -> ch' = []) ->
    voidIsEmpty (Dom.Element t a ch') = true.
Proof.
  intros t a ch ch' E Hch. cbn [voidIsEmpty] in *.
  destruct (Dom.inList t Dom.voidTags); [|reflexivity].
  cbn [negb orb] in *. destruct ch; [|discriminate E].
  now rewrite (Hch eq_refl).
Qed.

Lemma dropBlank_void (n : Dom.node) :
  everyNode voidIsEmpty n = true ->
  forallb (everyNode notVoid) (Parser.dropBlank n) = true.
Proof.
  induction n as [d|d|t a ch IH] using node_induction; intros E;
    try reflexivity.
  cbn [Parser.dropBlank].
  destruct (Parser.isBlank (Dom.Element t a ch)) eqn:B; [reflexivity|].
  rewrite everyNode_element in E. apply andb_true_iff in E as [E1 E2].
  cbn [forallb]. rewrite everyNode_element, andb_true_r.
  apply andb_true_iff. split.
  - unfold notVoid. cbn [isVoid voidIsEmpty] in *.
    destruct (Dom.inList t Dom.voidTags); [|reflexivity].
    destruct ch; [discriminate B|discriminate E1].
  - now apply (forallb_flat_map_impl (everyNode voidIsEmpty)).
Qed.

(** In a body whose void elements have no children, as in every
    parsed document, the cleaning leaves no void element at any depth: an
    image, a line break or a rule has no text and no image below it, so
    the removal of the elements without text takes it away.  This holds of
    the body [extractContent] serializes and of the element
    [removeUnwantedElements] leaves. *)
Theorem cleaning_removes_void_elements (t : string)
  (a : list (string * string)) (ch : list Dom.node) :
  forallb (everyNode voidIsEmpty) ch = true ->
  forallb (everyNode notVoid) (Parser.extractContentNodes ch) = true
  /\ forallb (everyNode notVoid)
       (Dom.childNodes (Parser.removeUnwantedElements (Dom.Element t a ch)))
     = true.
Proof.
  intros E. split.
  - unfold Parser.extractContentNodes.
    apply (forallb_flat_map_impl (everyNode voidIsEmpty));
      [apply Forall_forall; intros n _; apply dropBlank_void|].
    apply (forallb_map_impl (everyNode voidIsEmpty));
      [apply Forall_forall; intros n _;
       exact (wrapBareText_keeps _ (fun _ => eq_refl) n
                (fun _ _ => eq_refl))|].
    apply (forallb_map_impl (everyNode voidIsEmpty));
      [apply Forall_forall; intros n _;
       exact (convertDiv_keeps _ voidIsEmpty_shrinks (fun _ => eq_refl) n)|].
    apply (forallb_map_impl (everyNode voidIsEmpty));
      [apply Forall_forall; intros n _;
       exact (mapText_keeps _ voidIsEmpty_shrinks _ n
                (fun _ _ => eq_refl))|].
    now apply (removeSelectors_keeps _ voidIsEmpty_shrinks).
  - cbn [Parser.removeUnwantedElements Dom.childNodes].
    apply (forallb_flat_map_impl (everyNode voidIsEmpty));
      [apply Forall_forall; intros n _; apply dropBlank_void|].
    now apply (removeSelectors_keeps _ voidIsEmpty_shrinks).
Qed.

Lemma cleaning_an_illustrated_paragraph :
  forallb (everyNode voidIsEmpty) illustrated = true
  /\ forallb (everyNode notVoid) (Parser.extractContentNodes illustrated)
     = true.
Proof.
  split; [reflexivity|].
  apply (cleaning_removes_void_elements "div" [] illustrated). reflexivity.
Defined.





(** ** [Utils.sanitizeHtml] *)

Lemma notComment_shrinks :
  forall t a (ch ch' : list Dom.node),
    notComment (Dom.Element t a ch) = true -> (ch = [] -> ch' = []) ->
    notComment (Dom.Element t a ch') = true.
Proof. reflexivity. Qed.

Lemma removeComments_none (n : Dom.node) :
  forallb (everyNode notComment) (Dom.removeComments n) = true.
Proof.
  induction n as [d|d|t a ch IH] using node_induction; try reflexivity.
  cbn [Dom.removeComments forallb].
  rewrite everyNode_element, andb_true_r. cbn [notComment andb].
  now apply forallb_flat_map_all.
Qed.

Lemma removeAll_unmatched (sel : Dom.selector) (l : list Dom.node) :
  forallb (everyNode (unmatched sel)) (Dom.removeAll sel l) = true.
Proof.
  unfold Dom.removeAll. apply forallb_flat_map_all.
  apply Forall_forall. intros n _. apply removeFrom_unmatched.
Qed.

Section Sanitizing.

Context `{Browser}.

(** The markup [Utils.sanitizeHtml] returns is that of a tree
    without [script] element, without [style] element and without comment,
    at any depth, whatever the markup it is given. *)
Theorem sanitizeHtml_leaves_no_script (html : string) :
  let nodes := Utils.sanitizeNodes (parseFragment html) in
  Utils.sanitizeHtml html = Dom.serializeAll false nodes
  /\ forallb (everyNode (unmatched [[[Dom.ByTag "script"]]])) nodes = true
  /\ forallb (everyNode (unmatched [[[Dom.ByTag "style"]]])) nodes = true
  /\ forallb (everyNode notComment) nodes = true.
Proof.
  intros nodes. subst nodes. split; [reflexivity|].
  unfold Utils.sanitizeNodes. split; [|split].
  - apply (forallb_flat_map_impl
             (everyNode (unmatched [[[Dom.ByTag "script"]]])));
      [apply Forall_forall; intros n _;
       exact (removeComments_keeps _ (unmatched_shrinks _) n)|].
    apply (removeAll_keeps _ (unmatched_shrinks _)).
    apply removeAll_unmatched.
  - apply (forallb_flat_map_impl
             (everyNode (unmatched [[[Dom.ByTag "style"]]])));
      [apply Forall_forall; intros n _;
       exact (removeComments_keeps _ (unmatched_shrinks _) n)|].
    apply removeAll_unmatched.
  - apply forallb_flat_map_all. apply Forall_forall.
    intros n _. apply removeComments_none.
Qed.

End Sanitizing.


(** ** [processChapterContent] and [ensureProperXhtml] *)

Lemma noAdjacent_append (p : ascii -> bool) (b : bool) (s t : string) :
  noAdjacent p b s = true ->
  allChars (fun c => negb (p c)) t = true ->
  noAdjacent p b (s +:+ t) = true.
Proof.
  revert b. induction s as [|c s IH]; intros b N E.
  - now apply noAdjacent_none.
  - cbn [String.append]. rewrite noAdjacent_cons in *.
    destruct (p c).
    + apply andb_true_iff in N as [-> N]. now apply IH.
    + now apply IH.
Qed.

Lemma endsIn_append (p : ascii -> bool) (s : string) (c : ascii)
  (t : string) :
  endsIn p (s +:+ String c t) = endsIn p (String c t).
Proof.
  induction s as [|d s IH]; [reflexivity|].
  cbn [String.append]. rewrite <- IH.
  destruct s; reflexivity.
Qed.

Lemma paragraph_tidy (s : string) :
  tidy s = true -> tidy ("<p>" +:+ s +:+ "</p>") = true.
Proof.
  intros E. apply tidy_parts in E as (E1 & E2 & _ & _).
  assert (A : allChars blankIsSpace ("<p>" +:+ s +:+ "</p>") = true)
    by (now rewrite !allChars_append, E1).
  assert (N : noAdjacent Js.isSpace false ("<p>" +:+ s +:+ "</p>") = true).
  { change (noAdjacent Js.isSpace false (s +:+ "</p>") = true).
    now apply noAdjacent_append. }
  assert (L : endsIn Js.isSpace ("<p>" +:+ s +:+ "</p>") = false).
  { rewrite <- append_assoc.
    now rewrite (endsIn_append Js.isSpace ("<p>" +:+ s) "<"%char "/p>"). }
  unfold tidy. rewrite A, N, L. reflexivity.
Qed.

Section Processing.

Context `{Browser}.

(** What [processChapterContent] returns is tidy, whatever the
    content is: its only white space is the space character, one at a
    time, and neither at its start nor at its end; so the body of a chapter
    document is one line. *)
Theorem processChapterContent_is_tidy (content : option string) :
  tidy (EpubGenerator.processChapterContent content) = true.
Proof.
  unfold EpubGenerator.processChapterContent.
  destruct content as [c|]; [|reflexivity].
  destruct (Js.isEmpty c); [reflexivity|]. cbv zeta.
  match goal with
  | |- context [Js.trim (Js.collapseSpaces ?x)] =>
      set (processed := Js.trim (Js.collapseSpaces x))
  end.
  assert (T : tidy processed = true)
    by (apply trim_tidy; apply collapseSpaces_spaced).
  destruct (negb (Js.includes "<p>" processed)
            && negb (Js.includes "<div>" processed)); [|exact T].
  rewrite (trim_fixed processed T).
  destruct (Js.isEmpty processed); [reflexivity|].
  now apply paragraph_tidy.
Qed.

End Processing.

Lemma replaceAll_removes (c : ascii) (r s : string) :
  occurs c r = false -> occurs c (Js.replaceAll c r s) = false.
Proof.
  intros Hr. induction s as [|d s IH]; [reflexivity|].
  cbn [Js.replaceAll]. destruct (Ascii.eqb d c) eqn:E.
  - now rewrite occurs_append, Hr, IH.
  - cbn [occurs]. now rewrite E, IH.
Qed.

Lemma replaceAll_absent (d c : ascii) (r s : string) :
  occurs d r = false -> occurs d s = false ->
  occurs d (Js.replaceAll c r s) = false.
Proof.
  intros Hr. induction s as [|e s IH]; [reflexivity|].
  cbn [occurs Js.replaceAll]. intros E.
  apply orb_false_iff in E as [E1 E2].
  destruct (Ascii.eqb e c).
  - now rewrite occurs_append, Hr, IH.
  - cbn [occurs]. now rewrite E1, IH.
Qed.

(** What [ensureProperXhtml] returns has no angle bracket, no double
    quote and no apostrophe: after closing the tags of the void elements
    the function escapes every tag of the content, those it has just
    closed included, so no markup is left. *)
Theorem ensureProperXhtml_leaves_no_markup (content : string) (c : ascii) :
  In c ["<"; ">"; Js.dquote; "'"]%char ->
  occurs c (EpubGenerator.ensureProperXhtml content) = false.
Proof.
  intros Hc. unfold EpubGenerator.ensureProperXhtml.
  set (z := Js.replaceRegex EpubGenerator.matchBareAmpersand _).
  cbn in Hc. destruct Hc as [<-|[<-|[<-|[<-|[]]]]].
  - apply replaceAll_absent; [reflexivity|].
    apply replaceAll_absent; [reflexivity|].
    apply replaceAll_absent; [reflexivity|].
    now apply replaceAll_removes.
  - apply replaceAll_absent; [reflexivity|].
    apply replaceAll_absent; [reflexivity|].
    now apply replaceAll_removes.
  - apply replaceAll_absent; [reflexivity|].
    now apply replaceAll_removes.
  - now apply replaceAll_removes.
Qed.

Lemma ensureProperXhtml_example :
  occurs "<"%char (EpubGenerator.ensureProperXhtml "<p>a<br>b</p>") = false.
Proof.
  apply (ensureProperXhtml_leaves_no_markup "<p>a<br>b</p>" "<"%char).
  cbn. tauto.
Defined.


(** ** Metadata of the start page *)

Section Metadata.

Context `{Browser}.


Lemma extractMetadata_titled (metaInfo : Meta.info) (dom : Dom.document)
  (url : string) (siteRules : Parser.rules) :
  Meta.title (Parser.extractMetadata metaInfo dom url siteRules)
  <> EmptyString.
Proof.
  unfold Parser.extractMetadata. cbn [Meta.title].
  match goal with
  | |- (if Js.isEmpty ?t then _ else _) <> _ =>
      destruct t; [discriminate|discriminate]
  end.
Qed.

(** The parser keeps one metadata object for all the pages it
    loads, and [extractMetadata] writes only what it finds: after a second
    page, the language and the subject are as they were at the start, and
    the title, the author, the description and the cover are those of the
    first page wherever the second page has no element for them. *)
Theorem metadata_of_an_earlier_page_stays (metaInfo : Meta.info)
  (dom1 dom2 : Dom.document) (url1 url2 : string)
  (rules1 rules2 : Parser.rules) :
  let first := Parser.extractMetadata metaInfo dom1 url1 rules1 in
  let second := Parser.extractMetadata first dom2 url2 rules2 in
  Meta.language second = Meta.language metaInfo
  /\ Meta.subject second = Meta.subject metaInfo
  /\ (Parser.querySelectorOr dom2 (Parser.titleSelector rules2)
        (Parser.titleSelector Parser.getDefaultRules) = None ->
      Meta.title second = Meta.title first)
  /\ (Parser.querySelectorOr dom2 (Parser.authorSelector rules2)
        (Parser.authorSelector Parser.getDefaultRules) = None ->
      Meta.author second = Meta.author first)
  /\ (Parser.findDescription dom2 Parser.descSelectors = None ->
      Meta.description second = Meta.description first)
  /\ (Parser.findCover dom2 url2 Parser.coverSelectors = None ->
      Meta.coverImageUrl second = Meta.coverImageUrl first).
Proof.
  intros first second.
  pose proof (extractMetadata_titled metaInfo dom1 url1 rules1) as Ht.
  fold first in Ht. subst second.
  unfold Parser.extractMetadata at 1 2 3 4 5 6.
  cbn [Meta.language Meta.subject Meta.author Meta.description
       Meta.coverImageUrl Meta.title].
  split; [reflexivity|]. split; [reflexivity|].
  split.
  { intros ->. destruct (Meta.title first); [congruence|reflexivity]. }
  split; [now intros ->|]. split; [now intros ->|now intros ->].
Qed.

End Metadata.


Lemma metadata_survives_an_empty_page :
  Meta.author
    (@Parser.extractMetadata (sampleBrowser [])
       (@Parser.extractMetadata (sampleBrowser []) sampleMeta scenarioPage
          "http://novels.example/" Parser.getDefaultRules)
       emptyPage "http://novels.example/" Parser.getDefaultRules)
  = Meta.author
      (@Parser.extractMetadata (sampleBrowser []) sampleMeta scenarioPage
         "http://novels.example/" Parser.getDefaultRules).
Proof.
  apply (@metadata_of_an_earlier_page_stays (sampleBrowser []) sampleMeta
           scenarioPage emptyPage "http://novels.example/"
           "http://novels.example/" Parser.getDefaultRules
           Parser.getDefaultRules).
  reflexivity.
Defined.

(** ** The chapters found *)

Lemma filter_selected_all (l : list State.chapter) :
  Forall (fun ch => State.selected ch = true) l ->
  Parser.getSelectedChapters l = l.
Proof.
  unfold Parser.getSelectedChapters.
  induction 1 as [|ch l Hch _ IH]; [reflexivity|].
  rewrite filter_cons_True by (now rewrite Hch). now rewrite IH.
Qed.

Section Found.

Context `{Browser}.

Lemma processLinks_fresh (base : string) (links : list Dom.node) (i : nat)
  (seen : gset string) (acc : list State.chapter) :
  Forall (freshChapter base) acc ->
  Forall (freshChapter base) (Parser.processLinks base links i seen acc).
Proof.
  revert i seen acc. induction links as [|link links IH]; intros i seen acc F;
    [exact F|].
  cbn [Parser.processLinks].
  destruct (Dom.getAttribute "href" link) as [href|]; [|now apply IH].
  destruct (Js.isEmpty href); [now apply IH|].
  destruct (decide (Parser.resolveUrl href base ∈ seen)); [now apply IH|].
  apply IH. apply Forall_app. split; [exact F|].
  constructor; [|constructor].
  unfold freshChapter. cbn. repeat split.
  destruct (Utils.cleanText (Dom.textContent link)); discriminate.
Qed.

(** Every chapter [extractChapters] returns is a fresh chapter of the
    start page: it carries the address of the start page as its base, a
    title that is not empty (the cleaned text of its link, or [Chapter]
    and the position of the link counted from 1), the status [pending], no
    content and no error, and it is selected; so [getSelectedChapters] of
    the parser returns all the chapters found. *)
Theorem discovered_chapters_are_fresh (dom : Dom.document) (base : string)
  (siteRules : Parser.rules) (found : list State.chapter) :
  Parser.extractChapters dom base siteRules = inr found ->
  Forall (freshChapter base) found
  /\ Parser.getSelectedChapters found = found.
Proof.
  unfold Parser.extractChapters.
  destruct (Parser.allChapterLinks dom siteRules) as [|l ls];
    [discriminate|].
  intros E. injection E as <-.
  assert (F : Forall (freshChapter base)
                (Parser.sortBy Parser.compareChapters
                   (Parser.processLinks base (l :: ls) 0 ∅ []))).
  { eapply Permutation_Forall; [apply sortBy_perm|].
    apply processLinks_fresh. constructor. }
  split; [exact F|]. apply filter_selected_all.
  eapply Forall_impl; [exact F|]. intros ch Hf. apply Hf.
Qed.

End Found.

Lemma fresh_chapters_of_the_scenario :
  @Parser.extractChapters (sampleBrowser []) scenarioPage
    "http://novels.example" Parser.getDefaultRules = inr scenarioSorted
  /\ Parser.getSelectedChapters scenarioSorted = scenarioSorted.
Proof.
  split; [reflexivity|].
  apply (@discovered_chapters_are_fresh (sampleBrowser []) scenarioPage
           "http://novels.example" Parser.getDefaultRules scenarioSorted).
  reflexivity.
Defined.


(** ** After the fetch *)

Section Ready.

Context `{Browser}.

(** When the application holds the chapters of the parser and one of
    them at least is selected, [areChaptersReady] of the parser answers
    yes after [fetchAllChapters]: every chapter is then completed or in
    error, none is left pending, and the selection flags are as before. *)
Theorem chapters_are_ready_after_the_fetch (s : State.session) :
  State.aliased s = true ->
  Exists (fun ch => State.selected ch = true) (State.chapters s) ->
  Parser.areChaptersReady (State.chapters (snd (App.fetchAllChapters s)))
  = true.
Proof.
  intros Ha Hsel.
  destruct (fetchAllChapters_eq s) as [shown ->].
  assert (Hcur : State.currentChapters s = State.chapters s)
    by (unfold State.currentChapters; now rewrite Ha).
  rewrite Hcur.
  destruct (fetchFrom_spec (length (State.chapters s)) 0 (0, 0) s
              ltac:(lia))
    as (counts & new & R & _ & _ & _ & L & _ & _ & Ch).
  cbn zeta in *.
  destruct (App.fetchFrom 0 (length (State.chapters s)) (0, 0) s)
    as [o1 s1]. cbn [fst snd] in *. subst o1. cbn [snd].
  replace (State.chapters
             (State.setPackDisabled (counts.1 =? 0)
                (State.setShownError (shown counts s1) s1)))
    with (State.chapters s1) by (now destruct s1).
  assert (Settled : forall ch1, ch1 ∈ State.chapters s1 ->
            State.status_eqb (State.status ch1) State.Completed
            || State.status_eqb (State.status ch1) State.Error = true).
  { intros ch1 Hin. apply list_elem_of_lookup in Hin as [j Hj].
    assert (Hlt : j < length (State.chapters s)).
    { rewrite <- L. eapply lookup_lt_Some. exact Hj. }
    destruct (lookup_lt_is_Some_2 _ _ Hlt) as [ch Hch].
    destruct (Ch j ch Hch) as (ch1' & Hj' & _ & [[_ St]|[Hr _]]); [|lia].
    rewrite Hj in Hj'. injection Hj' as <-.
    destruct St as [-> | ->]; reflexivity. }
  unfold Parser.areChaptersReady, Parser.getSelectedChapters.
  apply andb_true_iff. split.
  - apply Nat.ltb_lt.
    apply Exists_exists in Hsel as (ch & Hin & Hs).
    apply list_elem_of_lookup in Hin as [j Hj].
    destruct (Ch j ch Hj) as (ch1 & Hj1 & Same & _).
    assert (Hin1 : ch1 ∈ filter (fun c => State.selected c)
                     (State.chapters s1)).
    { apply list_elem_of_filter. split.
      - destruct Same as (_ & _ & _ & _ & Es). rewrite Es, Hs. exact I.
      - eapply list_elem_of_lookup_2. exact Hj1. }
    destruct (filter _ (State.chapters s1)); [inversion Hin1|cbn; lia].
  - apply forallb_forall. intros ch1 Hin.
    apply Settled. rewrite <- list_elem_of_In in Hin.
    apply list_elem_of_filter in Hin. apply Hin.
Qed.

End Ready.

Lemma ready_after_the_fetch_of_a_sample :
  Parser.areChaptersReady
    (State.chapters
       (snd (@App.fetchAllChapters (sampleBrowser []) sampleSession)))
  = true.
Proof.
  apply (@chapters_are_ready_after_the_fetch (sampleBrowser [])
           sampleSession); [reflexivity|].
  constructor. reflexivity.
Defined.

(** ** A page that cannot be fetched *)

Section Unreachable.

Context `{Browser}.

Lemma tryProxies_nothing (proxies : list proxy) (target : string) (n : nat)
  (lastError : option string) :
  (forall p, In p proxies -> delivers_nothing (proxyFetch p target n)) ->
  fst (Parser.tryProxies proxies target n lastError) = None.
Proof.
  revert lastError. induction proxies as [|p ps IH]; intros e Hp;
    [reflexivity|].
  unfold Parser.tryProxies. fold Parser.tryProxies.
  pose proof (Hp p (or_introl eq_refl)) as Hd.
  destruct (proxyFetch p target n) as [m|html].
  - apply IH. intros q Hq. apply Hp. now right.
  - cbn in Hd. subst html. cbn [Js.isEmpty].
    apply IH. intros q Hq. apply Hp. now right.
Qed.

(** With a valid address and proxies that deliver nothing, each of
    them failing or answering with an empty text, [handleLoadAndAnalyze]
    returns normally and shows the message that the page could not be
    accessed; the application then holds no chapter and no check box, the
    parser keeps the chapters it had, and nothing is fetched or written to
    the archive. *)
Theorem unreachable_page_is_reported (pageUrl : string)
  (s : State.session) :
  Js.isEmpty pageUrl = false ->
  App.isValidUrl pageUrl = true ->
  (forall p, In p Parser.pageProxies ->
             delivers_nothing (proxyFetch p pageUrl (State.loads s))) ->
  let result := App.handleLoadAndAnalyze pageUrl s in
  fst result = State.Returned tt
  /\ State.shownError (snd result) = Some unreachableMessage
  /\ State.currentChapters (snd result) = []
  /\ State.boxes (snd result) = []
  /\ State.chapters (snd result) = State.chapters s
  /\ State.trace (snd result) = State.trace s
  /\ State.zip (snd result) = State.zip s.
Proof.
  intros Hne Hv Hp. cbn zeta.
  unfold App.handleLoadAndAnalyze. rewrite Hne, Hv. cbn [negb].
  unfold State.tryCatch, State.bind, App.updateChaptersSection,
    State.modify, App.showError, Parser.parsePage, State.tryCatch,
    State.bind, State.get, State.modify, State.throw.
  cbn [map].
  replace (State.loads
             (State.setBoxes []
                (State.setAliased false (State.setShownError None s))))
    with (State.loads s) by (now destruct s).
  rewrite (tryProxies_nothing _ _ _ _ Hp).
  destruct s; cbn. repeat split.
Qed.

End Unreachable.

Lemma unreachable_without_network :
  fst (@App.handleLoadAndAnalyze offlineBrowser "http://novels.example/"
         State.initial) = State.Returned tt
  /\ State.shownError
       (snd (@App.handleLoadAndAnalyze offlineBrowser
               "http://novels.example/" State.initial))
     = Some unreachableMessage.
Proof.
  pose proof (@unreachable_page_is_reported offlineBrowser
                "http://novels.example/" State.initial
                ltac:(reflexivity) ltac:(reflexivity)
                ltac:(intros p _; exact I)) as W.
  cbv zeta in W. split; apply W.
Defined.

(** ** The cover *)

Lemma within_trans (a b c : string) : within a b -> within b c -> within a c.
Proof.
  intros (p1 & q1 & ->) (p2 & q2 & ->).
  exists (p2 +:+ p1), (q1 +:+ q2). now rewrite !append_assoc.
Qed.

Lemma metadata_declares_the_cover (metaInfo : Meta.info) (now : string) :
  Js.isEmpty (Meta.coverImageUrl metaInfo) = false ->
  within coverMeta (EpubGenerator.opfMetadataRest metaInfo now).
Proof.
  intros Hu. unfold EpubGenerator.opfMetadataRest. rewrite Hu.
  apply (within_inner _ _ "        " EmptyString).
  rewrite append_nil_r.
  apply (within_concat _ [_; _; _; _; _; _; _; _; _; _; _; _]).
Qed.

Lemma manifest_declares_the_cover (metaInfo : Meta.info)
  (chapters : list State.chapter) :
  Js.isEmpty (Meta.coverImageUrl metaInfo) = false ->
  within coverItem (EpubGenerator.opfManifest metaInfo chapters).
Proof.
  intros Hu. unfold EpubGenerator.opfManifest. rewrite Hu.
  apply (within_inner _ _ "        " EmptyString).
  rewrite append_nil_r.
  apply (within_concat _ [_; _; _; _; _; _]).
Qed.

Section Cover.

Context `{Browser}.

(** A cover that cannot be downloaded does not stop the assembly, and is
    declared all the same: with the address of a cover in the metadata and
    a download that fails, [generateEpub] returns an archive whose package
    document has the [meta] element and the manifest item of the cover,
    while the entry of the cover itself is not written: it is what the
    archive had before, nothing in a new archive. *)
Theorem missing_cover_is_still_declared (metaInfo : Meta.info)
  (c : State.chapter) (cs : list State.chapter) (s : State.session) :
  Js.isEmpty (Meta.coverImageUrl metaInfo) = false ->
  coverFetch (Meta.coverImageUrl metaInfo) = None ->
  exists (archive : gmap string string) (opf : string),
    fst (EpubGenerator.generateEpub metaInfo (c :: cs) s)
    = State.Returned archive
    /\ archive !! "OEBPS/cover.jpg" = State.zip s !! "OEBPS/cover.jpg"
    /\ archive !! "OEBPS/content.opf" = Some opf
    /\ within coverMeta opf
    /\ within coverItem opf.
Proof.
  intros Hu Hf. rewrite generateEpub_run. cbn [fst].
  exists (assembled metaInfo (c :: cs) (State.packs s) (State.zip s)).
  exists (EpubGenerator.contentOpf metaInfo (c :: cs)
            (randomUUID (State.packs s)) (dateNow (State.packs s))).
  split; [reflexivity|]. split; [|split; [apply assembled_opf|]].
  - unfold assembled, writeCover. rewrite Hu, Hf.
    rewrite writeChapters_other
      by (intros j; apply fixed_not_chapterPath; cbn; tauto).
    now rewrite !lookup_insert_ne by discriminate.
  - unfold EpubGenerator.contentOpf. split.
    + apply (within_trans _ (EpubGenerator.opfMetadataRest metaInfo
                               (dateNow (State.packs s))));
        [now apply metadata_declares_the_cover|].
      apply (within_concat _ [_; _; _; _; _]).
    + apply (within_trans _ (EpubGenerator.opfManifest metaInfo (c :: cs)));
        [now apply manifest_declares_the_cover|].
      apply (within_concat _ [_; _; _; _; _; _; _]).
Qed.

End Cover.

Lemma missing_cover_of_a_sample :
  exists (archive : gmap string string) (opf : string),
    fst (@EpubGenerator.generateEpub (sampleBrowser []) coveredMeta
           [completed "http://novels.example/c1" "Chapter 1" 0 "<p>One</p>"]
           State.initial)
    = State.Returned archive
    /\ archive !! "OEBPS/cover.jpg"
       = State.zip State.initial !! "OEBPS/cover.jpg"
    /\ archive !! "OEBPS/content.opf" = Some opf
    /\ within coverMeta opf
    /\ within coverItem opf.
Proof.
  apply (@missing_cover_is_still_declared (sampleBrowser []) coveredMeta
           (completed "http://novels.example/c1" "Chapter 1" 0 "<p>One</p>")
           [] State.initial); reflexivity.
Defined.

(** ** Selecting and deselecting all chapters *)

Lemma deselectFrom_lookup (chs : list State.chapter) (i : nat)
  (bx : list State.checkbox) (j : nat) :
  App.deselectFrom i chs bx !! j
  = if (i <=? j) && (j <? i + length chs)
    then App.setChecked false <$> bx !! j
    else bx !! j.
Proof.
  revert i bx. induction chs as [|ch chs IH]; intros i bx.
  - cbn [App.deselectFrom length].
    destruct (i <=? j) eqn:E1; [|reflexivity].
    destruct (j <? i + 0) eqn:E2; [|reflexivity].
    apply Nat.leb_le in E1. apply Nat.ltb_lt in E2. lia.
  - cbn [App.deselectFrom length]. rewrite IH.
    destruct (decide (j = i)) as [->|Hj].
    + rewrite list_lookup_alter_eq.
      replace (S i <=? i) with false by (symmetry; apply Nat.leb_gt; lia).
      replace (i <=? i) with true by (symmetry; apply Nat.leb_le; lia).
      replace (i <? i + S (length chs)) with true
        by (symmetry; apply Nat.ltb_lt; lia).
      reflexivity.
    + rewrite list_lookup_alter_ne by congruence.
      destruct (S i <=? j) eqn:E1, (j <? S i + length chs) eqn:E2;
        destruct (i <=? j) eqn:E3, (j <? i + S (length chs)) eqn:E4;
        try reflexivity;
        rewrite ?Nat.leb_le, ?Nat.leb_gt, ?Nat.ltb_lt, ?Nat.ltb_ge in *;
        lia.
Qed.

Lemma selectFrom_lookup (chs : list State.chapter) (i : nat)
  (bx : list State.checkbox) (j : nat) :
  App.selectFrom i chs bx !! j
  = match chs !! (j - i) with
    | Some ch =>
        if (i <=? j) && isCompleted ch
        then App.setChecked true <$> bx !! j
        else bx !! j
    | None => bx !! j
    end.
Proof.
  revert i bx. induction chs as [|ch chs IH]; intros i bx; [reflexivity|].
  cbn [App.selectFrom]. rewrite IH.
  destruct (decide (j = i)) as [->|Hj].
  - rewrite Nat.sub_diag.
    change ((ch :: chs) !! 0) with (Some ch).
    replace (i - S i) with 0 by lia.
    replace (i <=? i) with true by (symmetry; apply Nat.leb_le; lia).
    replace (S i <=? i) with false by (symmetry; apply Nat.leb_gt; lia).
    cbn [andb]. unfold isCompleted.
    destruct (State.status_eqb (State.status ch) State.Completed).
    + rewrite list_lookup_alter_eq. now destruct (chs !! 0).
    + now destruct (chs !! 0).
  - assert (Hb : (if State.status_eqb (State.status ch) State.Completed
                  then alter (App.setChecked true) i bx else bx) !! j
                 = bx !! j).
    { destruct (State.status_eqb _ _); [|reflexivity].
      apply list_lookup_alter_ne. congruence. }
    rewrite Hb.
    destruct (le_lt_dec j i) as [Hle|Hlt].
    + replace (j - S i) with 0 by lia. replace (j - i) with 0 by lia.
      change ((ch :: chs) !! 0) with (Some ch).
      replace (S i <=? j) with false by (symmetry; apply Nat.leb_gt; lia).
      replace (i <=? j) with false by (symmetry; apply Nat.leb_gt; lia).
      now destruct (chs !! 0).
    + replace (j - i) with (S (j - S i)) by lia.
      change ((ch :: chs) !! S (j - S i)) with (chs !! (j - S i)).
      replace (S i <=? j) with true by (symmetry; apply Nat.leb_le; lia).
      replace (i <=? j) with true by (symmetry; apply Nat.leb_le; lia).
      reflexivity.
Qed.

Lemma omap_none {A B : Type} (f : A -> option B) (l : list A) :
  Forall (fun x => f x = None) l -> omap f l = [].
Proof.
  induction 1 as [|x l Hx _ IH]; [reflexivity|].
  cbn. now rewrite Hx.
Qed.

Lemma omap_filter_lookup {A : Type} (f : A -> bool) (l : list A) (k : nat) :
  omap (fun i => match l !! (i - k) with
                 | Some a => if f a then Some a else None
                 | None => None
                 end) (seq k (length l))
  = List.filter f l.
Proof.
  rewrite <- (omap_imap_seq (fun _ a => if f a then Some a else None) l k).
  clear k. induction l as [|a l IH]; [reflexivity|].
  cbn. destruct (f a); cbn; now rewrite <- IH.
Qed.

Section Boxes.

Context `{Browser}.

(** After [deselectAllChapters] no chapter is selected; a request to
    pack then shows the message that asks for a chapter, hands over no
    archive and leaves the archive of the generator as it was. *)
Theorem deselectAll_leaves_nothing_to_pack (metaInfo : Meta.info)
  (s : State.session) :
  let s' := snd (App.deselectAllChapters s) in
  App.getSelectedChapters s' = []
  /\ State.currentChapters s' = State.currentChapters s
  /\ fst (App.handlePackEpub metaInfo s') = State.Returned None
  /\ State.shownError (snd (App.handlePackEpub metaInfo s'))
     = Some "Please select at least one chapter"
  /\ State.zip (snd (App.handlePackEpub metaInfo s')) = State.zip s.
Proof.
  intros s'.
  assert (Hc : State.currentChapters s' = State.currentChapters s)
    by (subst s'; now destruct s).
  assert (Hb : State.boxes s'
               = App.deselectFrom 0 (State.currentChapters s)
                   (State.boxes s))
    by (subst s'; now destruct s).
  assert (Hz : State.zip s' = State.zip s) by (subst s'; now destruct s).
  assert (E : App.getSelectedChapters s' = []).
  { rewrite getSelectedChapters_included.
    unfold includedChapters, includedFrom. apply omap_none.
    apply Forall_forall. intros i Hi. apply elem_of_seq in Hi as [_ Hi]. unfold included.
    rewrite Hb, deselectFrom_lookup, Hc in *.
    replace (0 <=? i) with true by (symmetry; apply Nat.leb_le; lia).
    replace (i <? 0 + length (State.currentChapters s)) with true
      by (symmetry; apply Nat.ltb_lt; lia).
    cbn [andb].
    destruct (State.boxes s !! i) as [box|]; [|reflexivity].
    cbn. now destruct (State.currentChapters s !! i). }
  split; [exact E|]. split; [exact Hc|].
  rewrite (handlePackEpub_none metaInfo s' E). cbn [fst snd].
  split; [reflexivity|]. split; [now destruct s'|].
  rewrite <- Hz. now destruct s'.
Qed.

(** With a check box for every chapter, as the list of chapters on
    the page has it, what is selected after [selectAllChapters] are the
    completed chapters, all of them and in their order, whatever boxes were
    checked before; a chapter in error or pending is not among them. *)
Theorem selectAll_selects_the_completed_chapters (s : State.session) :
  length (State.currentChapters s) <= length (State.boxes s) ->
  let s' := snd (App.selectAllChapters s) in
  App.getSelectedChapters s'
  = List.filter isCompleted (State.currentChapters s)
  /\ State.currentChapters s' = State.currentChapters s.
Proof.
  intros Hlen s'.
  assert (Hc : State.currentChapters s' = State.currentChapters s)
    by (subst s'; now destruct s).
  assert (Hb : State.boxes s'
               = App.selectFrom 0 (State.currentChapters s) (State.boxes s))
    by (subst s'; now destruct s).
  split; [|exact Hc].
  rewrite getSelectedChapters_included.
  unfold includedChapters, includedFrom. rewrite Hc.
  rewrite <- (omap_filter_lookup isCompleted (State.currentChapters s) 0).
  apply list_omap_ext. apply Forall2_same_length_lookup_2; [reflexivity|].
  intros i x y Hx Hy. rewrite Hx in Hy. injection Hy as <-.
  apply lookup_seq in Hx as [-> Hi]. cbn [Nat.add]. rewrite Nat.sub_0_r.
  unfold included. rewrite Hb, selectFrom_lookup, Hc, Nat.sub_0_r.
  destruct (lookup_lt_is_Some_2 (State.currentChapters s) i Hi) as [ch Hch].
  destruct (lookup_lt_is_Some_2 (State.boxes s) i ltac:(lia)) as [box Hbox].
  rewrite Hch, Hbox. cbn [Nat.leb andb]. unfold isCompleted.
  destruct (State.status_eqb (State.status ch) State.Completed);
    [reflexivity|]. cbn. now rewrite andb_false_r.
Qed.

End Boxes.

Lemma selectAll_after_a_sample_fetch :
  length (State.currentChapters fetchedSession)
  <= length (State.boxes fetchedSession)
  /\ App.getSelectedChapters (snd (App.selectAllChapters fetchedSession))
     = List.filter isCompleted (State.currentChapters fetchedSession).
Proof.
  split; [cbn; lia|].
  apply (selectAll_selects_the_completed_chapters fetchedSession).
  cbn. lia.
Defined.
